(** * Boudams: the trainer, its scorer and the model archive

    A shallow embedding of [boudams/trainer.py], [boudams/tagger.py] and
    [boudams/utils.py].  Python objects become records, mutation becomes
    explicit state passing, and an exception becomes the [Raise] outcome of a
    computation whose side effects up to the raise are kept.

    The neural network, the optimiser, the learning-rate scheduler, the
    vocabulary ([boudams/encoder.py]) and the host's libraries are used by the
    code through a handful of calls; each of them is an operation of an
    interface below ([LabelEncoder], [Host], [Backend]). *)

From Stdlib Require Import ZArith List Floats String Ascii Bool Lia.
From stdpp Require Import base option list strings pretty gmap.

Set Warnings "-inexact-float".

Local Open Scope Z_scope.

(** ** Python values the code handles *)

(** The exceptions that the modelled code raises, catches or lets through. *)
Inductive exn : Type :=
  | ZeroDivisionError
  | StatisticsError
  | ValueError
  | TypeError
  | OverflowError
  | FileNotFoundError
  | KeyError
  | StopIteration
  | UnicodeDecodeError
  | JSONDecodeError
  | BadGzipFile
  | UnpicklingError
  | ReadError
  | FileExistsError
  | IsADirectoryError
  | KeyboardInterrupt
  | EarlyStopException.

#[global] Instance exn_eq_dec : EqDecision exn.
Proof. solve_decision. Defined.

(** The outcome of evaluating an expression: a value or a raised exception. *)
Inductive result (A : Type) : Type :=
  | Ok (a : A)
  | Raise (e : exn).
Arguments Ok {A} a.
Arguments Raise {A} e.

#[global] Instance result_ret : MRet result := fun _ a => Ok a.
#[global] Instance result_bind : MBind result := fun _ _ f r =>
  match r with
  | Ok a => f a
  | Raise e => Raise e
  end.
#[global] Instance result_fmap : FMap result := fun _ _ f r =>
  match r with
  | Ok a => Ok (f a)
  | Raise e => Raise e
  end.

Definition is_ok {A} (r : result A) : bool :=
  match r with
  | Ok _ => true
  | Raise _ => false
  end.

(** Python floats are IEEE 754 binary64 numbers: the kernel's [float]. *)
Module PyFloat.

Definition inf : float := infinity.

(** [float(z)] for an integer of moderate size (nearest binary64 number). *)
Definition of_Z (z : Z) : float := SF2Prim (binary_normalize prec emax z 0 false).

Definition of_nat (n : nat) : float := of_Z (Z.of_nat n).

(** [x != y] *)
Definition ne (x y : float) : bool := negb (PrimFloat.eqb x y).

(** The nearest binary64 number to the rational [m * 2^e / d], for [0 < d]:
    what [float(Fraction)] and the true division of two integers return. *)
Definition round_ratio (m e d : Z) : float :=
  match m, d with
  | Z0, _ => 0%float
  | Zpos p, Zpos q =>
      SF2Prim (SFdiv prec emax (S754_finite false p e) (S754_finite false q 0))
  | Zneg p, Zpos q =>
      SF2Prim (SFdiv prec emax (S754_finite true p e) (S754_finite false q 0))
  | _, _ => nan
  end.

(** [a / b] on two integers. *)
Definition int_truediv (a b : Z) : result float :=
  if b =? 0 then Raise ZeroDivisionError
  else if a =? 0 then (if 0 <? b then Ok 0%float else Ok (-0)%float)
  else if 0 <? b then Ok (round_ratio a 0 b)
  else Ok (round_ratio (- a) 0 (- b)).

(** [x / n] for a float and an integer. *)
Definition float_div_int (x : float) (n : Z) : result float :=
  if n =? 0 then Raise ZeroDivisionError else Ok (x / of_Z n)%float.

(** [float.as_integer_ratio], as a mantissa and a binary exponent; [None] on
    an infinity or a NaN. *)
Definition exact_ratio (x : float) : option (Z * Z) :=
  match Prim2SF x with
  | S754_zero _ => Some (0, 0)
  | S754_finite false m e => Some (Zpos m, e)
  | S754_finite true m e => Some (Zneg m, e)
  | _ => None
  end.

(** Exact sum of two dyadic numbers [m1 * 2^e1 + m2 * 2^e2]. *)
Definition dyadic_add (a b : Z * Z) : Z * Z :=
  let e := Z.min (snd a) (snd b) in
  (fst a * 2 ^ (snd a - e) + fst b * 2 ^ (snd b - e), e).

(** Exact sum of a list of floats, [None] when one of them is not finite. *)
Fixpoint exact_sum (data : list float) : option (Z * Z) :=
  match data with
  | [] => Some (0, 0)
  | x :: rest =>
      r ← exact_ratio x;
      s ← exact_sum rest;
      Some (dyadic_add r s)
  end.

End PyFloat.

(** [statistics.mean]: the exact mean, rounded once; when some value is not
    finite the sum of those values alone is divided; no data is an error. *)
Definition statistics_mean (data : list float) : result float :=
  match data with
  | [] => Raise StatisticsError
  | _ :: _ =>
      let n := Z.of_nat (length data) in
      match PyFloat.exact_sum data with
      | Some (m, e) => Ok (PyFloat.round_ratio m e n)
      | None =>
          let special := filter (fun x => is_finite x = false) data in
          Ok (fold_left PrimFloat.add special 0%float / PyFloat.of_Z n)%float
      end
  end.

(** ** The vocabulary, as the scorer and the archive use it

    [boudams/encoder.py] is not among the sources: [LabelEncoder] is the
    interface of the calls made on [tagger.vocabulary]. *)
Record LabelEncoder : Type := {
  pad_token_index : Z;
  (** [reverse_batch(batch, ignore=..., masked=...)]: ids back to symbols. *)
  reverse_batch : list (list Z) -> list Z -> list (list Z) -> list (list string);
  (** [transcribe_batch(batch)]: one text per example. *)
  transcribe_batch : list (list string) -> list string;
  (** [dump()]: the vocabulary as JSON text. *)
  dump : string;
}.

(** ** External metrics *)

(** [sklearn.metrics.accuracy_score(y_true, y_pred)] on two id sequences: the
    share of positions that agree.  Sequences of different lengths are
    refused, and so is a sequence of no id (both raise [ValueError]). *)
Definition accuracy_score (y_true y_pred : list Z) : result float :=
  if (length y_true =? length y_pred)%nat && negb (length y_true =? 0)%nat then
    let hits := filter (fun tp => fst tp = snd tp) (zip y_true y_pred) in
    Ok (PyFloat.of_nat (length hits) / PyFloat.of_nat (length y_true))%float
  else Raise ValueError.

(** [leven.levenshtein(a, b)]: the least number of single-character
    insertions, deletions and substitutions that turn one text into the
    other. *)
Fixpoint edit_distance (a : list ascii) : list ascii -> nat :=
  match a with
  | [] => fun b => length b
  | x :: a' =>
      fix against (b : list ascii) : nat :=
        match b with
        | [] => length a
        | y :: b' =>
            let substitute := (edit_distance a' b' + (if decide (x = y) then 0 else 1))%nat in
            let delete := S (edit_distance a' b) in
            let insert := S (against b') in
            Nat.min substitute (Nat.min delete insert)
        end
  end.

Definition levenshtein (a b : string) : Z :=
  Z.of_nat (edit_distance (list_ascii_of_string a) (list_ascii_of_string b)).

(** ** Scorer *)

(** The namedtuple ["scores"]. *)
Record scores_t : Type := {
  accuracy : float;
  leven : float;
  leven_per_char : float;
}.

Record Scorer : Type := {
  tagger_vocabulary : LabelEncoder;
  trues : list (list Z);
  preds : list (list Z);
  srcs : list (list Z);
  scores : option scores_t;
}.

(** [Scorer(tagger)] *)
Definition Scorer_init (vocabulary : LabelEncoder) : Scorer :=
  {| tagger_vocabulary := vocabulary; trues := []; preds := []; srcs := [];
     scores := None |}.

(** The body of the loop of [Scorer.compute]: one decoded pair. *)
Definition compute_step (acc : list Z * list float) (texts : string * string)
  : result (list Z * list float) :=
  let '(tr_true, tr_pred) := texts in
  let levenshteins := fst acc ++ [levenshtein tr_true tr_pred] in
  per_char ← PyFloat.int_truediv (levenshtein tr_true tr_pred)
                                 (Z.of_nat (String.length tr_true));
  Ok (levenshteins, snd acc ++ [per_char]).

Fixpoint compute_loop (acc : list Z * list float) (pairs : list (string * string))
  : result (list Z * list float) :=
  match pairs with
  | [] => Ok acc
  | texts :: rest => acc' ← compute_step acc texts; compute_loop acc' rest
  end.

(** The texts of a list of id sequences, as [compute] decodes them. *)
Definition decode (sc : Scorer) (batch : list (list Z)) : list string :=
  let v := tagger_vocabulary sc in
  transcribe_batch v (reverse_batch v batch [pad_token_index v] (srcs sc)).

(** [Scorer.compute]: sets [scores], or raises and leaves the scorer as it
    was.  The logging under [DEBUG] is left out. *)
Definition compute (sc : Scorer) : result Scorer :=
  accuracy ← mapM (fun tp => accuracy_score (fst tp) (snd tp))
                  (zip (trues sc) (preds sc));
  '(levenshteins, leven_per_char) ←
     compute_loop ([], []) (zip (decode sc (trues sc)) (decode sc (preds sc)));
  a ← statistics_mean accuracy;
  l ← statistics_mean (map PyFloat.of_Z levenshteins);
  c ← statistics_mean leven_per_char;
  Ok {| tagger_vocabulary := tagger_vocabulary sc;
        trues := trues sc; preds := preds sc; srcs := srcs sc;
        scores := Some {| accuracy := a; leven := l; leven_per_char := c |} |}.

(** The shared shape of the three accessors: compute once, then read. *)
Definition scored (sc : Scorer) : result (scores_t * Scorer) :=
  match scores sc with
  | Some s => Ok (s, sc)
  | None =>
      sc' ← compute sc;
      match scores sc' with
      | Some s => Ok (s, sc')
      | None => Raise TypeError
      end
  end.

Definition get_accuracy (sc : Scorer) : result (float * Scorer) :=
  '(s, sc') ← scored sc; Ok (accuracy s, sc').

Definition avg_levenshteins (sc : Scorer) : result (float * Scorer) :=
  '(s, sc') ← scored sc; Ok (leven s, sc').

Definition avg_levenshteins_per_char (sc : Scorer) : result (float * Scorer) :=
  '(s, sc') ← scored sc; Ok (leven_per_char s, sc').

(** The body of the loop of [register_batch]: one example of the batch. *)
Definition register_one (sc : Scorer) (ex : list Z * list Z * list Z) : Scorer :=
  let '(y_true, y_pred, x) := ex in
  {| tagger_vocabulary := tagger_vocabulary sc;
     trues := trues sc ++ [y_true];
     preds := preds sc ++ [y_pred];
     srcs := srcs sc ++ [x];
     scores := scores sc |}.

(** [Scorer.register_batch], on the three tensors as nested lists
    ([tolist()]); [zip] stops at the shortest of the three. *)
Definition register_batch (hypotheses targets src : list (list Z)) (sc : Scorer)
  : Scorer :=
  let out := hypotheses in
  let exp := targets in
  fold_left register_one (zip (zip exp out) src) sc.

(** Modelled from the spec: the vocabulary of [boudams/encoder.py], which is
    not among the sources.  Decoding drops the ignored ids (the pad id) and
    maps each remaining id to its character; a text joins the characters of
    an example.  Id 0 is the pad. *)
Definition char_vocabulary (itos : Z -> string) : LabelEncoder :=
  {| pad_token_index := 0;
     reverse_batch := fun batch ignore _masked =>
       map (fun ex : list Z => map itos (filter (fun ind => ind ∉ ignore) ex)) batch;
     transcribe_batch := fun batch => map (String.concat "") batch;
     dump := "{}" |}.

(** Ids 1..26 are the letters a..z. *)
Definition latin_itos (ind : Z) : string :=
  if decide (1 <= ind <= 26)
  then String (ascii_of_nat (Z.to_nat (ind + 96))) EmptyString
  else "?".

Definition latin : LabelEncoder := char_vocabulary latin_itos.

(** ** Paths ([os.path]) and [boudams/utils.py] *)

Module Str.

(** [p.rfind(c)]: the last index of a character, -1 when there is none. *)
Definition rfind (c : ascii) (p : list ascii) : Z :=
  snd (fold_left (fun st x => (fst st + 1, if decide (x = c) then fst st else snd st))
                 p (0, -1)).

Definition slice_to (i : Z) (p : list ascii) : list ascii := take (Z.to_nat i) p.
Definition slice_from (i : Z) (p : list ascii) : list ascii := drop (Z.to_nat i) p.

Fixpoint lstrip (c : ascii) (p : list ascii) : list ascii :=
  match p with
  | [] => []
  | x :: p' => if decide (x = c) then lstrip c p' else p
  end.

(** [p.rstrip(c)] *)
Definition rstrip (c : ascii) (p : list ascii) : list ascii :=
  rev (lstrip c (rev p)).

(** [x.isspace()] on one character.  A text holds characters below U+0100,
    of which Python counts as white space the controls 9 to 13 and 28 to 31,
    the space, U+0085 and U+00A0. *)
Definition is_blank (x : ascii) : bool :=
  let n := nat_of_ascii x in
  ((9 <=? n) && (n <=? 13) || (28 <=? n) && (n <=? 32)
   || (n =? 133) || (n =? 160))%nat.

Fixpoint lstrip_blank (p : list ascii) : list ascii :=
  match p with
  | [] => []
  | x :: p' => if is_blank x then lstrip_blank p' else p
  end.

(** [s.strip()]: the white space off both ends. *)
Definition strip (s : string) : string :=
  string_of_list_ascii
    (rev (lstrip_blank (rev (lstrip_blank (list_ascii_of_string s))))).

(** [s.startswith(t)] *)
Fixpoint startswith (t s : list ascii) : bool :=
  match t, s with
  | [], _ => true
  | x :: t', y :: s' => bool_decide (x = y) && startswith t' s'
  | _ :: _, [] => false
  end.

(** [s.replace(old, new)] for a non-empty [old]; [fuel] bounds the scan by the
    length of the text. *)
Fixpoint replace_from (fuel : nat) (old new s : list ascii) : list ascii :=
  match fuel, s with
  | O, _ => s
  | _, [] => []
  | S fuel', x :: s' =>
      if startswith old s
      then new ++ replace_from fuel' old new (drop (length old) s)
      else x :: replace_from fuel' old new s'
  end.

Definition replace (old new s : string) : string :=
  string_of_list_ascii
    (replace_from (String.length s) (list_ascii_of_string old)
                  (list_ascii_of_string new) (list_ascii_of_string s)).

End Str.

(** [os.path.splitext] (POSIX): the extension starts at the last dot of the
    last component, leading dots of that component apart. *)
Definition os_path_splitext (path : string) : string * string :=
  let p := list_ascii_of_string path in
  let sepIndex := Str.rfind "/"%char p in
  let dotIndex := Str.rfind "."%char p in
  if (sepIndex <? dotIndex)
     && existsb (fun x => negb (bool_decide (x = "."%char)))
                (Str.slice_from (sepIndex + 1) (Str.slice_to dotIndex p))
  then (string_of_list_ascii (Str.slice_to dotIndex p),
        string_of_list_ascii (Str.slice_from dotIndex p))
  else (path, "").

(** [os.path.dirname] (POSIX). *)
Definition os_path_dirname (path : string) : string :=
  let p := list_ascii_of_string path in
  let head := Str.slice_to (Str.rfind "/"%char p + 1) p in
  if forallb (fun x => bool_decide (x = "/"%char)) head
  then string_of_list_ascii head
  else string_of_list_ascii (Str.rstrip "/"%char head).

(** [os.path.join(a, b)] for a relative [b]. *)
Definition os_path_join (a b : string) : string :=
  if Str.startswith ["/"%char] (rev (list_ascii_of_string a)) || bool_decide (a = "")
  then a +:+ b else a +:+ "/" +:+ b.

Module Utils.

(** [".".join([a, b])] and ["-".join([a, b])] *)
Definition join2 (sep a b : string) : string := a +:+ sep +:+ b.

Definition drop_dot (ext : string) : string :=
  match ext with
  | String "." rest => rest
  | _ => ext
  end.

(** [utils.ensure_ext(path, ext, infix)] *)
Definition ensure_ext (path ext : string) (infix : option string) : string :=
  let '(path, oldext) := os_path_splitext path in
  let ext := drop_dot ext in
  let oldext := drop_dot oldext in
  let path := match infix with
              | Some i => join2 "-" path i
              | None => path
              end in
  let path := if negb (bool_decide (oldext = "")) && negb (bool_decide (oldext = ext))
              then join2 "." path oldext else path in
  join2 "." path ext.

End Utils.

(** ** Effects: a state that survives a raised exception *)

Definition Eff (S A : Type) : Type := S -> result A * S.

#[global] Instance Eff_ret {S} : MRet (Eff S) := fun _ a s => (Ok a, s).
#[global] Instance Eff_bind {S} : MBind (Eff S) := fun _ _ f m s =>
  match m s with
  | (Ok a, s') => f a s'
  | (Raise e, s') => (Raise e, s')
  end.

Module EffNotations.
Notation "c1 ;; c2" := (mbind (fun _ => c2) c1)
  (at level 100, c2 at level 200, right associativity).
End EffNotations.
Import EffNotations.

Definition raise {S A} (e : exn) : Eff S A := fun s => (Raise e, s).
Definition get {S} : Eff S S := fun s => (Ok s, s).
Definition modify {S} (f : S -> S) : Eff S unit := fun s => (Ok tt, f s).
Definition lift_result {S A} (r : result A) : Eff S A := fun s => (r, s).

(** [try: body except e: handler] *)
Definition try_except {S A} (body : Eff S A) (e : exn) (handler : Eff S A) : Eff S A :=
  fun s =>
    match body s with
    | (Raise e', s') => if decide (e' = e) then handler s' else (Raise e', s')
    | done => done
    end.

(** Run a computation on a component of a larger state. *)
Definition zoom {S T A} (proj : S -> T) (inj : T -> S -> S) (c : Eff T A) : Eff S A :=
  fun s => let '(r, t') := c (proj s) in (r, inj t' s).

(** ** The tagger's settings and the model backend *)

(** [Seq2SeqTokenizer.settings] *)
Record Settings : Type := {
  enc_kernel_size : Z;
  dec_kernel_size : Z;
  enc_n_layers : Z;
  dec_n_layers : Z;
  hidden_size : Z;
  enc_hid_dim : Z;
  dec_hid_dim : Z;
  emb_enc_dim : Z;
  emb_dec_dim : Z;
  enc_dropout : float;
  dec_dropout : float;
  out_max_sentence_length : Z;
  system : string;
}.

(** The members of the enum [PlateauModes].  [leven] and [leven_per_char] carry
    the value of [loss] (["min"]), so Python makes them aliases of [loss]. *)
Inductive PlateauModes : Type := mode_loss | mode_accuracy | mode_leven | mode_leven_per_char.

(** What the code asks of torch and of the network classes of
    [boudams/model], none of which is among the sources. *)
Class Backend : Type := {
  (** a [state_dict]: the learned parameters *)
  Params : Type;
  (** one batch of an epoch: [(src, src_len, trg, _)] *)
  Batch : Type;
  (** the loss tensor [model.gradient] returns *)
  Loss : Type;
  Optimizer : Type;
  Plateau : Type;
  (** the network a [Seq2SeqTokenizer] builds for its settings *)
  new_model : LabelEncoder -> Settings -> Params;
  (** [tagger.init_weights], by [system]: [None] for ["conv"] *)
  init_weights_for : string -> option (Params -> Params);
  (** [model.load_state_dict(d)] on parameters of the expected shapes *)
  load_state_dict : Params -> Params -> result Params;
  (** [model.gradient(src, src_len, trg, scorer=, criterion=, evaluate=)] of
      a model with the given parameters, in training mode or not: the loss,
      and the scorer with the batch registered *)
  model_gradient : Params -> bool -> Batch -> Scorer -> bool -> result (Loss * Scorer);
  (** [loss.item()] *)
  loss_item : Loss -> float;
  (** [optim.Adam(model.parameters(), lr=lr)] *)
  Adam : Params -> float -> Optimizer;
  (** [optimizer.zero_grad()], [loss.backward()],
      [clip_grad_norm_(model.parameters(), clip)], [optimizer.step()] *)
  optimizer_update : Optimizer -> Params -> Loss -> float -> Optimizer * Params;
  (** [optimizer.param_groups[0]['lr']] *)
  optimizer_lr : Optimizer -> float;
  (** [ReduceLROnPlateau(optimizer, mode=, factor=, patience=, min_lr=)] *)
  ReduceLROnPlateau : Optimizer -> string -> float -> Z -> float -> Plateau;
  (** [lr_scheduler.step(metric)]: may lower the optimiser's rate *)
  plateau_step : Plateau -> Optimizer -> float -> Plateau * Optimizer;
  num_bad_epochs : Plateau -> Z;
  plateau_patience : Plateau -> Z;
  set_plateau_patience : Z -> Plateau -> Plateau;
}.

(** What the code asks of the Python runtime and the operating system. *)
Class Host : Type := {
  (** [math.exp] *)
  math_exp : float -> result float;
  (** [str(x)] on a float *)
  str_float : float -> string;
  (** [str(uuid.uuid1())], by how many were drawn before *)
  uuid1 : nat -> string;
  (** the bytes [gzip.GzipFile(path, 'w')] writes for [string.encode()] *)
  gzip_compress : string -> string;
  (** [gzip.open(f).read().decode()]: the text of a gzip stream *)
  gzip_decompress : string -> result string;
  (** [json.dumps] on the settings *)
  json_dumps : Settings -> string;
  (** [json.loads] of a text that holds settings *)
  json_loads_settings : string -> result Settings;
  (** [LabelEncoder.load(json.load(f))] on the bytes of a file opened as text *)
  load_vocabulary : string -> result LabelEncoder;
}.

(** ** Scores, the tagger and the world the trainer acts on *)

Module Score.
(** The namedtuple ["Score"]. *)
Record t : Type := {
  loss : float;
  perplexity : float;
  accuracy : float;
  leven : float;
  leven_per_char : float;
  scorer : option Scorer;
}.
End Score.

Section Model.
Context `{backend : Backend} `{host : Host}.

Record DatasetIterator : Type := {
  batch_count : Z;
  (** the batches that the generator of [get_epoch(batch_size=...)] yields *)
  get_epoch : Z -> list Batch;
}.

(** A [Seq2SeqTokenizer]: what it was built from, and its network. *)
Record Seq2SeqTokenizer : Type := {
  vocabulary : LabelEncoder;
  settings : Settings;
  (** the parameters of [tagger.model] *)
  model : Params;
  (** whether [tagger.model] is in training mode *)
  model_training : bool;
}.

Definition init_weights (tagger : Seq2SeqTokenizer) : option (Params -> Params) :=
  init_weights_for (system (settings tagger)).

Definition set_model (p : Params) (tagger : Seq2SeqTokenizer) : Seq2SeqTokenizer :=
  {| vocabulary := vocabulary tagger; settings := settings tagger;
     model := p; model_training := model_training tagger |}.

Definition set_model_training (b : bool) (tagger : Seq2SeqTokenizer) : Seq2SeqTokenizer :=
  {| vocabulary := vocabulary tagger; settings := settings tagger;
     model := model tagger; model_training := b |}.

(** What a file holds: bytes, or the pickle [torch.save] wrote. *)
Inductive Blob : Type :=
  | Bytes (data : string)
  | Pickled (state_dict : Params).

Inductive File : Type :=
  | Regular (content : Blob)
  (** a tar archive: its members in the order they were added *)
  | Archive (members : list (string * Blob)).

(** A line of standard output. *)
Inductive Line : Type :=
  | Text (s : string)
  | TrainLine (train_score : Score.t)
  | ValLine (dev_score : Score.t)
  | SchedulerLine (lr : float) (lr_steps lr_patience : Z)
  | Blank.

(** What an observer of a run sees, in order. *)
Inductive Event : Type :=
  | Printed (line : Line)
  (** the progress bar of an epoch pass, by its [desc] *)
  | Progress (desc : string)
  (** [torch.save(..., path)] *)
  | TorchSave (path : string)
  (** the [debug] callback was called *)
  | Debugged.

Record World : Type := {
  files : gmap string File;
  dirs : gset string;
  trace : list Event;
  (** how many [uuid.uuid1()] were drawn *)
  uuids : nat;
  tagger : Seq2SeqTokenizer;
}.

Definition set_files (f : gmap string File -> gmap string File) (w : World) : World :=
  {| files := f (files w); dirs := dirs w; trace := trace w; uuids := uuids w;
     tagger := tagger w |}.

Definition set_dirs (f : gset string -> gset string) (w : World) : World :=
  {| files := files w; dirs := f (dirs w); trace := trace w; uuids := uuids w;
     tagger := tagger w |}.

Definition emit (e : Event) (w : World) : World :=
  {| files := files w; dirs := dirs w; trace := trace w ++ [e]; uuids := uuids w;
     tagger := tagger w |}.

Definition set_tagger (f : Seq2SeqTokenizer -> Seq2SeqTokenizer) (w : World) : World :=
  {| files := files w; dirs := dirs w; trace := trace w; uuids := uuids w;
     tagger := f (tagger w) |}.

Definition print (line : Line) : Eff World unit := modify (emit (Printed line)).

(** [str(uuid.uuid1())] *)
Definition draw_uuid : Eff World string :=
  fun w => (Ok (uuid1 (uuids w)),
            {| files := files w; dirs := dirs w; trace := trace w;
               uuids := S (uuids w); tagger := tagger w |}).

(** *** Files *)

(** [os.path.isdir] *)
Definition os_path_isdir (w : World) (path : string) : bool :=
  bool_decide (path ∈ dirs w).

(** A file can be created where its directory exists; the empty directory
    name is the working directory. *)
Definition can_create (w : World) (path : string) : bool :=
  bool_decide (os_path_dirname path = "") || os_path_isdir w (os_path_dirname path).

(** [open(path, 'w')] and a write of the whole content. *)
Definition write_file (path : string) (f : File) : Eff World unit :=
  fun w =>
    if os_path_isdir w path then (Raise IsADirectoryError, w)
    else if can_create w path then (Ok tt, set_files (insert path f) w)
    else (Raise FileNotFoundError, w).

Definition read_file (path : string) : Eff World File :=
  fun w =>
    match files w !! path with
    | Some f => (Ok f, w)
    | None => (Raise (if os_path_isdir w path then IsADirectoryError
                      else FileNotFoundError), w)
    end.

(** [os.remove] *)
Definition os_remove (path : string) : Eff World unit :=
  fun w =>
    match files w !! path with
    | Some _ => (Ok tt, set_files (delete path) w)
    | None => (Raise (if os_path_isdir w path then IsADirectoryError
                      else FileNotFoundError), w)
    end.

(** The directories above a path, itself included, nearest first. *)
Fixpoint ancestors (fuel : nat) (path : string) : list string :=
  match fuel with
  | O => []
  | S fuel' =>
      if bool_decide (path = "") || bool_decide (os_path_dirname path = path)
      then []
      else path :: ancestors fuel' (os_path_dirname path)
  end.

(** [os.makedirs(path)] *)
Definition os_makedirs (path : string) : Eff World unit :=
  fun w =>
    if bool_decide (path = "") then (Raise FileNotFoundError, w)
    else if os_path_isdir w path || bool_decide (is_Some (files w !! path))
    then (Raise FileExistsError, w)
    else (Ok tt, set_dirs (fun d => list_to_set (ancestors (S (String.length path)) path) ∪ d) w).

(** [shutil.rmtree(path)]: the directory and all that is below it. *)
Definition shutil_rmtree (path : string) : Eff World unit :=
  let below (p : string) : bool :=
    Str.startswith (list_ascii_of_string (path +:+ "/")) (list_ascii_of_string p) in
  modify (fun w =>
    set_dirs (filter (fun d => d ≠ path ∧ below d = false))
      (set_files (filter (fun kv => below (fst kv) = false)) w)).

(** [torch.save(self.tagger.model.state_dict(), path)] *)
Definition torch_save (path : string) : Eff World unit :=
  w ← get;
  write_file path (Regular (Pickled (model (tagger w))));;
  modify (emit (TorchSave path)).

(** [torch.load(path)] *)
Definition torch_load (path : string) : Eff World Params :=
  f ← read_file path;
  match f with
  | Regular (Pickled d) => mret d
  | _ => raise UnpicklingError
  end.

(** *** [utils.tmpfile], [utils.add_gzip_to_tar], [utils.get_gzip_from_tar] *)

(** Entering [with utils.tmpfile() as tmppath]. *)
Definition tmpfile_enter : Eff World string :=
  fid ← draw_uuid;
  mret (os_path_join "/tmp/" fid).

(** Leaving it without an exception. *)
Definition tmpfile_exit (tmppath : string) : Eff World unit :=
  w ← get;
  if os_path_isdir w tmppath then shutil_rmtree tmppath else os_remove tmppath.

(** [with utils.tmpfile() as tmppath: body]: the clean-up is skipped when the
    body raises (the context manager has no [finally]). *)
Definition with_tmpfile {A} (body : string -> Eff World A) : Eff World A :=
  tmppath ← tmpfile_enter;
  a ← body tmppath;
  tmpfile_exit tmppath;;
  mret a.

(** [tarfile.open(fpath, 'w')]: a new, empty archive. *)
Definition tarfile_open_w (fpath : string) : Eff World unit :=
  write_file fpath (Archive []).

(** [tar.add(path, arcname=arcname)] on the archive at [tarpath]. *)
Definition tar_add (tarpath path arcname : string) : Eff World unit :=
  f ← read_file path;
  t ← read_file tarpath;
  match f, t with
  | Regular content, Archive members =>
      modify (set_files (insert tarpath (Archive (members ++ [(arcname, content)]))))
  | _, _ => raise ReadError
  end.

(** [tar.getmember(name)]: the last member of that name. *)
Definition tar_member (name : string) (members : list (string * Blob)) : result Blob :=
  match filter (fun m => fst m = name) members with
  | [] => Raise KeyError
  | m :: ms => Ok (snd (List.last ms m))
  end.

(** [tarfile.open(fpath, 'r')] *)
Definition tarfile_open_r (fpath : string) : Eff World (list (string * Blob)) :=
  f ← read_file fpath;
  match f with
  | Archive members => mret members
  | Regular _ => raise ReadError
  end.

Definition add_gzip_to_tar (string_ subpath tarpath : string) : Eff World unit :=
  with_tmpfile (fun tmppath =>
    write_file tmppath (Regular (Bytes (gzip_compress string_)));;
    tar_add tarpath tmppath subpath).

(** [get_gzip_from_tar(tar, fpath)] *)
Definition get_gzip_from_tar (tar : list (string * Blob)) (fpath : string) : result string :=
  m ← tar_member fpath tar;
  match m with
  | Bytes data => Str.strip <$> gzip_decompress data
  | Pickled _ => Raise BadGzipFile
  end.

(** [tar.extract(name, path=directory)] *)
Definition tar_extract (tar : list (string * Blob)) (name directory : string)
  : Eff World unit :=
  m ← lift_result (tar_member name tar);
  modify (set_dirs (union {[directory]}));;
  write_file (os_path_join directory name) (Regular m).

(** ** Trainer *)

(** [Trainer._temp_save] *)
Definition _temp_save (file_path : string) (best_score : float) (current_score : Score.t)
  : Eff World float :=
  if PyFloat.ne (Score.loss current_score) PyFloat.inf
     && (Score.loss current_score <? best_score)%float
  then torch_save file_path;; mret (Score.loss current_score)
  else mret best_score.

(** [Trainer._get_perplexity]: [try: return math.exp(loss)] under a bare
    [except] that returns +inf. *)
Definition _get_perplexity (loss : float) : result float :=
  match math_exp loss with
  | Ok p => Ok p
  | Raise _ => Ok PyFloat.inf
  end.

(** [Trainer.init_csv_content] *)
Definition init_csv_content : list (list string) :=
  [ [ "Epoch";
      "Train Loss"; "Train Perplexity"; "Train Accuracy"; "Train Avg Leven";
      "Train Avg Leven Per Char";
      "Dev Loss"; "Dev Perplexity"; "Dev Accuracy"; "Dev Avg Leven";
      "Dev Avg Leven Per Char";
      "Test Loss"; "Test Perplexity" ] ].

(** The [Score] both epoch passes end on:
    [Score(loss, self._get_perplexity(loss), scorer.get_accuracy(),
           scorer.avg_levenshteins(), scorer.avg_levenshteins_per_char(),
           scorer=scorer)] *)
Definition make_score (loss : float) (scorer : Scorer) : result Score.t :=
  p ← _get_perplexity loss;
  '(a, scorer) ← get_accuracy scorer;
  '(l, scorer) ← avg_levenshteins scorer;
  '(c, scorer) ← avg_levenshteins_per_char scorer;
  Ok {| Score.loss := loss; Score.perplexity := p; Score.accuracy := a;
        Score.leven := l; Score.leven_per_char := c; Score.scorer := Some scorer |}.

(** [next(batches)] *)
Definition next {A} (batches : list A) : result (A * list A) :=
  match batches with
  | [] => Raise StopIteration
  | b :: rest => Ok (b, rest)
  end.

(** The batch loop of [_train_epoch], [n] iterations. *)
Fixpoint train_batches (n : nat) (batches : list Batch) (clip : float)
    (epoch_loss : float) (scorer : Scorer) : Eff (World * Optimizer) (float * Scorer) :=
  match n with
  | O => mret (epoch_loss, scorer)
  | S n' =>
      '(batch, batches) ← lift_result (next batches);
      '(w, optimizer) ← get;
      '(loss, scorer) ← lift_result
         (model_gradient (model (tagger w)) (model_training (tagger w)) batch scorer false);
      let '(optimizer, params) := optimizer_update optimizer (model (tagger w)) loss clip in
      modify (fun _ => (set_tagger (set_model params) w, optimizer));;
      train_batches n' batches clip (epoch_loss + loss_item loss)%float scorer
  end.

(** [Trainer._train_epoch] *)
Definition _train_epoch (iterator : DatasetIterator) (clip : float) (desc : string)
    (batch_size : Z) : Eff (World * Optimizer) Score.t :=
  modify (fun s => (set_tagger (set_model_training true) (fst s), snd s));;
  '(w, _) ← get;
  let scorer := Scorer_init (vocabulary (tagger w)) in
  let batches := get_epoch iterator batch_size in
  modify (fun s => (emit (Progress desc) (fst s), snd s));;
  '(epoch_loss, scorer) ←
     train_batches (Z.to_nat (batch_count iterator)) batches clip 0%float scorer;
  loss ← lift_result (PyFloat.float_div_int epoch_loss (batch_count iterator));
  lift_result (make_score loss scorer).

(** The batch loop of [evaluate]. *)
Fixpoint evaluate_batches (n : nat) (batches : list Batch)
    (epoch_loss : float) (scorer : Scorer) : Eff World (float * Scorer) :=
  match n with
  | O => mret (epoch_loss, scorer)
  | S n' =>
      '(batch, batches) ← lift_result (next batches);
      w ← get;
      '(loss, scorer) ← lift_result
         (model_gradient (model (tagger w)) (model_training (tagger w)) batch scorer true);
      evaluate_batches n' batches (epoch_loss + loss_item loss)%float scorer
  end.

(** [Trainer.evaluate] *)
Definition evaluate (iterator : DatasetIterator) (desc : string) (batch_size : Z)
  : Eff World Score.t :=
  modify (set_tagger (set_model_training false));;
  w ← get;
  let scorer := Scorer_init (vocabulary (tagger w)) in
  let batches := get_epoch iterator batch_size in
  modify (emit (Progress desc));;
  '(epoch_loss, scorer) ←
     evaluate_batches (Z.to_nat (batch_count iterator)) batches 0%float scorer;
  loss ← lift_result (PyFloat.float_div_int epoch_loss (batch_count iterator));
  lift_result (make_score loss scorer).

(** *** LRScheduler *)

Record LRScheduler : Type := {
  lr_scheduler_ : Plateau;
  mode : PlateauModes;
}.

(** [mode.value] *)
Definition mode_value (m : PlateauModes) : string :=
  match m with
  | mode_accuracy => "max"
  | _ => "min"
  end.

(** [getattr(score, self.mode.name)]: an alias of [loss] has the name of
    [loss]. *)
Definition monitored (m : PlateauModes) (score : Score.t) : float :=
  match m with
  | mode_accuracy => Score.accuracy score
  | _ => Score.loss score
  end.

Definition LRScheduler_init (optimizer : Optimizer) (m : PlateauModes)
    (factor : float) (patience : Z) (min_lr : float) : LRScheduler :=
  {| lr_scheduler_ := ReduceLROnPlateau optimizer (mode_value m) factor patience min_lr;
     mode := m |}.

(** [LRScheduler.step] *)
Definition step (s : LRScheduler) (optimizer : Optimizer) (score : Score.t)
  : LRScheduler * Optimizer :=
  let '(p, o) := plateau_step (lr_scheduler_ s) optimizer (monitored (mode s) score) in
  ({| lr_scheduler_ := p; mode := mode s |}, o).

(** [LRScheduler.steps] *)
Definition steps (s : LRScheduler) : Z := num_bad_epochs (lr_scheduler_ s).

(** [LRScheduler.patience] *)
Definition patience (s : LRScheduler) : Z := plateau_patience (lr_scheduler_ s).

(** [lr_scheduler.lr_scheduler.patience = p] *)
Definition set_patience (p : Z) (s : LRScheduler) : LRScheduler :=
  {| lr_scheduler_ := set_plateau_patience p (lr_scheduler_ s); mode := mode s |}.

(** *** [Trainer.save] *)

Definition newline : string := String (ascii_of_nat 10) EmptyString.

(** The lines [save] writes to the CSV file. *)
Definition csv_text (csv_content : list (list string)) : string :=
  String.concat "" (map (fun line => String.concat ";" line +:+ newline) csv_content).

Definition save (fpath : string) (csv_content : list (list string)) : Eff World string :=
  let fpath := Utils.ensure_ext fpath "tar" None in
  let dirname := os_path_dirname fpath in
  w ← get;
  (if negb (os_path_isdir w dirname) then os_makedirs dirname else mret tt);;
  (match csv_content with
   | [] => mret tt
   | _ :: _ => write_file (Str.replace ".tar" ".csv" fpath)
                          (Regular (Bytes (csv_text csv_content)))
   end);;
  tarfile_open_w fpath;;
  add_gzip_to_tar (json_dumps (settings (tagger w))) "settings.json.zip" fpath;;
  add_gzip_to_tar (dump (vocabulary (tagger w))) "vocabulary.json" fpath;;
  with_tmpfile (fun tmppath =>
    torch_save tmppath;;
    tar_add fpath tmppath "state_dict.pt");;
  mret fpath.

(** *** [Seq2SeqTokenizer.__init__] and [Seq2SeqTokenizer.load] *)

(** The constructor, on the keyword arguments [load] passes: the two hidden
    dimensions are kept when both are given (non-zero), and are [hidden_size]
    otherwise.  [model] stands for the parameters of the network as
    constructed; the device the network is moved to, which [settings] does
    not report, is left out. *)
Definition Seq2SeqTokenizer_init (vocab : LabelEncoder) (kw : Settings) : Seq2SeqTokenizer :=
  let keep := negb (enc_hid_dim kw =? 0) && negb (dec_hid_dim kw =? 0) in
  let st :=
    {| enc_kernel_size := enc_kernel_size kw; dec_kernel_size := dec_kernel_size kw;
       enc_n_layers := enc_n_layers kw; dec_n_layers := dec_n_layers kw;
       hidden_size := hidden_size kw;
       enc_hid_dim := if keep then enc_hid_dim kw else hidden_size kw;
       dec_hid_dim := if keep then dec_hid_dim kw else hidden_size kw;
       emb_enc_dim := emb_enc_dim kw; emb_dec_dim := emb_dec_dim kw;
       enc_dropout := enc_dropout kw; dec_dropout := dec_dropout kw;
       out_max_sentence_length := out_max_sentence_length kw;
       system := system kw |} in
  {| vocabulary := vocab; settings := st; model := new_model vocab st;
     model_training := true |}.

(** The bytes of a file opened for reading. *)
Definition read_bytes (path : string) : Eff World string :=
  f ← read_file path;
  match f with
  | Regular (Bytes data) => mret data
  | _ => raise UnicodeDecodeError
  end.

Definition load (fpath : string) : Eff World Seq2SeqTokenizer :=
  tar ← tarfile_open_r (Utils.ensure_ext fpath "tar" None);
  text ← lift_result (get_gzip_from_tar tar "settings.json.zip");
  kw ← lift_result (json_loads_settings text);
  vocab ← with_tmpfile (fun tmppath =>
    tar_extract tar "vocabulary.json" tmppath;;
    let dictpath := os_path_join tmppath "vocabulary.json" in
    data ← read_bytes dictpath;
    lift_result (load_vocabulary data));
  let obj := Seq2SeqTokenizer_init vocab kw in
  params ← with_tmpfile (fun tmppath =>
    tar_extract tar "state_dict.pt" tmppath;;
    let dictpath := os_path_join tmppath "state_dict.pt" in
    d ← torch_load dictpath;
    lift_result (load_state_dict (model obj) d));
  mret (set_model_training false (set_model params obj)).

(** *** [Trainer.run] *)

(** What [run] mutates between its iterations: the world, the optimiser and
    the scheduler it created, and its local variables [dev_score] and
    [csv_content]. *)
Record Frame : Type := {
  world : World;
  optimizer : Optimizer;
  lr_scheduler : LRScheduler;
  dev_score : Score.t;
  csv_content : list (list string);
}.

Definition in_world {A} (c : Eff World A) : Eff Frame A :=
  zoom world
       (fun w f => {| world := w; optimizer := optimizer f;
                      lr_scheduler := lr_scheduler f; dev_score := dev_score f;
                      csv_content := csv_content f |}) c.

Definition in_world_and_optimizer {A} (c : Eff (World * Optimizer) A) : Eff Frame A :=
  zoom (fun f => (world f, optimizer f))
       (fun wo f => {| world := fst wo; optimizer := snd wo;
                       lr_scheduler := lr_scheduler f; dev_score := dev_score f;
                       csv_content := csv_content f |}) c.

Definition set_dev_score (s : Score.t) (f : Frame) : Frame :=
  {| world := world f; optimizer := optimizer f; lr_scheduler := lr_scheduler f;
     dev_score := s; csv_content := csv_content f |}.

Definition csv_append (row : list string) (f : Frame) : Frame :=
  {| world := world f; optimizer := optimizer f; lr_scheduler := lr_scheduler f;
     dev_score := dev_score f; csv_content := csv_content f ++ [row] |}.

(** [lr_scheduler.step(dev_score)] *)
Definition scheduler_step (f : Frame) : Frame :=
  let '(s, o) := step (lr_scheduler f) (optimizer f) (dev_score f) in
  {| world := world f; optimizer := o; lr_scheduler := s;
     dev_score := dev_score f; csv_content := csv_content f |}.

Definition scheduler_set_patience (p : Z) (f : Frame) : Frame :=
  {| world := world f; optimizer := optimizer f;
     lr_scheduler := set_patience p (lr_scheduler f);
     dev_score := dev_score f; csv_content := csv_content f |}.

(** [str(epoch)] *)
Definition str_Z (z : Z) : string := pretty z.

(** ["[Epoch Training %s/%s]" % (epoch, n_epochs)] and its dev counterpart *)
Definition epoch_desc (pass : string) (epoch n_epochs : Z) : string :=
  "[Epoch " +:+ pass +:+ " " +:+ str_Z epoch +:+ "/" +:+ str_Z n_epochs +:+ "]".

Definition csv_row (epoch : Z) (train_score dev_score : Score.t) : list string :=
  [ str_Z epoch;
    str_float (Score.loss train_score); str_float (Score.perplexity train_score);
    str_float (Score.accuracy train_score); str_float (Score.leven train_score);
    str_float (Score.leven_per_char train_score);
    str_float (Score.loss dev_score); str_float (Score.perplexity dev_score);
    str_float (Score.accuracy dev_score); str_float (Score.leven dev_score);
    str_float (Score.leven_per_char dev_score);
    "UNK"; "UNK" ].

(** The arguments of [run] that its epoch loop reads. *)
Record RunArgs : Type := {
  train_dataset : DatasetIterator;
  dev_dataset : DatasetIterator;
  min_lr : float;
  lr_patience : Z;
  lr_grace_periode : Z;
  n_epochs : Z;
  batch_size : Z;
  clip : float;
  debug : option (Seq2SeqTokenizer -> result unit);
}.

(** The test that raises the early stop:
    [lr_scheduler.steps >= lr_patience and lr_scheduler.lr < min_lr]. *)
Definition plateau_reached (a : RunArgs) (f : Frame) : bool :=
  (lr_patience a <=? steps (lr_scheduler f))
  && (optimizer_lr (optimizer f) <? min_lr a)%float.

(** The body of the [try] of one iteration of the epoch loop. *)
Definition epoch_body (a : RunArgs) (fid : string) (best_valid_loss : float) (epoch : Z)
  : Eff Frame unit :=
  train_score ← in_world_and_optimizer
    (_train_epoch (train_dataset a) (clip a)
                  (epoch_desc "Training" epoch (n_epochs a)) (batch_size a));
  score ← in_world
    (evaluate (dev_dataset a) (epoch_desc "Dev" epoch (n_epochs a)) (batch_size a));
  modify (set_dev_score score);;
  modify (csv_append (csv_row epoch train_score score));;
  (* Run a check on saving the current model: the returned best is dropped *)
  in_world (_temp_save fid best_valid_loss score);;
  (* Advance Learning Rate if needed *)
  modify scheduler_step;;
  in_world (print (TrainLine train_score));;
  in_world (print (ValLine score));;
  f ← get;
  in_world (print (SchedulerLine (optimizer_lr (optimizer f)) (steps (lr_scheduler f))
                                 (patience (lr_scheduler f))));;
  in_world (print Blank);;
  (if plateau_reached a f then raise EarlyStopException else mret tt);;
  (if epoch =? lr_grace_periode a
   then modify (scheduler_set_patience (lr_patience a)) else mret tt);;
  match debug a with
  | Some callback =>
      in_world (modify (emit Debugged));;
      lift_result (callback (tagger (world f)))
  | None => mret tt
  end.

(** [for epoch in range(1, n_epochs+1): try: ... except KeyboardInterrupt: ...
    break except EarlyStopException: ...], on the epochs still to run. *)
Fixpoint epoch_loop (a : RunArgs) (fid : string) (best_valid_loss : float)
    (epochs : list Z) : Eff Frame unit :=
  match epochs with
  | [] => mret tt
  | epoch :: rest => fun f =>
      match epoch_body a fid best_valid_loss epoch f with
      | (Ok _, f') => epoch_loop a fid best_valid_loss rest f'
      | (Raise KeyboardInterrupt, f') =>
          in_world (print (Text "Interrupting training...")) f'
      | (Raise EarlyStopException, f') =>
          (in_world (print (Text "Reached plateau for too long, stopping."));;
           epoch_loop a fid best_valid_loss rest) f'
      | (Raise e, f') => (Raise e, f')
      end
  end.

(** What follows the loop: the last checkpoint test, the reload of the
    checkpoint and the archive. *)
Definition final_save (fid : string) (best_valid_loss : float) (fpath : string)
  : Eff Frame unit :=
  f ← get;
  in_world (_temp_save fid best_valid_loss (dev_score f));;
  in_world (try_except
    (d ← torch_load fid;
     w ← get;
     p ← lift_result (load_state_dict (model (tagger w)) d);
     modify (set_tagger (set_model p));;
     os_remove fid)
    FileNotFoundError
    (print (Text "No model was saved during training")));;
  f ← get;
  in_world (save fpath (csv_content f));;
  in_world (print (Text "Saved !")).

(** Run a computation on the frame built around the current world, and keep
    the world it ends in. *)
Definition with_frame {A} (frame : World -> Frame) (c : Eff Frame A) : Eff World A :=
  fun w => let '(r, f) := c (frame w) in (r, world f).

Definition run (a : RunArgs) (lr lr_factor : float) (fpath : string) (m : PlateauModes)
  : Eff World unit :=
  w ← get;
  match init_weights (tagger w) with
  | Some init => modify (set_tagger (fun t => set_model (init (model t)) t))
  | None => mret tt
  end;;
  w ← get;
  (* Set up optimizer *)
  let optimizer := Adam (model (tagger w)) lr in
  (* Set-up LR Scheduler *)
  let lr_scheduler :=
    LRScheduler_init optimizer m lr_factor (lr_grace_periode a) (min_lr a) in
  (* Generates a temp file to store the best model *)
  uuid ← draw_uuid;
  let fid := "/tmp/" +:+ uuid in
  let best_valid_loss := PyFloat.inf in
  (* In case exception was run before eval *)
  let dev_score :=
    {| Score.loss := PyFloat.inf; Score.perplexity := PyFloat.inf;
       Score.accuracy := neg_infinity; Score.leven := PyFloat.inf;
       Score.leven_per_char := PyFloat.inf; Score.scorer := None |} in
  with_frame
    (fun w => {| world := w; optimizer := optimizer; lr_scheduler := lr_scheduler;
                 dev_score := dev_score; csv_content := init_csv_content |})
    (epoch_loop a fid best_valid_loss (seqZ 1 (n_epochs a));;
     final_save fid best_valid_loss fpath).

End Model.

(** ** Observing a run *)

(** The events of a trace that mark its course: the passes, the checkpoint
    and archive writes, the messages and the scheduler's status line.  The
    two score lines and the blank line of each epoch are left out. *)
Definition is_milestone (e : Event) : bool :=
  match e with
  | Printed (TrainLine _) | Printed (ValLine _) | Printed Blank => false
  | _ => true
  end.

Definition milestones (events : list Event) : list Event :=
  List.filter is_milestone events.

(** The archive [save] builds for a tagger. *)
Definition archive_of `{Backend} `{Host} (t : Seq2SeqTokenizer) : File :=
  Archive [ ("settings.json.zip", Bytes (gzip_compress (json_dumps (settings t))));
            ("vocabulary.json", Bytes (gzip_compress (dump (vocabulary t))));
            ("state_dict.pt", Pickled (model t)) ].

(** The [Score] of a dev pass that measured the given loss, the scorer
    apart. *)
Definition score_of_loss (l : float) : Score.t :=
  {| Score.loss := l; Score.perplexity := l; Score.accuracy := 0; Score.leven := 0;
     Score.leven_per_char := 0; Score.scorer := None |}.

(** ** A scripted backend and host, to run the trainer on concrete inputs

    The network is replaced by a script: the parameters count the optimiser
    steps taken, a training batch costs 1.0, and the dev loss measured on
    parameters that went through [k] steps is the [k]-th entry of the script.
    A batch carries the predictions, targets and sources it registers. *)
Module Scripted.

Record optimizer_t : Type := { rate : float }.

(** The state of torch's [ReduceLROnPlateau] (relative threshold 1e-4, no
    cooldown, eps 1e-8). *)
Record plateau_t : Type := {
  p_mode_min : bool;
  p_factor : float;
  p_patience : Z;
  p_min_lr : float;
  p_best : float;
  p_bad_epochs : Z;
}.

Definition is_better (p : plateau_t) (a : float) : bool :=
  if p_mode_min p then (a <? p_best p * (1 - 1e-4))%float
  else (p_best p * (1e-4 + 1) <? a)%float.

Definition reduce_lr (p : plateau_t) (o : optimizer_t) : optimizer_t :=
  let old_lr := rate o in
  let scaled := (old_lr * p_factor p)%float in
  let new_lr := if (scaled <? p_min_lr p)%float then p_min_lr p else scaled in
  if (1e-8 <? old_lr - new_lr)%float then {| rate := new_lr |} else o.

Definition scheduler_step (p : plateau_t) (o : optimizer_t) (metric : float)
  : plateau_t * optimizer_t :=
  let better := is_better p metric in
  let best' := if better then metric else p_best p in
  let bad := if better then 0 else p_bad_epochs p + 1 in
  let with_bad b :=
    {| p_mode_min := p_mode_min p; p_factor := p_factor p; p_patience := p_patience p;
       p_min_lr := p_min_lr p; p_best := best'; p_bad_epochs := b |} in
  if p_patience p <? bad then (with_bad 0, reduce_lr p o) else (with_bad bad, o).

Definition batch_t : Type := list (list Z) * list (list Z) * list (list Z).

Definition backend (dev_losses : list float) : Backend :=
  {| Params := nat;
     Batch := batch_t;
     Loss := float;
     Optimizer := optimizer_t;
     Plateau := plateau_t;
     new_model := fun _ _ => O;
     init_weights_for := fun _ => None;
     load_state_dict := fun _ d => Ok d;
     model_gradient := fun params _ '(hypotheses, targets, src) scorer evaluate =>
       Ok (if evaluate then nth (Nat.pred params) dev_losses PyFloat.inf else 1%float,
           register_batch hypotheses targets src scorer);
     loss_item := fun l => l;
     Adam := fun _ r => {| rate := r |};
     optimizer_update := fun o params _ _ => (o, S params);
     optimizer_lr := rate;
     ReduceLROnPlateau := fun _ direction f p m =>
       let is_min := bool_decide (direction = "min") in
       {| p_mode_min := is_min; p_factor := f; p_patience := p; p_min_lr := m;
          p_best := if is_min then infinity else neg_infinity; p_bad_epochs := 0 |};
     plateau_step := scheduler_step;
     num_bad_epochs := p_bad_epochs;
     plateau_patience := p_patience;
     set_plateau_patience := fun n p =>
       {| p_mode_min := p_mode_min p; p_factor := p_factor p; p_patience := n;
          p_min_lr := p_min_lr p; p_best := p_best p; p_bad_epochs := p_bad_epochs p |} |}.

(** A power series for [e^x] after halving the argument ten times. *)
Fixpoint exp_series (n : nat) (x term sum k : float) : float :=
  match n with
  | O => sum
  | S n' => let term' := (term * x / k)%float in
            exp_series n' x term' (sum + term')%float (k + 1)%float
  end.

Definition exp_approx (x : float) : float :=
  let r := exp_series 20 (x / 1024)%float 1%float 1%float 1%float in
  Nat.iter 10 (fun y => (y * y)%float) r.

(** Python's [math.exp] at its special values and past its overflow
    threshold; a series elsewhere. *)
Definition exp_model (x : float) : result float :=
  if is_nan x then Ok nan
  else if (x =? infinity)%float then Ok infinity
  else if (x =? neg_infinity)%float then Ok 0%float
  else if (709.782712893384 <? x)%float then Raise OverflowError
  else Ok (exp_approx x).

Definition gzip_magic : string :=
  String (ascii_of_nat 31) (String (ascii_of_nat 139) EmptyString).

Definition default_settings : Settings :=
  {| enc_kernel_size := 3; dec_kernel_size := 3; enc_n_layers := 10;
     dec_n_layers := 10; hidden_size := 256; enc_hid_dim := 256;
     dec_hid_dim := 256; emb_enc_dim := 256; emb_dec_dim := 256;
     enc_dropout := 0.5; dec_dropout := 0.5; out_max_sentence_length := 150;
     system := "bi-gru" |}.

(** A host whose gzip stores the data behind the two magic bytes of the
    format, and whose JSON reader wants an object. *)
Definition host : Host :=
  {| math_exp := exp_model;
     str_float := fun x =>
       match PyFloat.exact_ratio x with
       | Some (m, e) => pretty m +:+ "p" +:+ pretty e
       | None => if is_nan x then "nan" else if get_sign x then "-inf" else "inf"
       end;
     uuid1 := fun n => "uuid-" +:+ pretty n;
     gzip_compress := fun data => gzip_magic +:+ data;
     gzip_decompress := fun data =>
       if Str.startswith (list_ascii_of_string gzip_magic) (list_ascii_of_string data)
       then Ok (string_of_list_ascii (drop 2 (list_ascii_of_string data)))
       else Raise BadGzipFile;
     json_dumps := fun _ => "{}";
     json_loads_settings := fun text =>
       if Str.startswith ["{"%char] (list_ascii_of_string text)
       then Ok default_settings else Raise JSONDecodeError;
     load_vocabulary := fun data =>
       if Str.startswith ["{"%char] (list_ascii_of_string data)
       then Ok latin else Raise JSONDecodeError |}.

(** One batch with a single example: ["abc"] expected, ["abd"] predicted. *)
Definition batch : batch_t := ([[1; 2; 4]], [[1; 2; 3]], [[1; 2; 3]]).

Definition dataset (dev_losses : list float)
  : @DatasetIterator (backend dev_losses) :=
  {| batch_count := 1; get_epoch := fun _ => [batch : @Batch (backend dev_losses)] |}.

Definition empty_dataset (dev_losses : list float)
  : @DatasetIterator (backend dev_losses) :=
  {| batch_count := 0; get_epoch := fun _ => [] |}.

(** A machine with [/tmp] and a [models] directory, and a fresh tagger. *)
Definition world0 (dev_losses : list float) : @World (backend dev_losses) :=
  {| files := ∅; dirs := {[ "/"; "/tmp"; "models" ]}; trace := []; uuids := 0;
     tagger := @Seq2SeqTokenizer_init (backend dev_losses) latin default_settings |}.

Definition args (dev_losses : list float) (floor : float) (bound grace epochs : Z)
  : @RunArgs (backend dev_losses) :=
  {| train_dataset := dataset dev_losses; dev_dataset := dataset dev_losses;
     min_lr := floor; lr_patience := bound; lr_grace_periode := grace;
     n_epochs := epochs; batch_size := 256; clip := 1; debug := None |}.

End Scripted.

(** ** The runs that the properties below evaluate *)

Module Runs.

(** The dev losses of the checkpoint example. *)
Definition losses : list float := [2; 1.5; 1.8; 1.2]%float.

(** Four epochs with the default rates and patience. *)
Definition four_epochs : result unit * World :=
  @run (Scripted.backend losses) Scripted.host
       (Scripted.args losses 1e-6 10 10 4) 1e-3 0.75 "models/model.tar" mode_loss
       (Scripted.world0 losses).

(** Three epochs on a plateau, with a patience of one epoch and a learning
    rate that starts at the given value; the floor [min_lr] is 1e-6. *)
Definition plateau (lr : float) : result unit * World :=
  @run (Scripted.backend [2; 2; 2]%float) Scripted.host
       (Scripted.args [2; 2; 2]%float 1e-6 1 10 3) lr 0.75 "models/model.tar" mode_loss
       (Scripted.world0 [2; 2; 2]%float).

(** One epoch whose [debug] callback is interrupted by the user. *)
Definition interrupted : result unit * World :=
  @run (Scripted.backend losses) Scripted.host
       {| train_dataset := Scripted.dataset losses; dev_dataset := Scripted.dataset losses;
          min_lr := 1e-6; lr_patience := 10; lr_grace_periode := 10; n_epochs := 3;
          batch_size := 256; clip := 1;
          debug := Some (fun _ => Raise KeyboardInterrupt) |}
       1e-3 0.75 "models/model.tar" mode_loss (Scripted.world0 losses).

(** Two epochs whose dev loss is never finite, saved to the default path of
    [run]. *)
Definition never_finite : result unit * World :=
  @run (Scripted.backend [infinity; infinity]%float) Scripted.host
       (Scripted.args [infinity; infinity]%float 1e-6 10 10 2) 1e-3 0.75 "model.tar"
       mode_loss (Scripted.world0 [infinity; infinity]%float).

(** The frame in which a run of no epoch, started at the given learning
    rate, reaches its final phase. *)
Definition untrained (lr : float) : @Frame (Scripted.backend []) :=
  let o := Scripted.Build_optimizer_t lr in
  {| world := Scripted.world0 [];
     optimizer := o;
     lr_scheduler := @LRScheduler_init (Scripted.backend []) o mode_loss 0.75 10 1e-6;
     dev_score := {| Score.loss := PyFloat.inf; Score.perplexity := PyFloat.inf;
                     Score.accuracy := neg_infinity; Score.leven := PyFloat.inf;
                     Score.leven_per_char := PyFloat.inf; Score.scorer := None |};
     csv_content := init_csv_content |}.

End Runs.

(** * Further definitions *)

(** ** Paths *)

(** [os.path.basename] (POSIX): what follows the last slash. *)
Definition os_path_basename (path : string) : string :=
  let p := list_ascii_of_string path in
  string_of_list_ascii (Str.slice_from (Str.rfind "/"%char p + 1) p).

(** ** [Trainer.test] *)

Section TestModel.
Context `{backend : Backend} `{host : Host}.

(** The format specifications [:.3f] and [:7.3f] of the f-string of [test]. *)
Variable format_3f : float -> string.
Variable format_7_3f : float -> string.

(** [score.scorer], on which [test] calls [avg_levenshteins].  A [Score]
    without a scorer has no such method: Python raises an AttributeError
    there, which is filed under [TypeError] here, as it is for the scores of
    [scored]. *)
Definition score_scorer (score : Score.t) : result Scorer :=
  match Score.scorer score with
  | Some scorer => Ok scorer
  | None => Raise TypeError
  end.

(** The line that [test] prints. *)
Definition test_line (test_loss : Score.t) (levenshtein_ : float) : string :=
  "| Test Loss: " +:+ format_3f (Score.loss test_loss)
  +:+ " | Test PPL: " +:+ format_7_3f (Score.perplexity test_loss) +:+ " | "
  +:+ "Test Accuracy " +:+ format_3f (Score.accuracy test_loss) +:+ " | "
  +:+ "Test Levenshtein " +:+ format_3f levenshtein_ +:+ " | "
  +:+ "Test Levenshtein / Char " +:+ format_3f (Score.leven_per_char test_loss).

(** [Trainer.test] *)
Definition test (test_dataset : DatasetIterator) (batch_size : Z) : Eff World unit :=
  test_loss ← evaluate test_dataset "Test" batch_size;
  '(levenshtein_, _) ← lift_result (scorer ← score_scorer test_loss;
                                    avg_levenshteins scorer);
  print (Text (test_line test_loss levenshtein_)).

End TestModel.

(** ** The decoding methods of [Seq2SeqTokenizer]

    [_reverse_keep], [reverse] and [_reverse_loop] read five more attributes
    of the vocabulary, and two operations of torch on the batch. *)

(** What the three methods read of [self.vocabulary], next to the pad index:
    [init_token_index], [eos_token_index], [unk_token], [batch_first] and
    [vocab.itos].  [boudams/encoder.py] is not among the sources: the record
    is the interface of these reads. *)
Record VocabularyView : Type := {
  label_encoder : LabelEncoder;
  init_token_index : Z;
  eos_token_index : Z;
  (** [unk_token], as far as [ind not in ignore] can tell: the integer it is
      equal to, if it is equal to one *)
  unk_token : option Z;
  batch_first : bool;
  (** [vocab.itos[ind]]: the symbol of an index, or what the lookup raises *)
  itos : Z -> result string;
}.

(** [Seq2SeqTokenizer.padtoken], [sostoken] and [eostoken] *)
Definition padtoken (v : VocabularyView) : Z := pad_token_index (label_encoder v).
Definition sostoken (v : VocabularyView) : Z := init_token_index v.
Definition eostoken (v : VocabularyView) : Z := eos_token_index v.

(** A two-dimensional tensor of indices, with [Tensor.t] and
    [Tensor.tolist]. *)
Class Torch : Type := {
  Tensor : Type;
  tensor_t : Tensor -> Tensor;
  tolist : Tensor -> list (list Z);
}.

Section Decoding.
Context `{torch : Torch}.
Variable v : VocabularyView.

(** The examples of a batch, one list of indices each:
    [if not self.vocabulary.batch_first: batch = batch.t()] and
    [batch = batch.tolist()]. *)
Definition examples (batch : Tensor) : list (list Z) :=
  tolist (if negb (batch_first v) then tensor_t batch else batch).

(** [Seq2SeqTokenizer._reverse_keep] *)
Definition _reverse_keep (batch : Tensor) (remove_index : bool)
  : result (list (list string)) :=
  let start_index := if remove_index then 1%nat else 0%nat in
  mapM (fun ex => mapM (itos v) (drop start_index ex)) (examples batch).

(** [ind not in ignore], for
    [ignore = (self.eostoken, self.sostoken, self.padtoken, self.vocabulary.unk_token)] *)
Definition ignored (ind : Z) : bool :=
  bool_decide (ind = eostoken v) || bool_decide (ind = sostoken v)
  || bool_decide (ind = padtoken v) || bool_decide (Some ind = unk_token v).

(** [Seq2SeqTokenizer.reverse] *)
Definition reverse (batch : Tensor) : result (list string) :=
  batch ← mapM (fun ex => mapM (itos v)
                            (List.filter (fun ind => negb (ignored ind)) (drop 1 ex)))
               (examples batch);
  Ok (map (String.concat "") batch).

(** [list(self._reverse_loop(tensor))] on the indices of a one-dimensional
    tensor. *)
Fixpoint _reverse_loop (tensor : list Z) : result (list string) :=
  match tensor with
  | [] => Ok []
  | t :: rest =>
      if bool_decide (t = eostoken v) then Ok []
      else
        symbol ← itos v t;
        symbols ← _reverse_loop rest;
        Ok (symbol :: symbols)
  end.

End Decoding.

(** ** More inputs for the properties below *)

Module Examples.

(** The frame in which [run] enters its epoch loop on the scripted backend,
    started at the given learning rate. *)
Definition fresh (dev_losses : list float) (lr : float)
  : @Frame (Scripted.backend dev_losses) :=
  let o := Scripted.Build_optimizer_t lr in
  {| world := Scripted.world0 dev_losses;
     optimizer := o;
     lr_scheduler := @LRScheduler_init (Scripted.backend dev_losses) o mode_loss 0.75 10 1e-6;
     dev_score := {| Score.loss := PyFloat.inf; Score.perplexity := PyFloat.inf;
                     Score.accuracy := neg_infinity; Score.leven := PyFloat.inf;
                     Score.leven_per_char := PyFloat.inf; Score.scorer := None |};
     csv_content := init_csv_content |}.

(** The frame after a first epoch that measured the dev loss 2.0. *)
Definition after_one_epoch : @Frame (Scripted.backend Runs.losses) :=
  snd (@epoch_body (Scripted.backend Runs.losses) Scripted.host
         (Scripted.args Runs.losses 1e-6 10 10 4) "/tmp/uuid-0" PyFloat.inf 1
         (fresh Runs.losses 1e-3)).

(** The arguments of a run on a training set without a batch. *)
Definition nothing_to_train : @RunArgs (Scripted.backend []) :=
  {| train_dataset := Scripted.empty_dataset []; dev_dataset := Scripted.dataset [];
     min_lr := 1e-6; lr_patience := 10; lr_grace_periode := 10; n_epochs := 3;
     batch_size := 256; clip := 1; debug := None |}.

(** The machine of the scripted runs, with one more file. *)
Definition world_with_notes : @World (Scripted.backend []) :=
  set_files (insert "models/notes.txt" (Regular (Bytes "to do"))) (Scripted.world0 []).

(** That machine with an empty archive. *)
Definition world_with_archive : @World (Scripted.backend []) :=
  set_files (insert "models/a.tar" (Archive [])) (Scripted.world0 []).


(** A greeting between white space of several kinds: the unit separator
    U+001F and a space before it, a line feed and the no-break space U+00A0
    after it. *)
Definition greeting : string :=
  String (ascii_of_nat 31) (" salve" +:+ String (ascii_of_nat 10)
                                         (String (ascii_of_nat 160) "")).

(** A scorer that registered one perfect prediction. *)
Definition perfect : Scorer :=
  register_batch [[1; 2; 3]] [[1; 2; 3]] [[1; 2; 3]] (Scorer_init latin).

(** A scorer whose scores were computed. *)
Definition computed : Scorer :=
  match compute perfect with
  | Ok sc => sc
  | Raise _ => perfect
  end.

(** Tensors as nested lists; [t()] makes the columns rows. *)
Fixpoint columns (n : nat) (rows : list (list Z)) : list (list Z) :=
  match n with
  | O => []
  | S n' => omap head rows :: columns n' (map (drop 1) rows)
  end.

Definition nested_lists : Torch :=
  {| Tensor := list (list Z);
     tensor_t := fun rows => columns (length (List.hd [] rows)) rows;
     tolist := fun rows => rows |}.

(** Modelled from the spec: a vocabulary of [boudams/encoder.py], which is
    not among the sources, as the decoding methods read it.  The Latin
    letters are at 1..26, the pad at 0, the start at 27 and the end at 28; no
    index stands for the unknown symbol. *)
Definition view : VocabularyView :=
  {| label_encoder := latin;
     init_token_index := 27;
     eos_token_index := 28;
     unk_token := None;
     batch_first := true;
     itos := fun ind => if decide (0 <= ind <= 28) then Ok (latin_itos ind)
                        else Raise KeyError |}.

End Examples.

(** ** What the properties below speak of *)

(** Every state a computation can end in, by a return or by a raise, is
    related to the state it started in. *)
Definition keeps {S A} (R : relation S) (c : Eff S A) : Prop :=
  forall s, R s (snd (c s)).

(** A registered pair that [accuracy_score] accepts: the prediction has as
    many ids as the target, and there is at least one. *)
Definition scorable (tp : list Z * list Z) : bool :=
  (length tp.1 =? length tp.2)%nat && negb (length tp.1 =? 0)%nat.

(** Modelled from the spec: a vocabulary of [boudams/encoder.py], which is not
    among the sources, that decodes as [char_vocabulary] does, one symbol per
    id through [itos] with the ignored ids left out, whatever its pad id and
    its dump. *)
Definition decodes_by (itos : Z -> string) (v : LabelEncoder) : Prop :=
  reverse_batch v = reverse_batch (char_vocabulary itos)
  /\ transcribe_batch v = transcribe_batch (char_vocabulary itos).

(** The ids stand for single characters, a character for one id only. *)
Definition characters (itos : Z -> string) (ids : list Z) : Prop :=
  (forall i, i ∈ ids -> String.length (itos i) = 1%nat)
  /\ (forall i j, i ∈ ids -> j ∈ ids -> itos i = itos j -> i = j).

(** The scan of [rfind], from any state. *)
Definition rfind_step (c : ascii) (st : Z * Z) (x : ascii) : Z * Z :=
  (st.1 + 1, if decide (x = c) then st.1 else st.2).

(** The file name of a path has a character other than a dot. *)
Definition named (p : list ascii) : Prop :=
  existsb (fun x => negb (bool_decide (x = "."%char)))
          (Str.slice_from (Str.rfind "/"%char p + 1) p) = true.

(** The CSV table only gets more rows, each of thirteen cells, as many as
    the header has. *)
Definition csv_grows (csv csv' : list (list string)) : Prop :=
  exists rows, csv' = csv ++ rows /\ Forall (fun row => length row = 13%nat) rows.

(** One example with indices that [reverse] ignores put in after its first
    position. *)
Definition with_ignored (v : VocabularyView) (ex ex' : list Z) : Prop :=
  exists first a s b,
    ex = first :: a ++ b /\ ex' = first :: a ++ s ++ b
    /\ Forall (fun ind => ignored v ind = true) s.

Section Frames.
Context `{backend : Backend} `{host : Host}.

(** The part of the world that training passes never change. *)
Definition same_disk (w w' : World) : Prop :=
  files w' = files w /\ dirs w' = dirs w /\ uuids w' = uuids w
  /\ trace w' = trace w
  /\ vocabulary (tagger w') = vocabulary (tagger w)
  /\ settings (tagger w') = settings (tagger w)
  /\ model_training (tagger w') = model_training (tagger w).

(** What the epoch loop may change in the world: the file at [fid], the
    trace, which only grows, and the tagger's parameters and mode. *)
Definition off_checkpoint (fid : string) (w w' : World) : Prop :=
  (forall q, q <> fid -> files w' !! q = files w !! q)
  /\ dirs w' = dirs w
  /\ uuids w' = uuids w
  /\ trace w `prefix_of` trace w'
  /\ vocabulary (tagger w') = vocabulary (tagger w)
  /\ settings (tagger w') = settings (tagger w).

(** What the epoch loop may change in the frame of [run]: rows are only added
    to the CSV table, and the scheduler keeps its mode. *)
Definition loop_frame (fid : string) (f f' : Frame) : Prop :=
  off_checkpoint fid (world f) (world f')
  /\ csv_grows (csv_content f) (csv_content f')
  /\ mode (lr_scheduler f') = mode (lr_scheduler f).

(** The path that [utils.tmpfile] yields in a given world. *)
Definition tmppath_of (w : World) : string := os_path_join "/tmp/" (uuid1 (uuids w)).

(** The world in which the body of [with utils.tmpfile()] starts: one more
    uuid was drawn. *)
Definition entered (w : World) : World :=
  {| files := files w; dirs := dirs w; trace := trace w; uuids := S (uuids w);
     tagger := tagger w |}.

(** No file is new in [w'] but those at the paths of [keep]. *)
Definition creates_only (keep : list string) (w w' : World) : Prop :=
  forall q f, q ∉ keep -> files w' !! q = Some f -> files w !! q = Some f.

(** What the end of an iteration, after the checkpoint test, leaves alone. *)
Definition after_checkpoint (f f' : Frame) : Prop :=
  files (world f') = files (world f)
  /\ tagger (world f') = tagger (world f)
  /\ dev_score f' = dev_score f.

(** The frame with the mode of its scheduler replaced. *)
Definition recast (m : PlateauModes) (f : Frame) : Frame :=
  {| world := world f; optimizer := optimizer f;
     lr_scheduler := {| lr_scheduler_ := lr_scheduler_ (lr_scheduler f); mode := m |};
     dev_score := dev_score f; csv_content := csv_content f |}.

(** The scheduler of the frame watches the loss. *)
Definition watches_loss (f : Frame) : Prop := mode (lr_scheduler f) <> mode_accuracy.

(** A computation that does the same on a frame and on its recast, as long as
    the scheduler watches the loss. *)
Definition mode_blind {A} (m : PlateauModes) (c : Eff Frame A) : Prop :=
  forall f, watches_loss f ->
    c (recast m f) = ((c f).1, recast m (c f).2) /\ watches_loss (c f).2.

End Frames.

Section Loading.
Context `{backend : Backend} `{host : Host}.



End Loading.

(** * Properties *)

(** ** Scorer *)

Lemma fold_register_one l sc :
  let sc' := fold_left register_one l sc in
  trues sc' = trues sc ++ map (fun ex => ex.1.1) l
  /\ preds sc' = preds sc ++ map (fun ex => ex.1.2) l
  /\ srcs sc' = srcs sc ++ map (fun ex => ex.2) l
  /\ scores sc' = scores sc
  /\ tagger_vocabulary sc' = tagger_vocabulary sc.
Proof.
  revert sc. induction l as [|[[t p] x] l IH]; intros sc; simpl.
  - by rewrite !app_nil_r.
  - destruct (IH (register_one sc (t, p, x))) as (Ht & Hp & Hs & Hsc & Hv). simpl in *.
    rewrite Ht, Hp, Hs, Hsc, Hv, <- !app_assoc. done.
Qed.

Lemma zip3_first {A B C} (a : list A) (b : list B) (c : list C) :
  map (fun ex => ex.1.1) (zip (zip a b) c)
  = take (length a `min` (length b `min` length c)) a.
Proof.
  revert b c. induction a as [|x a IH]; intros [|y b] [|z c]; simpl; try done.
  by rewrite IH.
Qed.

Lemma zip3_second {A B C} (a : list A) (b : list B) (c : list C) :
  map (fun ex => ex.1.2) (zip (zip a b) c)
  = take (length b `min` (length a `min` length c)) b.
Proof.
  revert a c. induction b as [|y b IH]; intros [|x a] [|z c]; simpl; try done.
  by rewrite IH.
Qed.

Lemma zip3_third {A B C} (a : list A) (b : list B) (c : list C) :
  map (fun ex => ex.2) (zip (zip a b) c)
  = take (length c `min` (length a `min` length b)) c.
Proof.
  revert a b. induction c as [|z c IH]; intros [|x a] [|y b]; simpl; try done.
  by rewrite IH.
Qed.

(** C9.  [register_batch(hypotheses, targets, src)] appends to [trues],
    [preds] and [srcs] the first [n] targets, hypotheses and sources, in
    their input order, where [n] is the least of the three numbers of
    examples; the examples past [n] are dropped, and nothing is raised (the
    function is total and touches no other field). *)
Theorem register_batch_appends_shortest (hypotheses targets src : list (list Z))
    (sc : Scorer) :
  let n := (length hypotheses `min` (length targets `min` length src))%nat in
  let sc' := register_batch hypotheses targets src sc in
  trues sc' = trues sc ++ take n targets
  /\ preds sc' = preds sc ++ take n hypotheses
  /\ srcs sc' = srcs sc ++ take n src
  /\ length (trues sc') = (length (trues sc) + n)%nat
  /\ length (preds sc') = (length (preds sc) + n)%nat
  /\ length (srcs sc') = (length (srcs sc) + n)%nat
  /\ scores sc' = scores sc
  /\ tagger_vocabulary sc' = tagger_vocabulary sc.
Proof.
  intros n sc'. subst sc'. unfold register_batch.
  destruct (fold_register_one (zip (zip targets hypotheses) src) sc)
    as (Ht & Hp & Hs & Hsc & Hv).
  rewrite zip3_first in Ht. rewrite zip3_second in Hp. rewrite zip3_third in Hs.
  replace (length targets `min` (length hypotheses `min` length src))%nat
    with n in Ht by (subst n; lia).
  replace (length src `min` (length targets `min` length hypotheses))%nat
    with n in Hs by (subst n; lia).
  fold n in Hp.
  rewrite Ht, Hp, Hs, !length_app, !length_take.
  repeat split; try done; subst n; lia.
Qed.

Lemma compute_step_empty acc tr_pred :
  compute_step acc ("", tr_pred) = Raise ZeroDivisionError.
Proof. reflexivity. Qed.

Lemma int_truediv_ok a b : b <> 0 -> exists q, PyFloat.int_truediv a b = Ok q.
Proof.
  intros Hb. unfold PyFloat.int_truediv.
  destruct (Z.eqb_spec b 0) as [|_]; [done|].
  destruct (a =? 0); destruct (0 <? b); eauto.
Qed.

Lemma compute_step_nonempty acc tr_true tr_pred :
  tr_true <> "" -> exists acc', compute_step acc (tr_true, tr_pred) = Ok acc'.
Proof.
  intros Hne. unfold compute_step.
  destruct (int_truediv_ok (levenshtein tr_true tr_pred)
              (Z.of_nat (String.length tr_true))) as [q Hq].
  - destruct tr_true; [done|]. simpl. lia.
  - rewrite Hq. simpl. eauto.
Qed.

Lemma compute_loop_cons acc t texts :
  compute_loop acc (t :: texts) = (acc' ← compute_step acc t; compute_loop acc' texts).
Proof. reflexivity. Qed.

Lemma compute_loop_empty_text texts acc tr_pred :
  ("", tr_pred) ∈ texts -> compute_loop acc texts = Raise ZeroDivisionError.
Proof.
  revert acc. induction texts as [|[t p] texts IH]; intros acc Hin.
  - by apply elem_of_nil in Hin.
  - rewrite compute_loop_cons. destruct (decide (t = "")) as [->|Hne].
    + by rewrite compute_step_empty.
    + destruct (compute_step_nonempty acc t p Hne) as [acc' ->]. simpl.
      apply IH. apply elem_of_cons in Hin as [Heq|Hin]; [|done].
      congruence.
Qed.

Lemma accuracy_score_aligned (y_true y_pred : list Z) :
  length y_true = length y_pred -> y_true <> [] ->
  accuracy_score y_true y_pred
  = Ok (PyFloat.of_nat (length (filter (fun tp => tp.1 = tp.2) (zip y_true y_pred)))
        / PyFloat.of_nat (length y_true))%float.
Proof.
  intros Hlen Hne. unfold accuracy_score. rewrite Hlen, Nat.eqb_refl, <- Hlen.
  by destruct y_true.
Qed.

Lemma accuracy_score_scorable (tp : list Z * list Z) :
  scorable tp = true -> exists acc, accuracy_score tp.1 tp.2 = Ok acc.
Proof. unfold scorable, accuracy_score. intros ->. by eexists. Qed.

Lemma accuracy_score_refused (tp : list Z * list Z) :
  scorable tp = false -> accuracy_score tp.1 tp.2 = Raise ValueError.
Proof. unfold scorable, accuracy_score. by intros ->. Qed.

(** The accuracies of [compute]: all of them, or the [ValueError] of the
    first pair that [accuracy_score] refuses. *)
Lemma mapM_accuracy (pairs : list (list Z * list Z)) :
  if forallb scorable pairs
  then exists accs, mapM (fun tp => accuracy_score tp.1 tp.2) pairs = Ok accs
  else mapM (fun tp => accuracy_score tp.1 tp.2) pairs = Raise ValueError.
Proof.
  induction pairs as [|tp pairs IH]; simpl; [by eexists|].
  destruct (scorable tp) eqn:Htp; simpl.
  - destruct (accuracy_score_scorable tp Htp) as [acc ->]. simpl.
    destruct (forallb scorable pairs).
    + destruct IH as [accs ->]. by eexists.
    + by rewrite IH.
  - by rewrite (accuracy_score_refused tp Htp).
Qed.

(** C10, as the code has it.  When some registered example's true sequence
    decodes to the empty text, [compute] returns no metric values: it raises.
    The exception is the division by zero of
    [levenshteins[-1] / len(tr_true)] when [accuracy_score] accepted every
    registered pair; it is the [ValueError] of [accuracy_score] otherwise,
    since the accuracies are computed before any text is decoded. *)
Theorem compute_undefined_on_empty_true_text (sc : Scorer) (tr_pred : string) :
  ("", tr_pred) ∈ zip (decode sc (trues sc)) (decode sc (preds sc)) ->
  is_ok (compute sc) = false
  /\ compute sc
     = Raise (if forallb scorable (zip (trues sc) (preds sc))
              then ZeroDivisionError else ValueError).
Proof.
  intros Hin. unfold compute.
  rewrite (compute_loop_empty_text _ _ _ Hin).
  pose proof (mapM_accuracy (zip (trues sc) (preds sc))) as Hacc.
  destruct (forallb scorable (zip (trues sc) (preds sc))).
  - destruct Hacc as [accs ->]. done.
  - rewrite Hacc. done.
Qed.

(** An instance: a single example that is all padding. *)
Lemma compute_undefined_on_empty_true_text_witness :
  let sc := register_batch [[0; 0]] [[0; 0]] [[0; 0]] (Scorer_init latin) in
  is_ok (compute sc) = false
  /\ compute sc
     = Raise (if forallb scorable (zip (trues sc) (preds sc))
              then ZeroDivisionError else ValueError).
Proof.
  intros sc. apply (compute_undefined_on_empty_true_text sc "").
  vm_compute. apply list_elem_of_here.
Defined.

(** C10, as the claim states it, fails when a prediction is not as long as
    its target: the true sequence is a single pad and decodes to the empty
    text, and [compute] raises the [ValueError] of [accuracy_score], not a
    division by zero. *)
Lemma compute_empty_true_text_ragged :
  let sc := register_batch [[0; 0]] [[0]] [[0]] (Scorer_init latin) in
  trues sc = [[0]]
  /\ preds sc = [[0; 0]]
  /\ decode sc (trues sc) = [""]
  /\ compute sc = Raise ValueError
  /\ compute sc <> Raise ZeroDivisionError.
Proof. vm_compute. repeat split; done. Qed.

Lemma filter_not_ignored (pad : Z) (ids : list Z) :
  pad ∉ ids -> filter (fun ind => ind ∉ [pad]) ids = ids.
Proof.
  induction ids as [|i ids IH]; [done|]. rewrite not_elem_of_cons. intros [Hne Hids].
  rewrite filter_cons_True by (rewrite list_elem_of_singleton; congruence).
  by rewrite IH.
Qed.

(** Symbols of one character each spell the text they are joined to. *)
Lemma concat_characters (symbols : list string) :
  Forall (fun t => String.length t = 1%nat) symbols ->
  symbols = map (fun c => String c "") (list_ascii_of_string (String.concat "" symbols)).
Proof.
  induction 1 as [|t symbols Ht _ IH]; [done|].
  destruct t as [|c [|]]; try done.
  replace (String.concat "" (String c "" :: symbols))
    with (String c (String.concat "" symbols)) by (by destruct symbols).
  simpl. by rewrite <- IH.
Qed.

(** What a character vocabulary decodes a pad-free example to. *)
Lemma decode_characters (v : LabelEncoder) (itos : Z -> string) (sc : Scorer)
    (ids : list Z) (text : string) :
  tagger_vocabulary sc = v ->
  decodes_by itos v ->
  (forall i, i ∈ ids -> String.length (itos i) = 1%nat) ->
  pad_token_index v ∉ ids ->
  decode sc [ids] = [text] ->
  map itos ids = map (fun c => String c "") (list_ascii_of_string text).
Proof.
  intros Hv [Hreverse Htranscribe] Hone Hpad. unfold decode.
  rewrite Hv, Hreverse, Htranscribe. simpl.
  rewrite filter_not_ignored by done. intros [= <-].
  apply concat_characters. apply Forall_forall. intros t Ht.
  apply list_elem_of_fmap in Ht as (i & -> & Hi). by apply Hone.
Qed.

(** C6.  One registered example of a character vocabulary, the pad id left
    out of both sequences, whose target decodes to "abc" and whose prediction
    decodes to "abd": the edit distance is 1, the edit distance per character
    1/3 and the accuracy 2/3. *)
Theorem compute_abc_abd (v : LabelEncoder) (itos : Z -> string)
    (y_true y_pred x : list Z) :
  let sc := {| tagger_vocabulary := v; trues := [y_true]; preds := [y_pred];
               srcs := [x]; scores := None |} in
  decodes_by itos v ->
  characters itos (y_true ++ y_pred) ->
  pad_token_index v ∉ y_true ++ y_pred ->
  decode sc (trues sc) = ["abc"] ->
  decode sc (preds sc) = ["abd"] ->
  scores <$> compute sc
  = Ok (Some {| accuracy := (2 / 3)%float; leven := 1%float;
                leven_per_char := (1 / 3)%float |}).
Proof.
  intros sc Hdec [Hone Hinj] Hpad Htrue Hpred.
  apply not_elem_of_app in Hpad as [Hpt Hpp].
  assert (map itos y_true = ["a"; "b"; "c"]) as Ht.
  { apply (decode_characters v itos sc y_true "abc"); try done.
    intros i Hi. apply Hone, elem_of_app. by left. }
  assert (map itos y_pred = ["a"; "b"; "d"]) as Hp.
  { apply (decode_characters v itos sc y_pred "abd"); try done.
    intros i Hi. apply Hone, elem_of_app. by right. }
  destruct y_true as [|a [|b [|c [|]]]]; try done.
  destruct y_pred as [|a' [|b' [|d [|]]]]; try done.
  simpl in Ht, Hp. injection Ht as Ha Hb Hc. injection Hp as Ha' Hb' Hd.
  assert (a' = a) as ->.
  { apply Hinj; [set_solver..|congruence]. }
  assert (b' = b) as ->.
  { apply Hinj; [set_solver..|congruence]. }
  assert (c <> d) as Hcd.
  { intros ->. rewrite Hc in Hd. done. }
  assert (accuracy_score [a; b; c] [a; b; d] = Ok (2 / 3)%float) as Hacc.
  { rewrite accuracy_score_aligned by done.
    change (zip [a; b; c] [a; b; d]) with [(a, a); (b, b); (c, d)].
    rewrite !filter_cons_True by done.
    rewrite filter_cons_False by (simpl; congruence).
    reflexivity. }
  unfold compute. rewrite Htrue, Hpred.
  change (mapM _ (zip (trues sc) (preds sc)))
    with (y ← accuracy_score [a; b; c] [a; b; d]; k ← Ok []; Ok (y :: k)).
  rewrite Hacc. reflexivity.
Qed.

Lemma compute_abc_abd_witness :
  scores <$> compute {| tagger_vocabulary := latin; trues := [[1; 2; 3]];
                        preds := [[1; 2; 4]]; srcs := [[1; 2; 3]]; scores := None |}
  = Ok (Some {| accuracy := (2 / 3)%float; leven := 1%float;
                leven_per_char := (1 / 3)%float |}).
Proof.
  apply (compute_abc_abd latin latin_itos [1; 2; 3] [1; 2; 4] [1; 2; 3]).
  - split; reflexivity.
  - split.
    + intros i Hi. repeat (apply elem_of_cons in Hi as [->|Hi]; [reflexivity|]).
      by apply elem_of_nil in Hi.
    + intros i j Hi Hj.
      repeat (apply elem_of_cons in Hi as [->|Hi];
              [repeat (apply elem_of_cons in Hj as [->|Hj]; [by intros [=]|]);
               by apply elem_of_nil in Hj|]).
      by apply elem_of_nil in Hi.
  - intros Hin. repeat (apply elem_of_cons in Hin as [[=]|Hin]).
    by apply elem_of_nil in Hin.
  - reflexivity.
  - reflexivity.
Defined.

(** The accuracy is taken over the registered id sequences as they are: when
    the caller leaves a pad in both, the texts are still "abc" and "abd" and
    the pad position counts as a hit, which makes the accuracy 3/4. *)
Lemma accuracy_counts_registered_pads :
  let sc := register_batch [[1; 2; 4; 0]] [[1; 2; 3; 0]] [[1; 2; 3; 0]]
                           (Scorer_init latin) in
  length (trues sc) = 1%nat
  /\ decode sc (trues sc) = ["abc"]
  /\ decode sc (preds sc) = ["abd"]
  /\ scores <$> compute sc
     = Ok (Some {| accuracy := (3 / 4)%float; leven := 1%float;
                   leven_per_char := (1 / 3)%float |})
  /\ (3 / 4 =? 2 / 3)%float = false.
Proof. vm_compute. done. Qed.

(** ** Trainer: perplexity and the epoch passes *)

Section EpochFacts.
Context `{backend : Backend} `{host : Host}.

(** C5, as the code has it.  [_get_perplexity] never raises: it returns what
    [math.exp] returns whenever that call returns, and +inf whenever that
    call raises, whatever it raises. *)
Theorem get_perplexity_total (loss : float) :
  exists p, _get_perplexity loss = Ok p
    /\ (forall r, math_exp loss = Ok r -> p = r)
    /\ (forall e, math_exp loss = Raise e -> p = PyFloat.inf).
Proof.
  unfold _get_perplexity. destruct (math_exp loss) as [r|e].
  - exists r. repeat split; congruence.
  - exists PyFloat.inf. repeat split; congruence.
Qed.

(** C7.  An iterator that counts no batch makes both epoch passes raise: the
    mean loss [epoch_loss / iterator.batch_count] divides by zero before any
    [Score] is built. *)
Theorem empty_epoch_raises (iterator : DatasetIterator) (clip_ : float) (desc : string)
    (size : Z) (w : World) (o : Optimizer) :
  batch_count iterator = 0 ->
  fst (_train_epoch iterator clip_ desc size (w, o)) = Raise ZeroDivisionError
  /\ fst (evaluate iterator desc size w) = Raise ZeroDivisionError.
Proof.
  intros Hcount. unfold _train_epoch, evaluate. rewrite Hcount. split; reflexivity.
Qed.

End EpochFacts.

Lemma empty_epoch_raises_witness :
  let it := Scripted.empty_dataset [] in
  let w := Scripted.world0 [] in
  fst (@_train_epoch (Scripted.backend []) Scripted.host it 1 "Test" 256
         (w, Scripted.Build_optimizer_t 1))
  = Raise ZeroDivisionError
  /\ fst (@evaluate (Scripted.backend []) Scripted.host it "Test" 256 w)
     = Raise ZeroDivisionError.
Proof.
  intros it w.
  apply (@empty_epoch_raises (Scripted.backend []) Scripted.host it). reflexivity.
Defined.

(** C5, as the claim states it, fails on a loss that is not a number:
    [math.exp] returns NaN for it without raising, so the perplexity is NaN,
    not +inf. *)
Lemma get_perplexity_of_nan :
  exists loss : float,
    is_nan loss = true
    /\ (forall host : Host, math_exp loss = Ok nan -> _get_perplexity loss = Ok nan)
    /\ @_get_perplexity Scripted.host loss = Ok nan
    /\ (nan =? PyFloat.inf)%float = false.
Proof.
  exists nan. repeat split.
  intros host Hexp. unfold _get_perplexity. by rewrite Hexp.
Qed.

(** ** Trainer: the archive *)

Section SaveFacts.
Context `{backend : Backend} `{host : Host}.

Lemma write_file_ok path f w w' :
  write_file path f w = (Ok tt, w') ->
  w' = set_files (insert path f) w /\ os_path_isdir w path = false.
Proof.
  unfold write_file. intros H. repeat case_match; simplify_eq. done.
Qed.

Lemma tar_add_ok tarpath path arcname w w' :
  tar_add tarpath path arcname w = (Ok tt, w') ->
  exists content members,
    files w !! path = Some (Regular content)
    /\ files w !! tarpath = Some (Archive members)
    /\ w' = set_files (insert tarpath (Archive (members ++ [(arcname, content)]))) w.
Proof.
  unfold tar_add, read_file, mbind, Eff_bind, raise, modify.
  intros H. repeat case_match; simplify_eq. eauto.
Qed.

Lemma tmpfile_exit_file tmppath w w' :
  tmpfile_exit tmppath w = (Ok tt, w') ->
  os_path_isdir w tmppath = false ->
  w' = set_files (delete tmppath) w.
Proof.
  unfold tmpfile_exit, mbind, Eff_bind, get. intros H Hdir. rewrite Hdir in H.
  unfold os_remove in H. repeat case_match; simplify_eq. done.
Qed.

Lemma bind_ok {S A B} (m : Eff S A) (f : A -> Eff S B) s b s2 :
  (m ≫= f) s = (Ok b, s2) ->
  exists a s1, m s = (Ok a, s1) /\ f a s1 = (Ok b, s2).
Proof.
  unfold mbind, Eff_bind. destruct (m s) as [[a|e] s1]; intros H; [eauto|done].
Qed.

Lemma add_gzip_to_tar_ok text subpath tarpath w w' :
  add_gzip_to_tar text subpath tarpath w = (Ok tt, w') ->
  exists members,
    files w !! tarpath = Some (Archive members)
    /\ files w' !! tarpath
       = Some (Archive (members ++ [(subpath, Bytes (gzip_compress text))]))
    /\ tagger w' = tagger w /\ dirs w' = dirs w /\ trace w' = trace w.
Proof.
  unfold add_gzip_to_tar, with_tmpfile, tmpfile_enter. intros H.
  apply bind_ok in H as (tmp & w0 & Hdraw & H).
  apply bind_ok in Hdraw as (fid & w0' & Hdraw & Hret).
  unfold draw_uuid in Hdraw. unfold mret, Eff_ret in Hret. simplify_eq.
  set (tmp := os_path_join "/tmp/" (uuid1 (uuids w))) in *.
  apply bind_ok in H as ([] & w3 & H & Hexit).
  apply bind_ok in H as ([] & w1 & Hwrite & Hadd).
  apply bind_ok in Hexit as ([] & w4 & Hexit & Hret).
  unfold mret, Eff_ret in Hret. simplify_eq.
  apply write_file_ok in Hwrite as [-> Hnodir].
  apply tar_add_ok in Hadd as (content & members & Hsrc & Htar & ->).
  simpl in *. rewrite lookup_insert_eq in Hsrc. simplify_eq.
  destruct (decide (tmp = tarpath)) as [Heq|Hne].
  { rewrite Heq, lookup_insert_eq in Htar. done. }
  rewrite lookup_insert_ne in Htar by done.
  apply tmpfile_exit_file in Hexit as ->; [|done].
  exists members. simpl. repeat split; [done|].
  rewrite lookup_delete_ne by done. by rewrite lookup_insert_eq.
Qed.

Lemma torch_save_ok path w w' :
  torch_save path w = (Ok tt, w') ->
  w' = emit (TorchSave path) (set_files (insert path (Regular (Pickled (model (tagger w))))) w)
  /\ os_path_isdir w path = false.
Proof.
  unfold torch_save. intros H.
  apply bind_ok in H as (w0 & w0' & Hget & H). unfold get in Hget. simplify_eq.
  apply bind_ok in H as ([] & w1 & Hwrite & H).
  apply write_file_ok in Hwrite as [-> Hnodir].
  unfold modify in H. by simplify_eq.
Qed.

Lemma add_state_dict_ok tarpath w w' :
  with_tmpfile (fun tmppath => torch_save tmppath;; tar_add tarpath tmppath "state_dict.pt") w
  = (Ok tt, w') ->
  exists members,
    files w !! tarpath = Some (Archive members)
    /\ files w' !! tarpath
       = Some (Archive (members ++ [("state_dict.pt", Pickled (model (tagger w)))]))
    /\ tagger w' = tagger w /\ dirs w' = dirs w
    /\ exists more, trace w' = trace w ++ more.
Proof.
  unfold with_tmpfile, tmpfile_enter. intros H.
  apply bind_ok in H as (tmp & w0 & Hdraw & H).
  apply bind_ok in Hdraw as (fid & w0' & Hdraw & Hret).
  unfold draw_uuid in Hdraw. unfold mret, Eff_ret in Hret. simplify_eq.
  set (tmp := os_path_join "/tmp/" (uuid1 (uuids w))) in *.
  apply bind_ok in H as ([] & w3 & H & Hexit).
  apply bind_ok in H as ([] & w1 & Hwrite & Hadd).
  apply bind_ok in Hexit as ([] & w4 & Hexit & Hret).
  unfold mret, Eff_ret in Hret. simplify_eq.
  apply torch_save_ok in Hwrite as [-> Hnodir].
  apply tar_add_ok in Hadd as (content & members & Hsrc & Htar & ->).
  simpl in *. rewrite lookup_insert_eq in Hsrc. simplify_eq.
  destruct (decide (tmp = tarpath)) as [Heq|Hne].
  { rewrite Heq, lookup_insert_eq in Htar. done. }
  rewrite lookup_insert_ne in Htar by done.
  apply tmpfile_exit_file in Hexit as ->; [|done].
  exists members. simpl. repeat split; [done| |by eexists].
  rewrite lookup_delete_ne by done. by rewrite lookup_insert_eq.
Qed.

(** Where [save] succeeds it returns the normalised path, and the file there
    is the archive of the tagger; the tagger is left as it was. *)
Lemma save_ok fpath csv w p w' :
  save fpath csv w = (Ok p, w') ->
  p = Utils.ensure_ext fpath "tar" None
  /\ files w' !! p = Some (archive_of (tagger w))
  /\ tagger w' = tagger w
  /\ exists more, trace w' = trace w ++ more.
Proof.
  unfold save. set (path := Utils.ensure_ext fpath "tar" None). intros H.
  apply bind_ok in H as (w0 & w0' & Hget & H). unfold get in Hget. simplify_eq.
  apply bind_ok in H as ([] & w1 & Hdirs & H).
  apply bind_ok in H as ([] & w2 & Hcsv & H).
  apply bind_ok in H as ([] & w3 & Hopen & H).
  apply bind_ok in H as ([] & w4 & Hsettings & H).
  apply bind_ok in H as ([] & w5 & Hvocab & H).
  apply bind_ok in H as ([] & w6 & Hstate & H).
  unfold mret, Eff_ret in H. simplify_eq.
  assert (tagger w1 = tagger w0 /\ trace w1 = trace w0) as [Ht1 Hr1].
  { destruct (negb _); [|by unfold mret, Eff_ret in Hdirs; simplify_eq].
    unfold os_makedirs in Hdirs. repeat case_match; by simplify_eq. }
  assert (tagger w2 = tagger w1 /\ trace w2 = trace w1) as [Ht2 Hr2].
  { destruct csv; [by unfold mret, Eff_ret in Hcsv; simplify_eq|].
    by apply write_file_ok in Hcsv as [-> _]. }
  apply write_file_ok in Hopen as [-> _].
  apply add_gzip_to_tar_ok in Hsettings as (m1 & Hm1 & Hm1' & Ht4 & _ & Hr4).
  simpl in Hm1. rewrite lookup_insert_eq in Hm1. simplify_eq.
  apply add_gzip_to_tar_ok in Hvocab as (m2 & Hm2 & Hm2' & Ht5 & _ & Hr5).
  rewrite Hm1' in Hm2. simplify_eq.
  apply add_state_dict_ok in Hstate as (m3 & Hm3 & Hm3' & Ht6 & _ & more & Hr6).
  rewrite Hm2' in Hm3. simplify_eq.
  simpl in *. split; [done|]. split; [|split; [congruence|]].
  - rewrite Hm3'. unfold archive_of. by rewrite Ht5, Ht4, Ht2, Ht1.
  - exists more. congruence.
Qed.

Lemma tar_member_vocabulary (b1 b2 b3 : Blob) :
  tar_member "vocabulary.json"
    [("settings.json.zip", b1); ("vocabulary.json", b2); ("state_dict.pt", b3)]
  = Ok b2.
Proof. reflexivity. Qed.

(** C2, on the code.  What [save] wrote, [load] cannot read back: [save]
    stores the vocabulary gzip-compressed under ["vocabulary.json"], and
    [load] extracts that member and reads it as JSON text without
    decompressing it.  On a host whose JSON reader rejects a gzip stream (it
    starts with the bytes 1f 8b), [load] raises on every archive that [save]
    produced. *)
Theorem load_after_save_raises (fpath : string) (csv : list (list string))
    (w w1 : World) (p : string) :
  (forall data, is_ok (load_vocabulary (gzip_compress data)) = false) ->
  save fpath csv w = (Ok p, w1) ->
  is_ok (fst (load fpath w1)) = false.
Proof.
  intros Hreject Hsave.
  apply save_ok in Hsave as (-> & Harchive & _).
  destruct (load fpath w1) as [[t|e] w2] eqn:Hload; [exfalso|done].
  unfold load in Hload.
  apply bind_ok in Hload as (tar & w3 & Hopen & Hload).
  unfold tarfile_open_r in Hopen.
  apply bind_ok in Hopen as (f & w3' & Hread & Hopen).
  unfold read_file in Hread. rewrite Harchive in Hread. simplify_eq.
  unfold archive_of, mret, Eff_ret in Hopen. simplify_eq.
  apply bind_ok in Hload as (text & w4 & _ & Hload).
  apply bind_ok in Hload as (kw & w5 & _ & Hload).
  apply bind_ok in Hload as (vocab & w6 & Hvocab & _).
  unfold with_tmpfile in Hvocab.
  apply bind_ok in Hvocab as (tmp & w7 & _ & Hvocab).
  apply bind_ok in Hvocab as (v & w8 & Hbody & _).
  apply bind_ok in Hbody as ([] & w9 & Hextract & Hbody).
  apply bind_ok in Hbody as (data & w10 & Hdata & Hbody).
  unfold tar_extract in Hextract.
  apply bind_ok in Hextract as (m & w11 & Hmember & Hextract).
  apply bind_ok in Hextract as ([] & w12 & _ & Hwrite).
  apply write_file_ok in Hwrite as [-> _].
  unfold lift_result in Hmember.
  rewrite tar_member_vocabulary in Hmember. simplify_eq.
  unfold read_bytes, read_file, mbind, Eff_bind in Hdata. simpl in Hdata.
  rewrite lookup_insert_eq in Hdata. unfold mret, Eff_ret in Hdata. simplify_eq.
  unfold lift_result in Hbody. simplify_eq.
  specialize (Hreject (dump (vocabulary (tagger w)))). 
  match goal with H : load_vocabulary _ = Ok _ |- _ => by rewrite H in Hreject end.
Qed.

(** After the epochs, without a checkpoint on disk and with a dev score that
    the last checkpoint test refuses, [final_save] is the message followed by
    [save] and by [Saved !]. *)
Lemma final_save_unfold fid fpath (f : Frame) :
  files (world f) !! fid = None ->
  os_path_isdir (world f) fid = false ->
  PyFloat.ne (Score.loss (dev_score f)) PyFloat.inf
    && (Score.loss (dev_score f) <? PyFloat.inf)%float = false ->
  final_save fid PyFloat.inf fpath f
  = (in_world (print (Text "No model was saved during training"));;
     in_world (save fpath (csv_content f));;
     in_world (print (Text "Saved !"))) f.
Proof.
  intros Hnone Hnodir Hguard. unfold final_save.
  unfold mbind at 1, Eff_bind at 1, get at 1.
  unfold _temp_save. rewrite Hguard.
  destruct f as [w o s d c]. simpl in *.
  unfold in_world, zoom, mbind, Eff_bind, mret, Eff_ret, try_except, torch_load,
    read_file, get, print, modify. simpl.
  unfold mbind, Eff_bind. rewrite Hnone, Hnodir. simpl. reflexivity.
Qed.

(** Where [save] returns after a missing checkpoint, the final phase
    returns too: the message is printed, the weights are left as they are
    and the archive holds them. *)
Lemma final_save_after_missing_checkpoint (fid fpath : string) (f : Frame) :
  files (world f) !! fid = None ->
  os_path_isdir (world f) fid = false ->
  PyFloat.ne (Score.loss (dev_score f)) PyFloat.inf
    && (Score.loss (dev_score f) <? PyFloat.inf)%float = false ->
  is_ok (fst (save fpath (csv_content f)
                (emit (Printed (Text "No model was saved during training")) (world f))))
  = true ->
  exists f',
    final_save fid PyFloat.inf fpath f = (Ok tt, f')
    /\ Printed (Text "No model was saved during training") ∈ trace (world f')
    /\ Printed (Text "Saved !") ∈ trace (world f')
    /\ tagger (world f') = tagger (world f)
    /\ files (world f') !! Utils.ensure_ext fpath "tar" None
       = Some (archive_of (tagger (world f))).
Proof.
  intros Hnone Hnodir Hguard Hsave.
  rewrite final_save_unfold by done.
  destruct f as [w o s d c]. simpl in *.
  unfold in_world, zoom, mbind, Eff_bind, print, modify. simpl.
  destruct (save fpath c (emit _ w)) as [[p|e] w'] eqn:Hs; [|done].
  apply save_ok in Hs as (-> & Harchive & Htagger & more & Htrace).
  eexists. split; [reflexivity|]. simpl. rewrite Htrace. simpl.
  split; [set_solver|]. split; [set_solver|]. done.
Qed.

(** [save] on a path without a directory part: [os.path.isdir('')] is false,
    so [os.makedirs('')] is called, and raises. *)
Lemma save_without_directory fpath csv (w : World) :
  os_path_dirname (Utils.ensure_ext fpath "tar" None) = "" ->
  os_path_isdir w "" = false ->
  save fpath csv w = (Raise FileNotFoundError, w).
Proof.
  intros Hdirname Hnodir. unfold save. rewrite Hdirname.
  unfold mbind at 1, Eff_bind at 1, get at 1. rewrite Hnodir. reflexivity.
Qed.

(** C8, on the code.  With no checkpoint file at the temporary path and a
    dev loss that the last checkpoint test refuses, the final phase gets past
    the missing file: it prints that no model was saved and goes on to [save]
    with the weights as they are.  But [save] makes the directory of the
    archive whenever [os.path.isdir] denies it, the empty name of a path
    without a directory part included: for such a path, the default
    ["model.tar"] of [run] and of [save] among them, the final phase fails
    with the [FileNotFoundError] of [os.makedirs('')], and no archive is
    written. *)
Theorem final_save_fails_without_directory (fid fpath : string) (f : Frame) :
  files (world f) !! fid = None ->
  os_path_isdir (world f) fid = false ->
  PyFloat.ne (Score.loss (dev_score f)) PyFloat.inf
    && (Score.loss (dev_score f) <? PyFloat.inf)%float = false ->
  os_path_dirname (Utils.ensure_ext fpath "tar" None) = "" ->
  os_path_isdir (world f) "" = false ->
  exists f',
    final_save fid PyFloat.inf fpath f = (Raise FileNotFoundError, f')
    /\ trace (world f')
       = trace (world f) ++ [Printed (Text "No model was saved during training")]
    /\ tagger (world f') = tagger (world f)
    /\ files (world f') = files (world f)
    /\ dirs (world f') = dirs (world f).
Proof.
  intros Hnone Hnodir Hguard Hdirname Hempty.
  rewrite final_save_unfold by done.
  destruct f as [w o s d c]. simpl in *.
  unfold in_world, zoom, mbind, Eff_bind, print, modify. simpl.
  rewrite save_without_directory by done.
  eexists. split; [reflexivity|]. done.
Qed.

End SaveFacts.

(** ** Trainer: runs of the scripted backend *)

(** C1, on the code.  [_temp_save] itself keeps a checkpoint only for a loss
    below the best it is given; [run] never updates the best it passes, which
    stays +inf.  With the dev losses 2.0, 1.5, 1.8 and 1.2 every epoch writes
    the checkpoint, the one with loss 1.8 included, and so does the test that
    follows the loop. *)
Theorem run_writes_checkpoint_at_every_epoch :
  (forall w, @_temp_save (Scripted.backend Runs.losses) "/tmp/uuid-0" 1.5%float
               (score_of_loss 1.8%float) w = (Ok 1.5%float, w))
  /\ fst Runs.four_epochs = Ok tt
  /\ milestones (trace (snd Runs.four_epochs))
     = [ Progress "[Epoch Training 1/4]"; Progress "[Epoch Dev 1/4]";
         TorchSave "/tmp/uuid-0"; Printed (SchedulerLine 1e-3 0 10);
         Progress "[Epoch Training 2/4]"; Progress "[Epoch Dev 2/4]";
         TorchSave "/tmp/uuid-0"; Printed (SchedulerLine 1e-3 0 10);
         Progress "[Epoch Training 3/4]"; Progress "[Epoch Dev 3/4]";
         TorchSave "/tmp/uuid-0"; Printed (SchedulerLine 1e-3 1 10);
         Progress "[Epoch Training 4/4]"; Progress "[Epoch Dev 4/4]";
         TorchSave "/tmp/uuid-0"; Printed (SchedulerLine 1e-3 0 10);
         TorchSave "/tmp/uuid-0"; TorchSave "/tmp/uuid-3";
         Printed (Text "Saved !") ].
Proof.
  split; [intros w; reflexivity|]. split; vm_compute; reflexivity.
Qed.

(** C3, on the code.  The learning rate sits on its floor (1e-6) and the
    second epoch ends with one bad epoch for a patience of one: no early stop
    is raised, since the test is [lr < min_lr], and the third epoch runs. *)
Theorem run_goes_on_at_the_floor :
  fst (Runs.plateau 1e-6) = Ok tt
  /\ milestones (trace (snd (Runs.plateau 1e-6)))
     = [ Progress "[Epoch Training 1/3]"; Progress "[Epoch Dev 1/3]";
         TorchSave "/tmp/uuid-0"; Printed (SchedulerLine 1e-6 0 10);
         Progress "[Epoch Training 2/3]"; Progress "[Epoch Dev 2/3]";
         TorchSave "/tmp/uuid-0"; Printed (SchedulerLine 1e-6 1 10);
         Progress "[Epoch Training 3/3]"; Progress "[Epoch Dev 3/3]";
         TorchSave "/tmp/uuid-0"; Printed (SchedulerLine 1e-6 2 10);
         TorchSave "/tmp/uuid-0"; TorchSave "/tmp/uuid-3";
         Printed (Text "Saved !") ].
Proof. split; vm_compute; reflexivity. Qed.

(** C4, on the code.  The learning rate is below the floor, so the second
    epoch raises the early stop; the trainer catches it, prints its message,
    and runs the third epoch all the same: the handler has no [break]. *)
Theorem run_goes_on_after_early_stop :
  fst (Runs.plateau 1e-7) = Ok tt
  /\ milestones (trace (snd (Runs.plateau 1e-7)))
     = [ Progress "[Epoch Training 1/3]"; Progress "[Epoch Dev 1/3]";
         TorchSave "/tmp/uuid-0"; Printed (SchedulerLine 1e-7 0 10);
         Progress "[Epoch Training 2/3]"; Progress "[Epoch Dev 2/3]";
         TorchSave "/tmp/uuid-0"; Printed (SchedulerLine 1e-7 1 10);
         Printed (Text "Reached plateau for too long, stopping.");
         Progress "[Epoch Training 3/3]"; Progress "[Epoch Dev 3/3]";
         TorchSave "/tmp/uuid-0"; Printed (SchedulerLine 1e-7 2 10);
         Printed (Text "Reached plateau for too long, stopping.");
         TorchSave "/tmp/uuid-0"; TorchSave "/tmp/uuid-3";
         Printed (Text "Saved !") ].
Proof. split; vm_compute; reflexivity. Qed.

Lemma load_after_save_raises_witness :
  is_ok (fst (@load (Scripted.backend []) Scripted.host "models/model.tar"
                (snd (@save (Scripted.backend []) Scripted.host "models/model.tar" []
                        (Scripted.world0 [])))))
  = false.
Proof.
  apply (@load_after_save_raises (Scripted.backend []) Scripted.host
           "models/model.tar" [] (Scripted.world0 []) _ "models/model.tar").
  - intros data. reflexivity.
  - vm_compute. reflexivity.
Defined.

(** With a directory for the archive, the final phase of a run of no epoch
    returns and writes the archive. *)
Lemma final_save_after_missing_checkpoint_instance :
  exists f',
    @final_save (Scripted.backend []) Scripted.host "/tmp/uuid-0" PyFloat.inf
                "models/model.tar" (Runs.untrained 1e-3) = (Ok tt, f')
    /\ Printed (Text "No model was saved during training") ∈ trace (world f')
    /\ Printed (Text "Saved !") ∈ trace (world f')
    /\ tagger (world f') = tagger (world (Runs.untrained 1e-3))
    /\ files (world f') !! Utils.ensure_ext "models/model.tar" "tar" None
       = Some (@archive_of (Scripted.backend []) Scripted.host
                 (tagger (world (Runs.untrained 1e-3)))).
Proof.
  apply (@final_save_after_missing_checkpoint (Scripted.backend []) Scripted.host
           "/tmp/uuid-0" "models/model.tar" (Runs.untrained 1e-3));
    vm_compute; reflexivity.
Qed.

(** The default path of [run]: after no epoch, and at the end of a run
    whose dev loss is never finite. *)
Lemma final_save_fails_without_directory_witness :
  (exists f',
     @final_save (Scripted.backend []) Scripted.host "/tmp/uuid-0" PyFloat.inf
                 "model.tar" (Runs.untrained 1e-3) = (Raise FileNotFoundError, f')
     /\ trace (world f')
        = trace (world (Runs.untrained 1e-3))
          ++ [Printed (Text "No model was saved during training")]
     /\ tagger (world f') = tagger (world (Runs.untrained 1e-3))
     /\ files (world f') = files (world (Runs.untrained 1e-3))
     /\ dirs (world f') = dirs (world (Runs.untrained 1e-3)))
  /\ fst Runs.never_finite = Raise FileNotFoundError
  /\ milestones (trace (snd Runs.never_finite))
     = [ Progress "[Epoch Training 1/2]"; Progress "[Epoch Dev 1/2]";
         Printed (SchedulerLine 1e-3 1 10);
         Progress "[Epoch Training 2/2]"; Progress "[Epoch Dev 2/2]";
         Printed (SchedulerLine 1e-3 2 10);
         Printed (Text "No model was saved during training") ]
  /\ files (snd Runs.never_finite) !! "model.tar" = None.
Proof.
  split.
  - apply (@final_save_fails_without_directory (Scripted.backend []) Scripted.host
             "/tmp/uuid-0" "model.tar" (Runs.untrained 1e-3));
      vm_compute; reflexivity.
  - split; [|split]; vm_compute; reflexivity.
Defined.

(** ** Further properties of the code *)

Lemma SFltb_irrefl (x : spec_float) : SFltb x x = false.
Proof.
  unfold SFltb, SFcompare.
  destruct x as [s|s| |s m e]; [done|by destruct s|done|].
  change (PosDef.Pos.compare_cont Eq m m) with (Pos.compare m m).
  rewrite Z.compare_refl, Pos.compare_refl. by destruct s.
Qed.

Lemma float_ltb_irrefl (x : float) : (x <? x)%float = false.
Proof. rewrite ltb_spec. apply SFltb_irrefl. Qed.

Section LoopFacts.
Context `{backend : Backend} `{host : Host}.

(** On its floor the learning rate does not stop the training, whatever the
    number of bad epochs: the test is strict. *)
Theorem plateau_not_reached_at_floor (a : RunArgs) (f : Frame) :
  optimizer_lr (optimizer f) = min_lr a -> plateau_reached a f = false.
Proof.
  intros Heq. unfold plateau_reached. rewrite Heq, float_ltb_irrefl.
  apply andb_false_r.
Qed.

(** Where [save] returns, it returns the normalised path, the file there is
    the archive of the tagger (settings, vocabulary and parameters, in that
    order), and the tagger is as before. *)
Theorem save_writes_archive (fpath : string) (csv : list (list string))
    (w w' : World) (p : string) :
  save fpath csv w = (Ok p, w') ->
  p = Utils.ensure_ext fpath "tar" None
  /\ files w' !! p = Some (archive_of (tagger w))
  /\ tagger w' = tagger w.
Proof. intros Hsave. apply save_ok in Hsave as (? & ? & ? & _). done. Qed.

End LoopFacts.

Lemma plateau_not_reached_at_floor_instance :
  @plateau_reached (Scripted.backend []) (Scripted.args [] 1e-6 0 10 3)
                   (Runs.untrained 1e-6) = false.
Proof.
  apply (@plateau_not_reached_at_floor (Scripted.backend [])
           (Scripted.args [] 1e-6 0 10 3) (Runs.untrained 1e-6)).
  reflexivity.
Defined.

Lemma save_writes_archive_instance :
  let w := Scripted.world0 [] in
  let w' := snd (@save (Scripted.backend []) Scripted.host "models/model" [] w) in
  "models/model.tar" = Utils.ensure_ext "models/model" "tar" None
  /\ files w' !! "models/model.tar"
     = Some (@archive_of (Scripted.backend []) Scripted.host (tagger w))
  /\ tagger w' = tagger w.
Proof.
  intros w w'.
  apply (@save_writes_archive (Scripted.backend []) Scripted.host "models/model" [] w w').
  vm_compute. reflexivity.
Defined.

(** ** What a computation leaves as it was *)

Section Keeps.
Context {S : Type} (R : relation S) `{!PreOrder R}.

Lemma keeps_ret {A} (a : A) : keeps R (mret a).
Proof. intros s. reflexivity. Qed.

Lemma keeps_raise {A} e : keeps R (raise e : Eff S A).
Proof. intros s. reflexivity. Qed.

Lemma keeps_get : keeps R get.
Proof. intros s. reflexivity. Qed.

Lemma keeps_lift_result {A} (r : result A) : keeps R (lift_result r).
Proof. intros s. reflexivity. Qed.

Lemma keeps_modify (g : S -> S) : (forall s, R s (g s)) -> keeps R (modify g).
Proof. intros Hg s. apply Hg. Qed.

Lemma keeps_bind {A B} (m : Eff S A) (k : A -> Eff S B) :
  keeps R m -> (forall a, keeps R (k a)) -> keeps R (m ≫= k).
Proof.
  intros Hm Hk s. unfold mbind, Eff_bind.
  specialize (Hm s). destruct (m s) as [[a|e] s1]; simpl in *; [|done].
  etransitivity; [exact Hm|apply Hk].
Qed.

Lemma keeps_try_except {A} (body handler : Eff S A) e :
  keeps R body -> keeps R handler -> keeps R (try_except body e handler).
Proof.
  intros Hb Hh s. unfold try_except.
  specialize (Hb s). destruct (body s) as [[a|e'] s1]; simpl in *; [done|].
  destruct (decide (e' = e)); [|done].
  etransitivity; [exact Hb|apply Hh].
Qed.

End Keeps.

(** ** Trainer: what the epoch passes and the epoch loop leave alone *)

Section PassFacts.
Context `{backend : Backend} `{host : Host}.

Lemma evaluate_batches_state n batches l sc (w : World) :
  snd (evaluate_batches n batches l sc w) = w.
Proof.
  revert batches l sc. induction n as [|n IH]; intros batches l sc; [done|].
  simpl. unfold mbind, Eff_bind, lift_result, get.
  destruct (next batches) as [[b rest]|e]; [|done].
  destruct (model_gradient _ _ _ _ _) as [[l' sc']|e]; [|done].
  apply IH.
Qed.

(** [evaluate] trains nothing and writes nothing.  Whether it returns a score
    or raises, the world it ends in is the one it started in, with the model
    in evaluation mode and the progress bar shown: the parameters, the files
    and the directories are as before. *)
Theorem evaluate_only_sets_eval_mode (iterator : DatasetIterator) (desc : string)
    (size : Z) (w : World) :
  snd (evaluate iterator desc size w)
  = emit (Progress desc) (set_tagger (set_model_training false) w).
Proof.
  unfold evaluate, mbind, Eff_bind, modify, get. simpl.
  pose proof (evaluate_batches_state (Z.to_nat (batch_count iterator))
                (get_epoch iterator size) 0%float
                (Scorer_init (vocabulary (tagger w)))
                (emit (Progress desc) (set_tagger (set_model_training false) w))) as Hst.
  simpl in Hst.
  destruct (evaluate_batches _ _ _ _ _) as [[[l sc]|e] w1]; simpl in *; subst w1;
    [|done].
  unfold lift_result. by destruct (PyFloat.float_div_int _ _).
Qed.

Lemma train_batches_state n batches clip_ l sc (w : World) (o : Optimizer) :
  same_disk w (snd (train_batches n batches clip_ l sc (w, o))).1.
Proof.
  revert batches l sc w o. induction n as [|n IH]; intros batches l sc w o.
  { by repeat split. }
  simpl. unfold mbind, Eff_bind, lift_result, get, modify.
  destruct (next batches) as [[b rest]|e]; [|by repeat split].
  destruct (model_gradient _ _ _ _ _) as [[l' sc']|e]; [|by repeat split].
  destruct (optimizer_update _ _ _ _) as [o' params].
  specialize (IH rest (l + loss_item l')%float sc' (set_tagger (set_model params) w) o').
  destruct IH as (? & ? & ? & ? & ? & ? & ?). by repeat split.
Qed.

(** [_train_epoch] writes nothing either: whether it returns or raises, the
    files, the directories and the vocabulary are as before, the model is in
    training mode, and the trace grew by the progress bar. *)
Theorem train_epoch_leaves_disk (iterator : DatasetIterator) (clip_ : float)
    (desc : string) (size : Z) (w : World) (o : Optimizer) :
  let w' := (snd (_train_epoch iterator clip_ desc size (w, o))).1 in
  files w' = files w /\ dirs w' = dirs w /\ uuids w' = uuids w
  /\ trace w' = trace w ++ [Progress desc]
  /\ vocabulary (tagger w') = vocabulary (tagger w)
  /\ settings (tagger w') = settings (tagger w)
  /\ model_training (tagger w') = true.
Proof.
  unfold _train_epoch, mbind, Eff_bind, modify, get. simpl.
  pose proof (train_batches_state (Z.to_nat (batch_count iterator))
                (get_epoch iterator size) clip_ 0%float
                (Scorer_init (vocabulary (tagger w)))
                (emit (Progress desc) (set_tagger (set_model_training true) w)) o) as Hst.
  destruct (train_batches _ _ _ _ _ _) as [[[l sc]|e] [w1 o1]]; simpl in *;
    destruct Hst as (? & ? & ? & ? & ? & ? & ?).
  - unfold lift_result. destruct (PyFloat.float_div_int _ _); by repeat split.
  - by repeat split.
Qed.

End PassFacts.

Section LoopFrame.
Context `{backend : Backend} `{host : Host}.

Lemma csv_grows_preorder : PreOrder csv_grows.
Proof.
  split.
  - intros csv. exists []. by rewrite app_nil_r.
  - intros c1 c2 c3 (r1 & -> & H1) (r2 & -> & H2). exists (r1 ++ r2).
    rewrite app_assoc. split; [done|]. by apply Forall_app.
Qed.
#[local] Existing Instance csv_grows_preorder.

Lemma off_checkpoint_preorder fid : PreOrder (off_checkpoint fid).
Proof.
  split.
  - intros w. by repeat split.
  - intros w1 w2 w3 (Hf & Hd & Hu & Ht & Hv & Hs) (Hf' & Hd' & Hu' & Ht' & Hv' & Hs').
    repeat split; try congruence.
    + intros q Hq. by rewrite Hf', Hf.
    + by etransitivity.
Qed.
#[local] Existing Instance off_checkpoint_preorder.

Lemma loop_frame_preorder fid : PreOrder (loop_frame fid).
Proof.
  split.
  - intros f. split; [reflexivity|]. split; [reflexivity|done].
  - intros f1 f2 f3 (Hw & Hc & Hm) (Hw' & Hc' & Hm').
    split; [by etransitivity|]. split; [by etransitivity|congruence].
Qed.
#[local] Existing Instance loop_frame_preorder.

Lemma keeps_in_world {A} fid (c : Eff World A) :
  keeps (off_checkpoint fid) c -> keeps (loop_frame fid) (in_world c).
Proof.
  intros Hc f. unfold in_world, zoom. specialize (Hc (world f)).
  destruct (c (world f)) as [r w']. simpl in *.
  split; [exact Hc|]. split; [reflexivity|done].
Qed.

Lemma keeps_emit fid e : keeps (off_checkpoint fid) (modify (emit e)).
Proof.
  apply keeps_modify. intros w. repeat split; simpl; try done.
  by apply prefix_app_r.
Qed.

Lemma keeps_train_epoch fid (iterator : DatasetIterator) clip_ desc size :
  keeps (loop_frame fid)
        (in_world_and_optimizer (_train_epoch iterator clip_ desc size)).
Proof.
  intros f. unfold in_world_and_optimizer, zoom.
  pose proof (train_epoch_leaves_disk iterator clip_ desc size (world f) (optimizer f))
    as (Hf & Hd & Hu & Ht & Hv & Hs & _).
  destruct (_train_epoch _ _ _ _ _) as [r [w' o']]. simpl in *.
  split; [|split; [reflexivity|done]].
  repeat split; simpl; try done.
  - intros q _. by rewrite Hf.
  - rewrite Ht. by apply prefix_app_r.
Qed.

Lemma loop_frame_same_world fid (f f' : Frame) :
  world f' = world f -> csv_content f' = csv_content f ->
  mode (lr_scheduler f') = mode (lr_scheduler f) -> loop_frame fid f f'.
Proof.
  intros Hw Hc Hm. split; [rewrite Hw; reflexivity|].
  split; [rewrite Hc; reflexivity|done].
Qed.

Lemma keeps_evaluate fid (iterator : DatasetIterator) desc size :
  keeps (off_checkpoint fid) (evaluate iterator desc size).
Proof.
  intros w. rewrite evaluate_only_sets_eval_mode.
  repeat split; simpl; try done. by apply prefix_app_r.
Qed.

Lemma keeps_torch_save fid : keeps (off_checkpoint fid) (torch_save fid).
Proof.
  unfold torch_save. apply keeps_bind; [apply _|apply keeps_get; apply _|]. intros w0.
  apply keeps_bind; [apply _| |intros; apply keeps_emit].
  intros w. unfold write_file. repeat case_match; simpl; try reflexivity.
  repeat split; simpl; try done.
  intros q Hq. by rewrite lookup_insert_ne.
Qed.

Lemma keeps_temp_save fid best score :
  keeps (off_checkpoint fid) (_temp_save fid best score).
Proof.
  unfold _temp_save. case_match.
  - apply keeps_bind; [apply _|apply keeps_torch_save|intros; apply keeps_ret; apply _].
  - apply keeps_ret; apply _.
Qed.

(** What follows the training pass in the body of an iteration. *)
Ltac keeps_after_training a :=
  apply keeps_bind; [apply _|apply keeps_in_world, keeps_evaluate|]; intros ?;
  apply keeps_bind;
    [apply _|apply keeps_modify; intros ?; by apply loop_frame_same_world|];
  intros _;
  apply keeps_bind;
    [apply _
    |apply keeps_modify; intros ?; split; [reflexivity|]; split; [|done];
     eexists; split; [reflexivity|]; by repeat constructor
    |];
  intros _;
  apply keeps_bind; [apply _|apply keeps_in_world, keeps_temp_save|]; intros _;
  apply keeps_bind;
    [apply _
    |apply keeps_modify; intros ?; unfold scheduler_step, step;
     destruct (plateau_step _ _ _); by apply loop_frame_same_world
    |];
  intros _;
  apply keeps_bind; [apply _|apply keeps_in_world, keeps_emit|]; intros _;
  apply keeps_bind; [apply _|apply keeps_in_world, keeps_emit|]; intros _;
  apply keeps_bind; [apply _|apply keeps_get; apply _|]; intros ?;
  apply keeps_bind; [apply _|apply keeps_in_world, keeps_emit|]; intros _;
  apply keeps_bind; [apply _|apply keeps_in_world, keeps_emit|]; intros _;
  apply keeps_bind;
    [apply _|case_match; [apply keeps_raise|apply keeps_ret]; apply _|];
  intros _;
  apply keeps_bind;
    [apply _
    |case_match; [|apply keeps_ret; apply _];
     apply keeps_modify; intros ?; by apply loop_frame_same_world
    |];
  intros _;
  destruct (debug a) as [?|]; [|apply keeps_ret; apply _];
  apply keeps_bind; [apply _|apply keeps_in_world, keeps_emit|]; intros _;
  apply keeps_lift_result; apply _.

Lemma keeps_epoch_body (a : RunArgs) fid best epoch :
  keeps (loop_frame fid) (epoch_body a fid best epoch).
Proof.
  unfold epoch_body.
  apply keeps_bind; [apply _|apply keeps_train_epoch|]. intros train_score.
  keeps_after_training a.
Qed.

(** The body of an iteration first shows the progress bar of its training
    pass, however it ends. *)
Lemma epoch_body_starts_training (a : RunArgs) fid best epoch (f : Frame) :
  exists more,
    trace (world (snd (epoch_body a fid best epoch f)))
    = trace (world f) ++ Progress (epoch_desc "Training" epoch (n_epochs a)) :: more.
Proof.
  unfold epoch_body. set (desc := epoch_desc "Training" epoch (n_epochs a)).
  unfold mbind at 1, Eff_bind at 1.
  pose proof (train_epoch_leaves_disk (train_dataset a) (clip a) desc (batch_size a)
                (world f) (optimizer f)) as (_ & _ & _ & Ht & _).
  unfold in_world_and_optimizer at 1, zoom at 1.
  destruct (_train_epoch _ _ _ _ _) as [[train_score|e] [w1 o1]]; simpl in *.
  2:{ rewrite Ht. by eexists. }
  match goal with |- context [snd (?k ?f1)] =>
    assert (keeps (loop_frame fid) k) as Hk by keeps_after_training a;
    destruct (Hk f1) as ((_ & _ & _ & Hprefix & _) & _)
  end.
  simpl in Hprefix. rewrite Ht in Hprefix.
  destruct Hprefix as [more ->]. rewrite <- app_assoc. by eexists.
Qed.

Lemma keeps_epoch_loop (a : RunArgs) fid best epochs :
  keeps (loop_frame fid) (epoch_loop a fid best epochs).
Proof.
  induction epochs as [|epoch rest IH]; [apply keeps_ret; apply _|].
  intros f. simpl.
  pose proof (keeps_epoch_body a fid best epoch f) as Hbody.
  destruct (epoch_body a fid best epoch f) as [[[]|e] f']; simpl in Hbody.
  - etransitivity; [exact Hbody|apply IH].
  - assert (keeps (loop_frame fid)
              (in_world (print (Text "Reached plateau for too long, stopping."));;
               epoch_loop a fid best rest)) as Hstop.
    { apply keeps_bind; [apply _|apply keeps_in_world, keeps_emit|]. intros _. exact IH. }
    destruct e; try exact Hbody.
    + etransitivity; [exact Hbody|].
      apply (keeps_in_world fid (print (Text "Interrupting training..."))), keeps_emit.
    + etransitivity; [exact Hbody|apply Hstop].
Qed.

(** The epoch loop of [run] writes no file but the temporary checkpoint.
    However many epochs it runs and however it ends, by a return or by an
    exception that escapes it, every other file is as before, no directory
    was made or removed, the vocabulary and the settings of the tagger are
    untouched, what was printed before is still there, in front of what the
    loop printed, and the CSV table has its old rows followed by new rows of
    thirteen cells each, as many as the header has. *)
Theorem epoch_loop_writes_only_the_checkpoint (a : RunArgs) (fid : string)
    (best : float) (epochs : list Z) (f : Frame) :
  let f' := snd (epoch_loop a fid best epochs f) in
  (forall q, q <> fid -> files (world f') !! q = files (world f) !! q)
  /\ dirs (world f') = dirs (world f)
  /\ vocabulary (tagger (world f')) = vocabulary (tagger (world f))
  /\ settings (tagger (world f')) = settings (tagger (world f))
  /\ trace (world f) `prefix_of` trace (world f')
  /\ exists rows, csv_content f' = csv_content f ++ rows
       /\ Forall (fun row => length row = 13%nat) rows.
Proof.
  destruct (keeps_epoch_loop a fid best epochs f)
    as ((Hf & Hd & Hu & Ht & Hv & Hs) & Hc & Hm).
  by repeat split.
Qed.

Lemma epoch_loop_starts_training (a : RunArgs) fid best epoch rest (f : Frame) :
  exists more,
    trace (world (snd (epoch_loop a fid best (epoch :: rest) f)))
    = trace (world f) ++ Progress (epoch_desc "Training" epoch (n_epochs a)) :: more.
Proof.
  destruct (epoch_body_starts_training a fid best epoch f) as [more Hbody].
  assert (forall c : Eff Frame unit, keeps (loop_frame fid) c ->
            forall f1, exists more1, trace (world (snd (c f1))) = trace (world f1) ++ more1)
    as Hgrows.
  { intros c Hc f1. by destruct (Hc f1) as ((_ & _ & _ & [more1 ->] & _) & _); eexists. }
  simpl. destruct (epoch_body a fid best epoch f) as [[[]|e] f1]; simpl in *.
  - destruct (Hgrows _ (keeps_epoch_loop a fid best rest) f1) as [more1 ->].
    rewrite Hbody, <- app_assoc. by eexists.
  - assert (keeps (loop_frame fid)
              (in_world (print (Text "Reached plateau for too long, stopping."));;
               epoch_loop a fid best rest)) as Hstop.
    { apply keeps_bind; [apply _|apply keeps_in_world, keeps_emit|]. intros _.
      apply keeps_epoch_loop. }
    destruct e; try by eexists.
    + unfold in_world, zoom, print, modify. simpl.
      rewrite Hbody, <- app_assoc. by eexists.
    + destruct (Hgrows _ Hstop f1) as [more1 ->].
      rewrite Hbody, <- app_assoc. by eexists.
Qed.

(** An early stop does not stop the training.  When the body of an iteration
    raises [EarlyStopException] and an epoch is left, the handler prints its
    message and the training pass of the next epoch is started: its progress
    bar is what the trace shows next. *)
Theorem early_stop_starts_the_next_epoch (a : RunArgs) (fid : string)
    (best : float) (epoch next : Z) (rest : list Z) (f f1 : Frame) :
  epoch_body a fid best epoch f = (Raise EarlyStopException, f1) ->
  exists more,
    trace (world (snd (epoch_loop a fid best (epoch :: next :: rest) f)))
    = trace (world f1)
      ++ Printed (Text "Reached plateau for too long, stopping.")
      :: Progress (epoch_desc "Training" next (n_epochs a)) :: more.
Proof.
  intros Hbody.
  change (epoch_loop a fid best (epoch :: next :: rest) f)
    with (match epoch_body a fid best epoch f with
          | (Ok _, f') => epoch_loop a fid best (next :: rest) f'
          | (Raise KeyboardInterrupt, f') =>
              in_world (print (Text "Interrupting training...")) f'
          | (Raise EarlyStopException, f') =>
              (in_world (print (Text "Reached plateau for too long, stopping."));;
               epoch_loop a fid best (next :: rest)) f'
          | (Raise e, f') => (Raise e, f')
          end).
  rewrite Hbody.
  unfold mbind, Eff_bind, in_world at 1, zoom at 1, print, modify.
  cbv beta iota.
  match goal with |- context [epoch_loop a fid best (next :: rest) ?f2] =>
    destruct (epoch_loop_starts_training a fid best next rest f2) as [more ->]
  end.
  simpl. rewrite <- app_assoc. by eexists.
Qed.

(** The loop lets neither an interrupt nor an early stop out: whatever the
    bodies of its iterations raise, it does not end on [KeyboardInterrupt] or
    on [EarlyStopException]. *)
Theorem epoch_loop_absorbs_interrupt_and_early_stop (a : RunArgs) (fid : string)
    (best : float) (epochs : list Z) (f : Frame) :
  fst (epoch_loop a fid best epochs f) <> Raise KeyboardInterrupt
  /\ fst (epoch_loop a fid best epochs f) <> Raise EarlyStopException.
Proof.
  revert f. induction epochs as [|epoch rest IH]; intros f; [done|].
  simpl. destruct (epoch_body a fid best epoch f) as [[[]|e] f1]; [apply IH|].
  destruct e; try done.
  unfold mbind, Eff_bind, in_world at 1, zoom at 1, print, modify. simpl. apply IH.
Qed.

End LoopFrame.

(** ** The archive: what [save] and the helpers of [utils] leave behind *)

Section ArchiveFacts.
Context `{backend : Backend} `{host : Host}.

Lemma bind_ok_left {S A B} (m : Eff S A) (k : A -> Eff S B) s a s1 :
  m s = (Ok a, s1) -> (m ≫= k) s = k a s1.
Proof. intros Hm. unfold mbind, Eff_bind. by rewrite Hm. Qed.

Lemma bind_raise_left {S A B} (m : Eff S A) (k : A -> Eff S B) s e s1 :
  m s = (Raise e, s1) -> (m ≫= k) s = (Raise e, s1).
Proof. intros Hm. unfold mbind, Eff_bind. by rewrite Hm. Qed.

Lemma with_tmpfile_file_ok {A} (body : string -> Eff World A) w a w' :
  with_tmpfile body w = (Ok a, w') ->
  exists w1 w2,
    w1 = {| files := files w; dirs := dirs w; trace := trace w;
            uuids := S (uuids w); tagger := tagger w |}
    /\ body (tmppath_of w) w1 = (Ok a, w2)
    /\ tmpfile_exit (tmppath_of w) w2 = (Ok tt, w').
Proof.
  unfold with_tmpfile, tmpfile_enter. intros H.
  apply bind_ok in H as (tmp & w0 & Hdraw & H).
  apply bind_ok in Hdraw as (fid & w0' & Hdraw & Hret).
  unfold draw_uuid in Hdraw. unfold mret, Eff_ret in Hret. simplify_eq.
  apply bind_ok in H as (a' & w2 & Hbody & Hexit).
  apply bind_ok in Hexit as ([] & w3 & Hexit & Hret).
  unfold mret, Eff_ret in Hret. simplify_eq. eauto.
Qed.

(** On a normal exit [utils.tmpfile] removes what is at the path it yielded,
    a file or a directory: whenever the body returns, nothing is left there.
    (A path is a file or a directory, not both.) *)
Theorem tmpfile_removes_its_path {A} (body : string -> Eff World A) (a : A)
    (w w' : World) :
  with_tmpfile body w = (Ok a, w') ->
  (forall w2, body (tmppath_of w) (entered w) = (Ok a, w2) ->
     tmppath_of w ∈ dirs w2 -> files w2 !! tmppath_of w = None) ->
  files w' !! tmppath_of w = None /\ tmppath_of w ∉ dirs w'.
Proof.
  intros Hrun Hfs.
  apply with_tmpfile_file_ok in Hrun as (w1 & w2 & -> & Hbody & Hexit).
  specialize (Hfs w2 Hbody).
  unfold tmpfile_exit, mbind, Eff_bind, get in Hexit.
  destruct (os_path_isdir w2 (tmppath_of w)) eqn:Hdir.
  - unfold shutil_rmtree, modify in Hexit. simplify_eq. simpl.
    apply bool_decide_eq_true in Hdir. split.
    + apply map_lookup_filter_None. left. by apply Hfs.
    + intros Hin. apply elem_of_filter in Hin as [[Hne _] _]. done.
  - unfold os_remove in Hexit. destruct (files w2 !! tmppath_of w) eqn:Hfile;
      simplify_eq. simpl. split; [apply lookup_delete_eq|].
    by apply bool_decide_eq_false in Hdir.
Qed.

(** The world after a successful [add_gzip_to_tar]: the member is appended
    to the archive and the temporary file is gone. *)
Lemma add_gzip_to_tar_world text subpath tarpath w w' :
  add_gzip_to_tar text subpath tarpath w = (Ok tt, w') ->
  exists members,
    files w !! tarpath = Some (Archive members)
    /\ tmppath_of w <> tarpath
    /\ files w'
       = delete (tmppath_of w)
           (<[tarpath := Archive (members ++ [(subpath, Bytes (gzip_compress text))])]>
              (<[tmppath_of w := Regular (Bytes (gzip_compress text))]> (files w)))
    /\ dirs w' = dirs w /\ trace w' = trace w /\ tagger w' = tagger w
    /\ uuids w' = S (uuids w).
Proof.
  unfold add_gzip_to_tar. intros H.
  apply with_tmpfile_file_ok in H as (w1 & w2 & -> & Hbody & Hexit).
  apply bind_ok in Hbody as ([] & w3 & Hwrite & Hadd).
  apply write_file_ok in Hwrite as [-> Hnodir].
  apply tar_add_ok in Hadd as (content & members & Hsrc & Htar & ->).
  simpl in *. rewrite lookup_insert_eq in Hsrc. simplify_eq.
  destruct (decide (tmppath_of w = tarpath)) as [Heq|Hne].
  { rewrite Heq, lookup_insert_eq in Htar. done. }
  rewrite lookup_insert_ne in Htar by done.
  apply tmpfile_exit_file in Hexit as ->; [|done].
  exists members. by repeat split.
Qed.

Lemma add_state_dict_world tarpath w w' :
  with_tmpfile (fun tmppath => torch_save tmppath;; tar_add tarpath tmppath "state_dict.pt") w
  = (Ok tt, w') ->
  exists members,
    files w !! tarpath = Some (Archive members)
    /\ tmppath_of w <> tarpath
    /\ files w'
       = delete (tmppath_of w)
           (<[tarpath := Archive (members ++ [("state_dict.pt", Pickled (model (tagger w)))])]>
              (<[tmppath_of w := Regular (Pickled (model (tagger w)))]> (files w)))
    /\ dirs w' = dirs w /\ trace w' = trace w ++ [TorchSave (tmppath_of w)]
    /\ tagger w' = tagger w /\ uuids w' = S (uuids w).
Proof.
  intros H.
  apply with_tmpfile_file_ok in H as (w1 & w2 & -> & Hbody & Hexit).
  apply bind_ok in Hbody as ([] & w3 & Hwrite & Hadd).
  apply torch_save_ok in Hwrite as [-> Hnodir].
  apply tar_add_ok in Hadd as (content & members & Hsrc & Htar & ->).
  simpl in *. rewrite lookup_insert_eq in Hsrc. simplify_eq.
  destruct (decide (tmppath_of w = tarpath)) as [Heq|Hne].
  { rewrite Heq, lookup_insert_eq in Htar. done. }
  rewrite lookup_insert_ne in Htar by done.
  apply tmpfile_exit_file in Hexit as ->; [|done].
  exists members. by repeat split.
Qed.

Lemma creates_only_trans keep w1 w2 w3 :
  creates_only keep w1 w2 -> creates_only keep w2 w3 -> creates_only keep w1 w3.
Proof. intros H12 H23 q f Hq Hf. eauto. Qed.

Lemma creates_only_tmp keep tarpath tmp (a b : File) (w w' : World) :
  tarpath ∈ keep ->
  files w' = delete tmp (<[tarpath := a]> (<[tmp := b]> (files w))) ->
  creates_only keep w w'.
Proof.
  intros Hin Hfiles q f Hq. rewrite Hfiles.
  destruct (decide (q = tmp)) as [->|Hne]; [by rewrite lookup_delete_eq|].
  rewrite lookup_delete_ne by done.
  rewrite lookup_insert_ne by (intros ->; done).
  by rewrite lookup_insert_ne.
Qed.

(** Where [save] returns, it has created nothing but the archive and the CSV
    file next to it: every other file found afterwards was there before,
    with the same content.  The three temporary files it went through are
    removed. *)
Theorem save_leaves_no_temporary_file (fpath : string) (csv : list (list string))
    (w w' : World) (p : string) :
  save fpath csv w = (Ok p, w') ->
  forall q f, q <> p -> q <> Str.replace ".tar" ".csv" p ->
    files w' !! q = Some f -> files w !! q = Some f.
Proof.
  unfold save. set (path := Utils.ensure_ext fpath "tar" None). intros H.
  apply bind_ok in H as (w0 & w0' & Hget & H). unfold get in Hget. simplify_eq.
  apply bind_ok in H as ([] & w1 & Hdirs & H).
  apply bind_ok in H as ([] & w2 & Hcsv & H).
  apply bind_ok in H as ([] & w3 & Hopen & H).
  apply bind_ok in H as ([] & w4 & Hsettings & H).
  apply bind_ok in H as ([] & w5 & Hvocab & H).
  apply bind_ok in H as ([] & w6 & Hstate & H).
  unfold mret, Eff_ret in H. simplify_eq.
  set (path := Utils.ensure_ext fpath "tar" None) in *.
  set (keep := [path; Str.replace ".tar" ".csv" path]).
  assert (creates_only keep w0 w') as Hall.
  { apply creates_only_trans with w1.
    { intros q f _. destruct (negb _); [|by unfold mret, Eff_ret in Hdirs; simplify_eq].
      unfold os_makedirs in Hdirs. repeat case_match; by simplify_eq. }
    apply creates_only_trans with w2.
    { intros q f Hq. destruct csv; [by unfold mret, Eff_ret in Hcsv; simplify_eq|].
      apply write_file_ok in Hcsv as [-> _]. simpl.
      rewrite lookup_insert_ne; [done|]. intros <-. apply Hq. set_solver. }
    apply creates_only_trans with (set_files (insert path (Archive [])) w2).
    { intros q f Hq. simpl. rewrite lookup_insert_ne; [done|].
      intros <-. apply Hq. set_solver. }
    apply write_file_ok in Hopen as [-> _].
    apply add_gzip_to_tar_world in Hsettings as (m1 & _ & _ & Hf4 & _).
    apply add_gzip_to_tar_world in Hvocab as (m2 & _ & _ & Hf5 & _).
    apply add_state_dict_world in Hstate as (m3 & _ & _ & Hf6 & _).
    assert (path ∈ keep) by set_solver.
    apply creates_only_trans with w4; [by eapply creates_only_tmp|].
    apply creates_only_trans with w5; by eapply creates_only_tmp. }
  intros q f Hp Hc. apply Hall. unfold keep.
  rewrite !not_elem_of_cons. split; [done|]. split; [done|apply not_elem_of_nil].
Qed.



End ArchiveFacts.

(** ** Trainer: the checkpoint *)

Section CheckpointFacts.
Context `{backend : Backend} `{host : Host}.


Lemma in_world_run {A} (c : Eff World A) (f f' : Frame) r :
  in_world c f = (r, f') ->
  exists w', c (world f) = (r, w')
    /\ f' = {| world := w'; optimizer := optimizer f; lr_scheduler := lr_scheduler f;
               dev_score := dev_score f; csv_content := csv_content f |}.
Proof.
  unfold in_world, zoom. destruct (c (world f)) as [r' w'].
  intros H. simplify_eq. eauto.
Qed.

Lemma after_checkpoint_preorder : PreOrder after_checkpoint.
Proof.
  split.
  - intros f. by repeat split.
  - intros f1 f2 f3 (? & ? & ?) (? & ? & ?). repeat split; congruence.
Qed.
#[local] Existing Instance after_checkpoint_preorder.



(** Where the final phase of [run] returns, the temporary checkpoint is gone:
    it was loaded and removed, or it never existed.  The archive and the CSV
    file must not be that very path, and the network must not report a
    missing file of its own while it loads the parameters. *)
Theorem final_save_removes_checkpoint (fid fpath : string) (best : float)
    (f f' : Frame) :
  (forall p d, load_state_dict p d <> Raise FileNotFoundError) ->
  fid <> Utils.ensure_ext fpath "tar" None ->
  fid <> Str.replace ".tar" ".csv" (Utils.ensure_ext fpath "tar" None) ->
  final_save fid best fpath f = (Ok tt, f') ->
  files (world f') !! fid = None.
Proof.
  intros Hload Htar Hcsv. unfold final_save. intros H.
  apply bind_ok in H as (f0 & f0' & Hget & H). unfold get in Hget. simplify_eq.
  apply bind_ok in H as (b & f1 & _ & H).
  apply bind_ok in H as ([] & f2 & Htry & H).
  apply bind_ok in H as (f2' & f2'' & Hget & H). unfold get in Hget. simplify_eq.
  apply bind_ok in H as (p & f3 & Hsave & Hprint).
  apply in_world_run in Hprint as (w4 & Hprint & ->).
  unfold print, modify in Hprint. simplify_eq. simpl.
  apply in_world_run in Hsave as (w3 & Hsave & ->). simpl.
  apply in_world_run in Htry as (w2 & Htry & ->). simpl in *.
  assert (files w2 !! fid = None) as Hgone.
  { clear Hsave. unfold try_except in Htry.
    destruct ((torch_load fid ≫= _) (world f1)) as [[[]|e] w1] eqn:Hbody.
    - simplify_eq.
      apply bind_ok in Hbody as (d & w5 & _ & Hbody).
      apply bind_ok in Hbody as (w6 & w6' & _ & Hbody).
      apply bind_ok in Hbody as (q & w7 & _ & Hbody).
      apply bind_ok in Hbody as ([] & w8 & _ & Hbody).
      unfold os_remove in Hbody. case_match; simplify_eq. simpl.
      apply lookup_delete_eq.
    - destruct (decide (e = FileNotFoundError)) as [->|]; [|done].
      unfold print, modify in Htry. simplify_eq. simpl.
      unfold torch_load, read_file, mbind, Eff_bind, mret, Eff_ret, raise, get,
        lift_result, modify, os_remove in Hbody.
      destruct (files (world f1) !! fid) as [file|] eqn:Hfile; [|by simplify_eq].
      destruct file as [[data|d]|members]; simplify_eq.
      simpl in Hbody. rewrite Hfile in Hbody.
      destruct (load_state_dict (model (tagger (world f1))) d) as [q|e] eqn:Hq;
        simplify_eq.
      by apply Hload in Hq. }
  destruct (files w3 !! fid) as [file|] eqn:Hfile; [|done].
  pose proof (save_leaves_no_temporary_file _ _ _ _ _ Hsave) as Hframe.
  pose proof (save_ok _ _ _ _ _ Hsave) as [-> _].
  apply Hframe in Hfile; [congruence|done..].
Qed.

Lemma train_epoch_empty (iterator : DatasetIterator) clip_ desc size
    (w : World) (o : Optimizer) :
  batch_count iterator = 0 ->
  _train_epoch iterator clip_ desc size (w, o)
  = (Raise ZeroDivisionError,
     (emit (Progress desc) (set_tagger (set_model_training true) w), o)).
Proof. intros Hcount. unfold _train_epoch. rewrite Hcount. reflexivity. Qed.

Lemma run_empty_training_set (a : RunArgs) (lr lr_factor : float)
    (fpath : string) (m : PlateauModes) (w : World) :
  batch_count (train_dataset a) = 0 ->
  0 < n_epochs a ->
  exists w', run a lr lr_factor fpath m w = (Raise ZeroDivisionError, w')
    /\ files w' = files w /\ dirs w' = dirs w.
Proof.
  intros Hcount Hepochs. unfold run.
  rewrite (bind_ok_left get _ w w w) by done.
  set (w1 := match init_weights (tagger w) with
             | Some init => set_tagger (fun t => set_model (init (model t)) t) w
             | None => w
             end).
  assert (files w1 = files w /\ dirs w1 = dirs w) as [Hfiles Hdirs].
  { subst w1. by destruct (init_weights (tagger w)). }
  rewrite (bind_ok_left _ _ w tt w1) by (subst w1; by destruct (init_weights (tagger w))).
  rewrite (bind_ok_left get _ w1 w1 w1) by done.
  unfold mbind at 1, Eff_bind at 1, draw_uuid at 1.
  unfold with_frame. rewrite seqZ_cons by done.
  match goal with |- context [(epoch_loop ?a ?fid ?b (1 :: ?rest);; ?k) ?f] =>
    assert (exists f', epoch_loop a fid b (1 :: rest) f = (Raise ZeroDivisionError, f')
                       /\ files (world f') = files w1 /\ dirs (world f') = dirs w1)
      as (f' & Hloop & Hf & Hd)
  end.
  { simpl. unfold epoch_body.
    erewrite bind_raise_left.
    2:{ unfold in_world_and_optimizer, zoom. rewrite train_epoch_empty by done.
        reflexivity. }
    eexists. split; [reflexivity|]. done. }
  rewrite (bind_raise_left _ _ _ _ _ Hloop).
  eexists. split; [reflexivity|]. split; congruence.
Qed.

(** A training set that counts no batch aborts [run] in its first epoch: the
    division by zero of the mean loss is caught by neither handler of the
    loop, so [run] raises it, and nothing was written, neither a checkpoint
    nor the archive nor the CSV file. *)
Theorem run_on_empty_training_set (a : RunArgs) (lr lr_factor : float)
    (fpath : string) (m : PlateauModes) (w : World) :
  batch_count (train_dataset a) = 0 ->
  0 < n_epochs a ->
  fst (run a lr lr_factor fpath m w) = Raise ZeroDivisionError
  /\ files (snd (run a lr lr_factor fpath m w)) = files w
  /\ dirs (snd (run a lr lr_factor fpath m w)) = dirs w.
Proof.
  intros Hcount Hepochs.
  destruct (run_empty_training_set a lr lr_factor fpath m w Hcount Hepochs)
    as (w' & -> & Hfiles & Hdirs).
  done.
Qed.

Lemma final_save_ok (fid fpath : string) (best : float) (f f' : Frame) :
  final_save fid best fpath f = (Ok tt, f') ->
  files (world f') !! Utils.ensure_ext fpath "tar" None
  = Some (archive_of (tagger (world f')))
  /\ exists before, trace (world f') = before ++ [Printed (Text "Saved !")].
Proof.
  unfold final_save. intros H.
  apply bind_ok in H as (f0 & f0' & Hget & H). unfold get in Hget. simplify_eq.
  apply bind_ok in H as (b & f1 & _ & H).
  apply bind_ok in H as ([] & f2 & _ & H).
  apply bind_ok in H as (f2' & f2'' & Hget & H). unfold get in Hget. simplify_eq.
  apply bind_ok in H as (p & f3 & Hsave & Hprint).
  apply in_world_run in Hprint as (w4 & Hprint & ->).
  unfold print, modify in Hprint. simplify_eq. simpl.
  apply in_world_run in Hsave as (w3 & Hsave & ->). simpl.
  apply save_ok in Hsave as (-> & Hfile & Htagger & _).
  rewrite Htagger. split; [done|]. by eexists.
Qed.

(** What [run] promises when it returns: the file at the normalised path is
    the archive of the tagger as training left it (its settings, its
    vocabulary and its parameters), and the last thing printed is
    [Saved !]. *)
Theorem run_ends_with_the_archive (a : RunArgs) (lr lr_factor : float)
    (fpath : string) (m : PlateauModes) (w w' : World) :
  run a lr lr_factor fpath m w = (Ok tt, w') ->
  files w' !! Utils.ensure_ext fpath "tar" None = Some (archive_of (tagger w'))
  /\ exists before, trace w' = before ++ [Printed (Text "Saved !")].
Proof.
  unfold run. intros H.
  apply bind_ok in H as (w0 & w0' & _ & H).
  apply bind_ok in H as ([] & w1 & _ & H).
  apply bind_ok in H as (w2 & w2' & _ & H).
  apply bind_ok in H as (uuid & w3 & _ & H).
  unfold with_frame in H.
  match type of H with (let '(_, _) := ?c ?f in _) = _ =>
    destruct (c f) as [r f'] eqn:Hrun
  end.
  simplify_eq.
  apply bind_ok in Hrun as ([] & f1 & _ & Hfinal).
  by apply final_save_ok in Hfinal.
Qed.

End CheckpointFacts.

(** ** Trainer: the modes of the scheduler *)

Section ModeFacts.
Context `{backend : Backend} `{host : Host}.

Lemma mode_blind_ret {A} m (a : A) : mode_blind m (mret a).
Proof. by intros f Hf. Qed.

Lemma mode_blind_raise {A} m e : mode_blind m (raise e : Eff Frame A).
Proof. by intros f Hf. Qed.

Lemma mode_blind_lift_result {A} m (r : result A) : mode_blind m (lift_result r).
Proof. by intros f Hf. Qed.

Lemma mode_blind_bind {A B} m (c : Eff Frame A) (k : A -> Eff Frame B) :
  mode_blind m c -> (forall a, mode_blind m (k a)) -> mode_blind m (c ≫= k).
Proof.
  intros Hc Hk f Hf. unfold mbind, Eff_bind.
  destruct (Hc f Hf) as [-> Hf1]. destruct (c f) as [[a|e] f1]; simpl in *; [|done].
  apply Hk, Hf1.
Qed.

Lemma mode_blind_get_bind {B} m (k : Frame -> Eff Frame B) :
  (forall f, k (recast m f) = k f) -> (forall f0, mode_blind m (k f0)) ->
  mode_blind m (get ≫= k).
Proof.
  intros Hsame Hk f Hf. unfold mbind, Eff_bind, get. rewrite Hsame. by apply Hk.
Qed.

Lemma mode_blind_in_world {A} m (c : Eff World A) : mode_blind m (in_world c).
Proof.
  intros f Hf. unfold in_world, zoom. simpl. by destruct (c (world f)).
Qed.

Lemma mode_blind_in_world_and_optimizer {A} m (c : Eff (World * Optimizer) A) :
  mode_blind m (in_world_and_optimizer c).
Proof.
  intros f Hf. unfold in_world_and_optimizer, zoom. simpl.
  by destruct (c (world f, optimizer f)).
Qed.

Lemma mode_blind_modify m (g : Frame -> Frame) :
  (forall f, watches_loss f -> g (recast m f) = recast m (g f) /\ watches_loss (g f)) ->
  mode_blind m (modify g).
Proof.
  intros Hg f Hf. unfold modify. destruct (Hg f Hf) as [-> ?]. done.
Qed.

Lemma monitored_loss m score : m <> mode_accuracy -> monitored m score = Score.loss score.
Proof. by destruct m. Qed.

Lemma mode_blind_scheduler_step m :
  m <> mode_accuracy -> mode_blind m (modify scheduler_step).
Proof.
  intros Hm. apply mode_blind_modify. intros f Hf.
  unfold scheduler_step, step, watches_loss in *. simpl.
  rewrite !monitored_loss by done.
  by destruct (plateau_step _ _ _).
Qed.

Lemma mode_blind_epoch_body m (a : RunArgs) fid best epoch :
  m <> mode_accuracy -> mode_blind m (epoch_body a fid best epoch).
Proof.
  intros Hm. unfold epoch_body.
  apply mode_blind_bind; [apply mode_blind_in_world_and_optimizer|intros train_score].
  apply mode_blind_bind; [apply mode_blind_in_world|intros score].
  apply mode_blind_bind; [by apply mode_blind_modify|intros _].
  apply mode_blind_bind; [by apply mode_blind_modify|intros _].
  apply mode_blind_bind; [apply mode_blind_in_world|intros _].
  apply mode_blind_bind; [by apply mode_blind_scheduler_step|intros _].
  apply mode_blind_bind; [apply mode_blind_in_world|intros _].
  apply mode_blind_bind; [apply mode_blind_in_world|intros _].
  apply mode_blind_get_bind; [done|intros f0].
  apply mode_blind_bind; [apply mode_blind_in_world|intros _].
  apply mode_blind_bind; [apply mode_blind_in_world|intros _].
  apply mode_blind_bind; [|intros _].
  { destruct (plateau_reached a f0); [apply mode_blind_raise|apply mode_blind_ret]. }
  apply mode_blind_bind; [|intros _].
  { destruct (epoch =? lr_grace_periode a); [|apply mode_blind_ret].
    by apply mode_blind_modify. }
  destruct (debug a) as [callback|]; [|apply mode_blind_ret].
  apply mode_blind_bind; [apply mode_blind_in_world|intros _].
  apply mode_blind_lift_result.
Qed.

Lemma mode_blind_epoch_loop m (a : RunArgs) fid best epochs :
  m <> mode_accuracy -> mode_blind m (epoch_loop a fid best epochs).
Proof.
  intros Hm. induction epochs as [|epoch rest IH]; [apply mode_blind_ret|].
  intros f Hf. simpl.
  destruct (mode_blind_epoch_body m a fid best epoch Hm f Hf) as [-> Hf1].
  destruct (epoch_body a fid best epoch f) as [[[]|e] f1]; simpl in *.
  - by apply IH.
  - assert (mode_blind m
              (in_world (print (Text "Reached plateau for too long, stopping."));;
               epoch_loop a fid best rest)) as Hstop.
    { apply mode_blind_bind; [apply mode_blind_in_world|intros _; exact IH]. }
    destruct e; try done. by apply Hstop.
Qed.

Lemma mode_blind_final_save m fid best fpath :
  mode_blind m (final_save fid best fpath).
Proof.
  unfold final_save.
  apply mode_blind_get_bind; [done|intros f0].
  apply mode_blind_bind; [apply mode_blind_in_world|intros _].
  apply mode_blind_bind; [apply mode_blind_in_world|intros _].
  apply mode_blind_get_bind; [done|intros f1].
  apply mode_blind_bind; [apply mode_blind_in_world|intros _].
  apply mode_blind_in_world.
Qed.

Lemma with_frame_recast {A} m (frame : World -> Frame) (c : Eff Frame A) w :
  mode_blind m c -> watches_loss (frame w) ->
  with_frame (fun w => recast m (frame w)) c w = with_frame frame c w.
Proof.
  intros Hc Hw. unfold with_frame. destruct (Hc (frame w) Hw) as [-> _].
  by destruct (c (frame w)).
Qed.

Lemma bind_ext {S A B} (c : Eff S A) (k k' : A -> Eff S B) s :
  (forall a s1, k a s1 = k' a s1) -> (c ≫= k) s = (c ≫= k') s.
Proof. intros Hk. unfold mbind, Eff_bind. destruct (c s) as [[a|e] s1]; auto. Qed.

Lemma run_watching_loss (a : RunArgs) (lr lr_factor : float) (fpath : string)
    (m m' : PlateauModes) (w : World) :
  m <> mode_accuracy -> m' <> mode_accuracy ->
  run a lr lr_factor fpath m' w = run a lr lr_factor fpath m w.
Proof.
  intros Hm Hm'. unfold run.
  apply bind_ext; intros w0 s0. apply bind_ext; intros _ s1.
  apply bind_ext; intros w1 s2. apply bind_ext; intros uuid s3.
  match goal with |- _ = with_frame ?fr ?c ?s =>
    rewrite <- (with_frame_recast m' fr c s)
  end.
  - unfold recast, LRScheduler_init. simpl. by destruct m, m'.
  - apply mode_blind_bind; [by apply mode_blind_epoch_loop|intros _].
    apply mode_blind_final_save.
  - unfold watches_loss. done.
Qed.

(** The modes [leven] and [leven_per_char] train exactly as the mode [loss]
    does.  The three members of [PlateauModes] share the value ["min"], which
    makes the two later ones aliases of [loss]: the scheduler is stepped on
    the dev loss, and the Levenshtein scores are never what it watches. *)
Theorem run_leven_modes_watch_the_loss (a : RunArgs) (lr lr_factor : float)
    (fpath : string) (w : World) :
  run a lr lr_factor fpath mode_leven w = run a lr lr_factor fpath mode_loss w
  /\ run a lr lr_factor fpath mode_leven_per_char w
     = run a lr lr_factor fpath mode_loss w.
Proof. split; by apply run_watching_loss. Qed.

End ModeFacts.

(** ** The archive: reading back what was written *)

Section RoundTrip.
Context `{backend : Backend} `{host : Host}.

Lemma tar_member_last name (b : Blob) members :
  tar_member name (members ++ [(name, b)]) = Ok b.
Proof.
  unfold tar_member. rewrite filter_app.
  rewrite (filter_cons_True _ (name, b)) by done. rewrite filter_nil.
  destruct (filter _ members) as [|m ms]; [done|].
  simpl. f_equal. change (m :: ms ++ [(name, b)]) with ((m :: ms) ++ [(name, b)]).
  destruct ms as [|m' ms]; [done|].
  change (List.last ((m' :: ms) ++ [(name, b)]) m) with
    (List.last ((m' :: ms) ++ [(name, b)]) m).
  by rewrite List.last_last.
Qed.

(** [get_gzip_from_tar] reads back what [add_gzip_to_tar] stored, stripped of
    the blanks around it, also when the archive already had a member of that
    name: the member added last is the one found.  The gzip codec of the host
    must give back the text it compressed. *)
Theorem gzip_member_round_trip (text subpath tarpath : string) (w w' : World) :
  gzip_decompress (gzip_compress text) = Ok text ->
  add_gzip_to_tar text subpath tarpath w = (Ok tt, w') ->
  exists members,
    files w' !! tarpath = Some (Archive members)
    /\ get_gzip_from_tar members subpath = Ok (Str.strip text).
Proof.
  intros Hcodec Hadd.
  apply add_gzip_to_tar_ok in Hadd as (members & _ & Hfile & _).
  eexists. split; [exact Hfile|].
  unfold get_gzip_from_tar. rewrite tar_member_last. simpl. by rewrite Hcodec.
Qed.

(** The three members of an archive that [save] wrote, as the helpers of
    [utils] read them: the settings and the vocabulary both come back through
    [get_gzip_from_tar], and the parameters are the pickle of the model. *)
Theorem save_members_read_back (fpath : string) (csv : list (list string))
    (w w' : World) (p : string) :
  (forall text, gzip_decompress (gzip_compress text) = Ok text) ->
  save fpath csv w = (Ok p, w') ->
  exists members,
    files w' !! p = Some (Archive members)
    /\ get_gzip_from_tar members "settings.json.zip"
       = Ok (Str.strip (json_dumps (settings (tagger w))))
    /\ get_gzip_from_tar members "vocabulary.json"
       = Ok (Str.strip (dump (vocabulary (tagger w))))
    /\ tar_member "state_dict.pt" members = Ok (Pickled (model (tagger w))).
Proof.
  intros Hcodec Hsave. apply save_ok in Hsave as (-> & Hfile & _).
  eexists. split; [exact Hfile|].
  unfold get_gzip_from_tar.
  change (tar_member "settings.json.zip" _)
    with (Ok (Bytes (gzip_compress (json_dumps (settings (tagger w)))))).
  change (tar_member "vocabulary.json" _)
    with (Ok (Bytes (gzip_compress (dump (vocabulary (tagger w)))))).
  simpl. by rewrite !Hcodec.
Qed.

End RoundTrip.

(** ** Scorer: the cache of scores and the degenerate inputs *)

(** Once computed, the scores are never computed again: a batch registered
    afterwards changes none of the three values that the accessors return. *)
Theorem scores_are_not_refreshed (hypotheses targets src : list (list Z))
    (sc : Scorer) (s : scores_t) :
  scores sc = Some s ->
  let sc' := register_batch hypotheses targets src sc in
  get_accuracy sc' = Ok (accuracy s, sc')
  /\ avg_levenshteins sc' = Ok (leven s, sc')
  /\ avg_levenshteins_per_char sc' = Ok (leven_per_char s, sc').
Proof.
  intros Hs sc'.
  assert (scores sc' = Some s) as Hs'.
  { subst sc'. unfold register_batch.
    destruct (fold_register_one (zip (zip targets hypotheses) src) sc)
      as (_ & _ & _ & -> & _). done. }
  unfold get_accuracy, avg_levenshteins, avg_levenshteins_per_char, scored.
  by rewrite Hs'.
Qed.

Lemma compute_loop_raises acc texts e :
  compute_loop acc texts = Raise e -> e = ZeroDivisionError.
Proof.
  revert acc. induction texts as [|[t p] texts IH]; intros acc; [done|].
  rewrite compute_loop_cons. unfold compute_step.
  unfold PyFloat.int_truediv. repeat case_match; simpl; eauto; congruence.
Qed.

(** A scorer that holds no example has no scores: [compute] raises, and so
    does every accessor.  The mean of no value is what raises, unless the
    vocabulary decodes the empty batch to some text of length zero. *)
Theorem compute_of_no_example_raises (sc : Scorer) :
  trues sc = [] \/ preds sc = [] ->
  compute sc = Raise StatisticsError \/ compute sc = Raise ZeroDivisionError.
Proof.
  intros Hempty. unfold compute.
  assert (zip (trues sc) (preds sc) = []) as ->.
  { destruct Hempty as [-> | ->]; [done|]. by destruct (trues sc). }
  simpl. destruct (compute_loop _ _) as [[ls cs]|e] eqn:Hloop; simpl.
  - by left.
  - right. by rewrite (compute_loop_raises _ _ _ Hloop).
Qed.

Lemma edit_distance_refl (a : list ascii) : edit_distance a a = O.
Proof.
  induction a as [|x a IH]; [done|]. simpl.
  rewrite IH. by rewrite decide_True.
Qed.

Lemma exact_sum_of_zeros (data : list float) :
  Forall (fun x => x = 0%float) data -> PyFloat.exact_sum data = Some (0, 0).
Proof.
  induction data as [|y l IH]; [done|]. intros Hall.
  apply Forall_cons in Hall as [-> Hall]. simpl. by rewrite IH.
Qed.

Lemma mean_of_zeros (data : list float) :
  data <> [] -> Forall (fun x => x = 0%float) data -> statistics_mean data = Ok 0%float.
Proof.
  intros Hne Hall. unfold statistics_mean. destruct data as [|x data]; [done|].
  by rewrite exact_sum_of_zeros.
Qed.

Lemma compute_loop_same acc (texts : list string) ls cs :
  compute_loop acc (zip texts texts) = Ok (ls, cs) ->
  ls = acc.1 ++ replicate (length texts) 0
  /\ cs = acc.2 ++ replicate (length texts) 0%float.
Proof.
  revert acc. induction texts as [|t texts IH]; intros acc.
  - simpl. intros [= ->]. simpl. by rewrite !app_nil_r.
  - change (zip (t :: texts) (t :: texts)) with ((t, t) :: zip texts texts).
    rewrite compute_loop_cons. unfold compute_step.
    assert (levenshtein t t = 0) as ->.
    { unfold levenshtein. by rewrite edit_distance_refl. }
    unfold PyFloat.int_truediv.
    destruct (Z.eqb_spec (Z.of_nat (String.length t)) 0) as [|Hlen]; [done|].
    destruct (Z.ltb_spec 0 (Z.of_nat (String.length t))) as [_|]; [|lia].
    simpl. intros Hrest. apply IH in Hrest as [-> ->]. simpl.
    by rewrite <- !app_assoc.
Qed.

(** When every prediction is its target and [compute] returns, the average
    edit distance and the average edit distance per character are both 0. *)
Theorem compute_of_perfect_predictions (sc sc' : Scorer) :
  preds sc = trues sc ->
  compute sc = Ok sc' ->
  exists s, scores sc' = Some s /\ leven s = 0%float /\ leven_per_char s = 0%float.
Proof.
  intros Hsame Hc. unfold compute in Hc. rewrite Hsame in Hc.
  destruct (mapM _ _) as [accs|e]; [|done].
  destruct (compute_loop _ _) as [[ls cs]|e] eqn:Hloop; [|done].
  apply compute_loop_same in Hloop as [-> ->].
  unfold mbind, result_bind in Hc. cbv beta iota in Hc.
  destruct (statistics_mean accs) as [acc|e]; [|done].
  destruct (decode sc (trues sc)) as [|t texts]; [done|].
  rewrite (mean_of_zeros (map PyFloat.of_Z _)) in Hc.
  - rewrite (mean_of_zeros (_ ++ _)) in Hc.
    + injection Hc as <-. simpl. eauto.
    + done.
    + simpl. constructor; [done|]. by apply Forall_replicate.
  - done.
  - simpl. constructor; [done|]. apply Forall_fmap, Forall_replicate. done.
Qed.

(** ** The tagger built from settings *)

(** What [settings] reports of a tagger that [__init__] built is what
    [__init__] keeps: a tagger built from those settings, as [load] builds
    it, reports them again, the fallback of the two hidden dimensions to
    [hidden_size] included.  (Of the network and of its device, which
    [settings] does not report, nothing is said.) *)
Theorem init_from_own_settings `{backend : Backend} (vocab vocab' : LabelEncoder)
    (kw : Settings) :
  let t := Seq2SeqTokenizer_init vocab kw in
  let t' := Seq2SeqTokenizer_init vocab' (settings t) in
  settings t' = settings t /\ vocabulary t' = vocab'.
Proof.
  unfold Seq2SeqTokenizer_init. simpl. split; [|done].
  destruct (negb (enc_hid_dim kw =? 0) && negb (dec_hid_dim kw =? 0)) eqn:Hkeep.
  - by rewrite Hkeep.
  - destruct (hidden_size kw =? 0); simpl; done.
Qed.

(** ** Paths: [utils.ensure_ext] *)

Section PathFacts.

Local Abbreviation L := list_ascii_of_string.
Local Abbreviation S_ := string_of_list_ascii.

Lemma list_ascii_of_string_app (a b : string) : L (a +:+ b) = L a ++ L b.
Proof. induction a as [|x a IH]; [done|]. simpl. by rewrite IH. Qed.

Lemma string_of_list_ascii_app (a b : list ascii) : S_ (a ++ b) = S_ a +:+ S_ b.
Proof. induction a as [|x a IH]; [done|]. simpl. by rewrite IH. Qed.

Lemma append_cons x (a b : string) : String x a +:+ b = String x (a +:+ b).
Proof. reflexivity. Qed.

Lemma append_nil_r (a : string) : a +:+ "" = a.
Proof. induction a as [|x a IH]; [done|]. by rewrite append_cons, IH. Qed.

Lemma append_assoc (a b c : string) : (a +:+ b) +:+ c = a +:+ b +:+ c.
Proof. induction a as [|x a IH]; [done|]. by rewrite !append_cons, IH. Qed.

Lemma rfind_scan_fst c p st :
  (fold_left (rfind_step c) p st).1 = st.1 + Z.of_nat (length p).
Proof.
  revert st. induction p as [|x p IH]; intros st; simpl; [lia|].
  rewrite IH. simpl. lia.
Qed.

Lemma rfind_scan_notin c p st :
  c ∉ p -> (fold_left (rfind_step c) p st).2 = st.2.
Proof.
  revert st. induction p as [|x p IH]; intros st Hnotin; [done|].
  apply not_elem_of_cons in Hnotin as [Hne Hnotin]. simpl.
  rewrite IH by done. simpl. by rewrite decide_False.
Qed.

Lemma rfind_none c p : c ∉ p -> Str.rfind c p = -1.
Proof. intros Hnotin. unfold Str.rfind. by apply (rfind_scan_notin c p (0, -1)). Qed.

Lemma rfind_last c a b : c ∉ b -> Str.rfind c (a ++ c :: b) = Z.of_nat (length a).
Proof.
  intros Hnotin. unfold Str.rfind.
  change (fold_left _ (a ++ c :: b) (0, -1))
    with (fold_left (rfind_step c) (a ++ c :: b) (0, -1)).
  rewrite fold_left_app. simpl.
  rewrite rfind_scan_notin by done. simpl. rewrite decide_True by done.
  by rewrite rfind_scan_fst.
Qed.

Lemma rfind_app_notin c a b : c ∉ b -> Str.rfind c (a ++ b) = Str.rfind c a.
Proof.
  intros Hnotin. unfold Str.rfind.
  change (fold_left _ (a ++ b) (0, -1)) with (fold_left (rfind_step c) (a ++ b) (0, -1)).
  rewrite fold_left_app. by rewrite rfind_scan_notin.
Qed.

Lemma rfind_bounds c p : -1 <= Str.rfind c p < Z.of_nat (length p).
Proof.
  destruct (decide (c ∈ p)) as [Hin|Hnotin].
  - apply list_elem_of_split_r in Hin as (a & b & -> & Hb).
    rewrite rfind_last by done. rewrite length_app. simpl. lia.
  - rewrite rfind_none by done. lia.
Qed.

(** [os.path.splitext] either leaves the path whole, or cuts it at a dot that
    follows a named stem. *)
Lemma splitext_parts (path : string) :
  os_path_splitext path = (path, "")
  \/ exists root rest,
       os_path_splitext path = (S_ root, String "." (S_ rest))
       /\ L path = root ++ "."%char :: rest
       /\ named root.
Proof.
  unfold os_path_splitext.
  set (p := L path).
  destruct (Str.rfind "/"%char p <? Str.rfind "."%char p) eqn:Hlt; [|by left].
  destruct (existsb _ _) eqn:Hname; [|by left]. simpl. right.
  apply Z.ltb_lt in Hlt.
  destruct (decide ("."%char ∈ p)) as [Hin|Hnotin].
  2:{ rewrite (rfind_none "."%char) in Hlt by done.
      pose proof (rfind_bounds "/"%char p). lia. }
  apply list_elem_of_split_r in Hin as (a & b & Hp & Hb).
  rewrite Hp in *. rewrite (rfind_last "."%char) in * by done.
  assert ("/"%char ∉ b) as Hsep.
  { intros Hin. apply list_elem_of_split_r in Hin as (b1 & b2 & -> & Hb2).
    replace (a ++ "."%char :: b1 ++ "/"%char :: b2)
      with ((a ++ "."%char :: b1) ++ "/"%char :: b2) in Hlt
      by (by rewrite <- app_assoc).
    rewrite rfind_last in Hlt by done. rewrite length_app in Hlt. simpl in Hlt. lia. }
  assert ("/"%char ∉ "."%char :: b) as Hsep'.
  { apply not_elem_of_cons. done. }
  rewrite (rfind_app_notin "/"%char a) in Hname by done.
  unfold Str.slice_to, Str.slice_from in *. rewrite Nat2Z.id in *.
  rewrite take_app_length in Hname. rewrite take_app_length, drop_app_length.
  exists a, b. done.
Qed.

Lemma drop_dot_plain (ext : string) : "."%char ∉ L ext -> Utils.drop_dot ext = ext.
Proof.
  destruct ext as [|x ext]; [done|]. simpl. intros Hnotin.
  apply not_elem_of_cons in Hnotin as [Hne _].
  destruct x as [[] [] [] [] [] [] [] []]; try done.
Qed.

(** Without an infix, [ensure_ext] only ever appends.  Its result is a stem
    followed by a dot and the extension, and the stem is the given path, or
    the given path without its final dot, or the given path without the
    extension when it already had it. *)
Theorem ensure_ext_only_appends (path ext : string) :
  exists stem,
    Utils.ensure_ext path ext None = stem +:+ "." +:+ Utils.drop_dot ext
    /\ (path = stem \/ path = stem +:+ "."
        \/ path = stem +:+ "." +:+ Utils.drop_dot ext).
Proof.
  unfold Utils.ensure_ext, Utils.join2.
  destruct (splitext_parts path) as [->|(root & rest & -> & Hpath & _)].
  - exists path. simpl. split; [done|by left].
  - assert (path = S_ root +:+ "." +:+ S_ rest) as Hp.
    { rewrite <- (string_of_list_ascii_of_string path), Hpath.
      by rewrite string_of_list_ascii_app. }
    simpl.
    destruct (decide (S_ rest = "")) as [Hnil|Hsome].
    { rewrite Hnil in *. exists (S_ root). simpl. split; [done|]. right. by left. }
    rewrite (bool_decide_eq_false_2 (S_ rest = "")) by done. simpl.
    destruct (decide (S_ rest = Utils.drop_dot ext)) as [Hsame|Hother].
    + rewrite (bool_decide_eq_true_2 _ Hsame). simpl.
      exists (S_ root). split; [done|]. right. right. by rewrite <- Hsame.
    + rewrite (bool_decide_eq_false_2 _ Hother). simpl.
      exists path. split; [|by left]. by rewrite <- Hp.
Qed.

Lemma named_existsb (p : list ascii) :
  (exists x, x ∈ L (os_path_basename (S_ p)) /\ x <> "."%char) -> named p.
Proof.
  unfold os_path_basename, named.
  rewrite !list_ascii_of_string_of_list_ascii.
  intros (x & Hin & Hne). apply existsb_exists. exists x.
  split; [by apply list_elem_of_In|]. by rewrite bool_decide_eq_false_2.
Qed.

(** A path that already ends in the extension, after a named stem, is what
    [os.path.splitext] cuts back into the two. *)
Lemma splitext_of_extended (stem e : list ascii) :
  "."%char ∉ e -> "/"%char ∉ e -> named stem ->
  os_path_splitext (S_ (stem ++ "."%char :: e)) = (S_ stem, String "." (S_ e)).
Proof.
  intros Hdot Hsep Hname. unfold os_path_splitext.
  rewrite list_ascii_of_string_of_list_ascii.
  rewrite (rfind_last "."%char) by done.
  assert ("/"%char ∉ "."%char :: e) as Hsep' by (by apply not_elem_of_cons).
  rewrite (rfind_app_notin "/"%char) by done.
  unfold Str.slice_to, Str.slice_from. rewrite Nat2Z.id.
  rewrite take_app_length, drop_app_length.
  pose proof (rfind_bounds "/"%char stem) as Hb.
  destruct (Z.ltb_spec (Str.rfind "/"%char stem) (Z.of_nat (length stem))); [|lia].
  unfold named, Str.slice_from in Hname. by rewrite Hname.
Qed.

Lemma ensure_ext_of_extended (stem e : list ascii) :
  "."%char ∉ e -> "/"%char ∉ e -> named stem ->
  Utils.ensure_ext (S_ stem +:+ "." +:+ S_ e) (S_ e) None = S_ stem +:+ "." +:+ S_ e.
Proof.
  intros Hdot Hsep Hname. unfold Utils.ensure_ext.
  replace (S_ stem +:+ "." +:+ S_ e) with (S_ (stem ++ "."%char :: e))
    by (by rewrite string_of_list_ascii_app).
  rewrite splitext_of_extended by done.
  rewrite (drop_dot_plain (S_ e)) by (by rewrite list_ascii_of_string_of_list_ascii).
  simpl. rewrite (bool_decide_eq_true_2 (S_ e = S_ e)) by done.
  rewrite andb_false_r. unfold Utils.join2. by rewrite string_of_list_ascii_app.
Qed.

(** [ensure_ext] is idempotent on a path whose file name has a character
    other than a dot, for an extension with neither a dot nor a slash: the
    path that [Trainer.save] returns is then the path that
    [Seq2SeqTokenizer.load] opens when it is given that path. *)
Theorem ensure_ext_idempotent (path ext : string) :
  "."%char ∉ L ext -> "/"%char ∉ L ext ->
  (exists x, x ∈ L (os_path_basename path) /\ x <> "."%char) ->
  Utils.ensure_ext (Utils.ensure_ext path ext None) ext None
  = Utils.ensure_ext path ext None.
Proof.
  intros Hdot Hsep Hname.
  rewrite <- (string_of_list_ascii_of_string path) in Hname.
  apply named_existsb in Hname.
  assert (exists stem, Utils.ensure_ext path ext None = S_ stem +:+ "." +:+ ext
                       /\ named stem) as (stem & -> & Hstem).
  { unfold Utils.ensure_ext, Utils.join2. rewrite (drop_dot_plain ext) by done.
    destruct (splitext_parts path) as [->|(root & rest & -> & Hpath & Hroot)].
    - exists (L path). simpl. by rewrite string_of_list_ascii_of_string.
    - simpl. destruct (negb _ && negb _).
      + exists (L path). split; [|done].
        rewrite Hpath, string_of_list_ascii_app. reflexivity.
      + by exists root. }
  rewrite <- (string_of_list_ascii_of_string ext).
  apply ensure_ext_of_extended; done.
Qed.

Lemma existsb_slice_false (P : ascii -> bool) (k d : nat) (p : list ascii) :
  existsb P (drop k p) = false -> existsb P (drop k (take d p)) = false.
Proof.
  intros Hall. apply not_true_is_false. intros Hex.
  apply existsb_exists in Hex as (x & Hin & Hx).
  apply list_elem_of_In, list_elem_of_lookup in Hin as [i Hi].
  rewrite lookup_drop in Hi. apply lookup_take_Some in Hi as [Hi _].
  assert (existsb P (drop k p) = true) as Hyes; [|congruence].
  apply existsb_exists. exists x. split; [|done].
  apply list_elem_of_In, list_elem_of_lookup. exists i. by rewrite lookup_drop.
Qed.

Lemma splitext_unnamed (p : list ascii) :
  ~ named p -> os_path_splitext (S_ p) = (S_ p, "").
Proof.
  intros Hname. unfold os_path_splitext. rewrite list_ascii_of_string_of_list_ascii.
  unfold named, Str.slice_from, Str.slice_to in *.
  apply not_true_is_false in Hname.
  rewrite (existsb_slice_false _ _ _ _ Hname). by rewrite andb_false_r.
Qed.

Lemma splitext_of_extended_unnamed (stem e : list ascii) :
  "."%char ∉ e -> "/"%char ∉ e -> ~ named stem ->
  os_path_splitext (S_ (stem ++ "."%char :: e)) = (S_ (stem ++ "."%char :: e), "").
Proof.
  intros Hdot Hsep Hname. unfold os_path_splitext.
  rewrite list_ascii_of_string_of_list_ascii.
  rewrite (rfind_last "."%char) by done.
  assert ("/"%char ∉ "."%char :: e) as Hsep' by (by apply not_elem_of_cons).
  rewrite (rfind_app_notin "/"%char) by done.
  unfold Str.slice_to, Str.slice_from. rewrite Nat2Z.id.
  rewrite take_app_length.
  unfold named, Str.slice_from in Hname. apply not_true_is_false in Hname.
  by rewrite Hname, andb_false_r.
Qed.

(** Applied twice to a path without a file name, one that ends in a slash or
    in a component made of dots, [ensure_ext] appends the extension twice:
    [Seq2SeqTokenizer.load] does not look for such an archive where
    [Trainer.save], given the same path, has just written it. *)
Theorem ensure_ext_appends_again (path ext : string) :
  "."%char ∉ L ext -> "/"%char ∉ L ext ->
  (forall x, x ∈ L (os_path_basename path) -> x = "."%char) ->
  Utils.ensure_ext path ext None = path +:+ "." +:+ ext
  /\ Utils.ensure_ext (Utils.ensure_ext path ext None) ext None
     = (path +:+ "." +:+ ext) +:+ "." +:+ ext.
Proof.
  intros Hdot Hsep Hdots.
  assert (~ named (L path)) as Hname.
  { unfold named. intros Hex. apply existsb_exists in Hex as (x & Hin & Hx).
    unfold os_path_basename in Hdots. rewrite list_ascii_of_string_of_list_ascii in Hdots.
    apply list_elem_of_In, Hdots in Hin as ->. by rewrite bool_decide_eq_true_2 in Hx. }
  assert (Utils.ensure_ext path ext None = path +:+ "." +:+ ext) as ->.
  { unfold Utils.ensure_ext, Utils.join2.
    rewrite <- (string_of_list_ascii_of_string path) at 1.
    rewrite splitext_unnamed by done. rewrite string_of_list_ascii_of_string.
    rewrite (drop_dot_plain ext) by done. change (Utils.drop_dot "") with "".
    by rewrite (bool_decide_eq_true_2 ("" = "")). }
  split; [done|]. unfold Utils.ensure_ext, Utils.join2.
  replace (path +:+ "." +:+ ext) with (S_ (L path ++ "."%char :: L ext)) at 1.
  2:{ rewrite string_of_list_ascii_app. simpl.
      by rewrite !string_of_list_ascii_of_string. }
  rewrite splitext_of_extended_unnamed by done.
  rewrite (drop_dot_plain ext) by done. change (Utils.drop_dot "") with "".
  rewrite (bool_decide_eq_true_2 ("" = "")) by done. simpl.
  rewrite string_of_list_ascii_app. simpl.
  by rewrite !string_of_list_ascii_of_string.
Qed.

(** With an infix, on a path that ends in an extension without dot or slash,
    after a stem whose file name has a character other than a dot: the infix
    goes between the stem and the extension, and an extension other than the
    wanted one is kept in front of it.  The examples of the docstring are
    instances. *)
Theorem ensure_ext_infix (stem ext old infix : string) :
  "."%char ∉ L ext -> "/"%char ∉ L ext ->
  "."%char ∉ L old -> "/"%char ∉ L old ->
  (exists x, x ∈ L (os_path_basename stem) /\ x <> "."%char) ->
  Utils.ensure_ext (stem +:+ "." +:+ ext) ext (Some infix)
  = (stem +:+ "-" +:+ infix) +:+ "." +:+ ext
  /\ (old <> "" -> old <> ext ->
      Utils.ensure_ext (stem +:+ "." +:+ old) ext (Some infix)
      = ((stem +:+ "-" +:+ infix) +:+ "." +:+ old) +:+ "." +:+ ext).
Proof.
  intros Hdot Hsep Hdot' Hsep' Hname.
  rewrite <- (string_of_list_ascii_of_string stem) in Hname.
  apply named_existsb in Hname.
  assert (forall e : string, "."%char ∉ L e -> "/"%char ∉ L e ->
            os_path_splitext (stem +:+ "." +:+ e) = (stem, String "." e)) as Hsplit.
  { intros e He He'.
    replace (stem +:+ "." +:+ e) with (S_ (L stem ++ "."%char :: L e)).
    2:{ rewrite string_of_list_ascii_app. simpl.
        by rewrite !string_of_list_ascii_of_string. }
    rewrite splitext_of_extended by done.
    by rewrite !string_of_list_ascii_of_string. }
  unfold Utils.ensure_ext, Utils.join2. split.
  - rewrite Hsplit by done. rewrite (drop_dot_plain ext) by done. simpl.
    rewrite (bool_decide_eq_true_2 (ext = ext)) by done. by rewrite andb_false_r.
  - intros Hsome Hother. rewrite Hsplit by done. rewrite (drop_dot_plain ext) by done.
    simpl. by rewrite !bool_decide_eq_false_2.
Qed.

End PathFacts.

(** ** [Trainer.test] *)

Section TestFacts.
Context `{backend : Backend} `{host : Host}.
Variable format_3f : float -> string.
Variable format_7_3f : float -> string.

Lemma scored_cached sc s sc' : scored sc = Ok (s, sc') -> scores sc' = Some s.
Proof.
  unfold scored. destruct (scores sc) as [s0|] eqn:Hs.
  - by intros [= <- <-].
  - destruct (compute sc) as [sc1|e]; [simpl|done].
    destruct (scores sc1) as [s1|] eqn:Hs1; [|done]. by intros [= <- <-].
Qed.

Lemma scored_again sc s : scores sc = Some s -> scored sc = Ok (s, sc).
Proof. intros Hs. unfold scored. by rewrite Hs. Qed.

(** The [Score] of an epoch pass carries its scorer, and the three averages
    of the [Score] are the cached scores of that scorer. *)
Lemma make_score_scorer loss scorer score :
  make_score loss scorer = Ok score ->
  exists sc s,
    Score.scorer score = Some sc /\ scores sc = Some s
    /\ Score.loss score = loss
    /\ Score.accuracy score = accuracy s /\ Score.leven score = leven s
    /\ Score.leven_per_char score = leven_per_char s.
Proof.
  unfold make_score, _get_perplexity.
  destruct (math_exp loss) as [p|e]; simpl.
  all: unfold get_accuracy; destruct (scored scorer) as [[s sc]|e'] eqn:Hs; [simpl|done].
  all: apply scored_cached in Hs.
  all: unfold avg_levenshteins, avg_levenshteins_per_char.
  all: rewrite (scored_again _ _ Hs); simpl; rewrite (scored_again _ _ Hs); simpl.
  all: intros [= <-]; exists sc, s; by repeat split.
Qed.

Lemma evaluate_score (iterator : DatasetIterator) desc size (w w' : World) score :
  evaluate iterator desc size w = (Ok score, w') ->
  exists sc s,
    Score.scorer score = Some sc /\ scores sc = Some s
    /\ Score.leven score = leven s.
Proof.
  unfold evaluate. intros H.
  apply bind_ok in H as ([] & w1 & _ & H).
  apply bind_ok in H as (w2 & w2' & _ & H).
  apply bind_ok in H as ([] & w3 & _ & H).
  apply bind_ok in H as ([l sc0] & w4 & _ & H).
  apply bind_ok in H as (loss & w5 & _ & H).
  unfold lift_result in H. injection H as H _.
  apply make_score_scorer in H as (sc & s & ? & ? & ? & ? & ? & ?). eauto.
Qed.

(** [test] evaluates and prints, and does nothing else: whether it returns or
    raises, the parameters, the files and the directories are as before.
    Where it returns, it has shown one progress bar and printed one line, and
    the Levenshtein distance of that line, which it asks of the scorer, is
    the one that the [Score] already holds. *)
Theorem test_only_evaluates_and_prints (test_dataset : DatasetIterator)
    (size : Z) (w : World) :
  let out := test format_3f format_7_3f test_dataset size w in
  files out.2 = files w /\ dirs out.2 = dirs w
  /\ model (tagger out.2) = model (tagger w)
  /\ (out.1 = Ok tt ->
      exists score,
        (evaluate test_dataset "Test" size w).1 = Ok score
        /\ trace out.2
           = trace w ++ [Progress "Test";
                         Printed (Text (test_line format_3f format_7_3f score
                                                  (Score.leven score)))]).
Proof.
  intros out. subst out.
  pose proof (evaluate_only_sets_eval_mode test_dataset "Test" size w) as Hw.
  destruct (evaluate test_dataset "Test" size w) as [[score|e] w1] eqn:Hev;
    simpl in Hw; subst w1.
  2:{ unfold test. rewrite (bind_raise_left _ _ _ _ _ Hev). by repeat split. }
  unfold test. rewrite (bind_ok_left _ _ _ _ _ Hev).
  apply evaluate_score in Hev as (sc & s & Hsc & Hs & Hleven).
  unfold mbind, Eff_bind, lift_result, score_scorer. rewrite Hsc. simpl.
  unfold avg_levenshteins. rewrite (scored_again _ _ Hs). simpl.
  repeat split. intros _. exists score. split; [done|].
  rewrite Hleven. by rewrite <- app_assoc.
Qed.

End TestFacts.

(** ** The decoding methods of the tagger *)

Section DecodingFacts.
Context `{torch : Torch}.
Variable v : VocabularyView.

(** [_reverse_loop] stops at the first end-of-sequence index: the symbols it
    yields are those of the indices before it, and what follows it is never
    looked up.  Without such an index every index is looked up. *)
Theorem reverse_loop_stops_at_eos (before after : list Z) :
  eostoken v ∉ before ->
  _reverse_loop v (before ++ eostoken v :: after) = mapM (itos v) before
  /\ _reverse_loop v before = mapM (itos v) before.
Proof.
  induction before as [|t before IH]; intros Hnotin.
  - simpl. by rewrite bool_decide_eq_true_2.
  - apply not_elem_of_cons in Hnotin as [Hne Hnotin].
    destruct (IH Hnotin) as [IH1 IH2]. simpl.
    rewrite bool_decide_eq_false_2 by done.
    rewrite IH1, IH2. done.
Qed.

Lemma mapM_ext_Forall2 {A B} (f : A -> result B) (l l' : list A) :
  Forall2 (fun x y => f x = f y) l l' -> mapM f l = mapM f l'.
Proof. induction 1 as [|x y l l' Hxy _ IH]; [done|]. simpl. by rewrite Hxy, IH. Qed.

Lemma filter_ignored (s : list Z) :
  Forall (fun ind => ignored v ind = true) s ->
  List.filter (fun ind => negb (ignored v ind)) s = [].
Proof.
  induction 1 as [|ind s Hind _ IH]; [done|]. simpl. by rewrite Hind.
Qed.

(** [reverse] skips the end-of-sequence, start, pad and unknown indices
    wherever they stand after the first position, and goes on past them: the
    texts of a batch do not change when such indices are put into its
    examples, at the end as padding or in the middle. *)
Theorem reverse_skips_ignored_indices (batch batch' : Tensor) :
  Forall2 (with_ignored v) (examples v batch) (examples v batch') ->
  reverse v batch' = reverse v batch.
Proof.
  intros Hrel. unfold reverse. f_equal. symmetry. apply mapM_ext_Forall2.
  eapply Forall2_impl; [exact Hrel|].
  intros ex ex' (first & a & s & b & -> & -> & Hs). simpl. f_equal.
  rewrite !drop_0, !List.filter_app. by rewrite (filter_ignored s).
Qed.

Lemma mapM_length {A B} (f : A -> result B) (l : list A) (k : list B) :
  mapM f l = Ok k -> length k = length l.
Proof.
  revert k. induction l as [|x l IH]; intros k; simpl.
  - by intros [= <-].
  - destruct (f x) as [y|e]; [simpl|done].
    destruct (mapM f l) as [k'|e]; [simpl|done].
    intros [= <-]. simpl. f_equal. by apply IH.
Qed.

Lemma mapM_Forall2 {A B} (f : A -> result B) (l : list A) (k : list B) :
  mapM f l = Ok k -> Forall2 (fun x y => f x = Ok y) l k.
Proof.
  revert k. induction l as [|x l IH]; intros k; simpl.
  - intros [= <-]. constructor.
  - destruct (f x) as [y|e] eqn:Hy; [simpl|done].
    destruct (mapM f l) as [k'|e]; [simpl|done].
    intros [= <-]. constructor; [done|]. by apply IH.
Qed.

Lemma Forall2_mapM_lookup {A B} (f : A -> result B) (l : list A) (k : list B) :
  Forall2 (fun x y => f x = Ok y) l k ->
  forall i y, k !! i = Some y -> exists x, l !! i = Some x /\ f x = Ok y.
Proof.
  intros Hall i y Hy.
  destruct (Forall2_lookup_r _ _ _ _ _ Hall Hy) as (x & Hx & Hxy). eauto.
Qed.

(** Where [_reverse_keep] returns, it returns one list of symbols per
    example, and no index is skipped, the special indices no more than the
    others: the list has one symbol per index of the example, each at the
    place of its index, the first index alone being left out when
    [remove_index] is set. *)
Theorem reverse_keep_keeps_every_index (batch : Tensor) (remove_index : bool)
    (symbols : list (list string)) :
  _reverse_keep v batch remove_index = Ok symbols ->
  let start := if remove_index then 1%nat else 0%nat in
  Forall2 (fun ex out =>
             length out = (length ex - start)%nat
             /\ forall i symbol, out !! i = Some symbol ->
                  exists ind, ex !! (start + i)%nat = Some ind
                              /\ itos v ind = Ok symbol)
          (examples v batch) symbols.
Proof.
  intros H start. unfold _reverse_keep in H. apply mapM_Forall2 in H.
  eapply Forall2_impl; [exact H|].
  intros ex out Hout. fold start in Hout. split.
  - apply mapM_length in Hout. by rewrite length_drop in Hout.
  - intros i symbol Hi. apply mapM_Forall2 in Hout.
    destruct (Forall2_mapM_lookup _ _ _ Hout i symbol Hi) as (ind & Hind & Hsym).
    rewrite lookup_drop in Hind. eauto.
Qed.

End DecodingFacts.

(** ** [Seq2SeqTokenizer.load] on an archive with a plain vocabulary *)

Section LoadFacts.
Context `{backend : Backend} `{host : Host}.



End LoadFacts.

(** ** Instances *)

(** Settle a decidable proposition by evaluating its decision procedure. *)
Ltac by_compute :=
  match goal with
  | |- ?P => let d := constr:(_ : Decision P) in
             apply (@bool_decide_unpack P d); vm_compute; exact I
  end.

Lemma scripted_gzip_round_trip (text : string) :
  @gzip_decompress Scripted.host (@gzip_compress Scripted.host text) = Ok text.
Proof.
  simpl. unfold Scripted.gzip_magic.
  change (list_ascii_of_string (String ?a (String ?b EmptyString) +:+ text))
    with (a :: b :: list_ascii_of_string text).
  simpl. change ("" +:+ text) with text.
  by rewrite drop_0, string_of_list_ascii_of_string.
Qed.

Lemma save_leaves_no_temporary_file_instance :
  files Examples.world_with_notes !! "models/notes.txt" = Some (Regular (Bytes "to do")).
Proof.
  apply (@save_leaves_no_temporary_file (Scripted.backend []) Scripted.host
           "models/model" [] Examples.world_with_notes
           (snd (@save (Scripted.backend []) Scripted.host "models/model" []
                   Examples.world_with_notes))
           "models/model.tar").
  - vm_compute. reflexivity.
  - discriminate.
  - vm_compute. discriminate.
  - vm_compute. reflexivity.
Defined.



Lemma final_save_removes_checkpoint_instance :
  files (world (snd (@final_save (Scripted.backend Runs.losses) Scripted.host
                       "/tmp/uuid-0" PyFloat.inf "models/model.tar"
                       Examples.after_one_epoch)))
    !! "/tmp/uuid-0" = None.
Proof.
  apply (@final_save_removes_checkpoint (Scripted.backend Runs.losses) Scripted.host
           "/tmp/uuid-0" "models/model.tar" PyFloat.inf Examples.after_one_epoch).
  - discriminate.
  - vm_compute. discriminate.
  - vm_compute. discriminate.
  - vm_compute. reflexivity.
Defined.

Lemma run_on_empty_training_set_instance :
  let out := @run (Scripted.backend []) Scripted.host Examples.nothing_to_train
               1e-3 0.75 "models/model.tar" mode_loss (Scripted.world0 []) in
  fst out = Raise ZeroDivisionError
  /\ files (snd out) = files (Scripted.world0 [])
  /\ dirs (snd out) = dirs (Scripted.world0 []).
Proof.
  apply (@run_on_empty_training_set (Scripted.backend []) Scripted.host
           Examples.nothing_to_train).
  - reflexivity.
  - reflexivity.
Defined.

Lemma gzip_member_round_trip_instance :
  exists members,
    files (snd (@add_gzip_to_tar (Scripted.backend []) Scripted.host
                  Examples.greeting "greeting" "models/a.tar"
                  Examples.world_with_archive))
      !! "models/a.tar" = Some (Archive members)
    /\ @get_gzip_from_tar (Scripted.backend []) Scripted.host members "greeting"
       = Ok "salve".
Proof.
  exact (@gzip_member_round_trip (Scripted.backend []) Scripted.host
           Examples.greeting "greeting" "models/a.tar" Examples.world_with_archive
           (snd (@add_gzip_to_tar (Scripted.backend []) Scripted.host
                   Examples.greeting "greeting" "models/a.tar"
                   Examples.world_with_archive))
           (scripted_gzip_round_trip Examples.greeting) eq_refl).
Defined.

Lemma save_members_read_back_instance :
  let w := Scripted.world0 [] in
  exists members,
    files (snd (@save (Scripted.backend []) Scripted.host "models/model" [] w))
      !! "models/model.tar" = Some (Archive members)
    /\ @get_gzip_from_tar (Scripted.backend []) Scripted.host members "settings.json.zip"
       = Ok (Str.strip (@json_dumps Scripted.host (settings (tagger w))))
    /\ @get_gzip_from_tar (Scripted.backend []) Scripted.host members "vocabulary.json"
       = Ok (Str.strip (dump (vocabulary (tagger w))))
    /\ tar_member "state_dict.pt" members = Ok (Pickled (model (tagger w))).
Proof.
  apply (@save_members_read_back (Scripted.backend []) Scripted.host
           "models/model" [] (Scripted.world0 [])).
  - apply scripted_gzip_round_trip.
  - vm_compute. reflexivity.
Defined.

Lemma scores_are_not_refreshed_instance :
  let s := {| accuracy := 1; leven := 0; leven_per_char := 0 |} in
  let sc' := register_batch [[1; 2; 4]] [[1; 2; 3]] [[1; 2; 3]] Examples.computed in
  get_accuracy sc' = Ok (accuracy s, sc')
  /\ avg_levenshteins sc' = Ok (leven s, sc')
  /\ avg_levenshteins_per_char sc' = Ok (leven_per_char s, sc').
Proof.
  apply (scores_are_not_refreshed [[1; 2; 4]] [[1; 2; 3]] [[1; 2; 3]] Examples.computed).
  vm_compute. reflexivity.
Defined.

Lemma compute_of_no_example_raises_instance :
  compute (Scorer_init latin) = Raise StatisticsError
  \/ compute (Scorer_init latin) = Raise ZeroDivisionError.
Proof.
  apply (compute_of_no_example_raises (Scorer_init latin)). left. reflexivity.
Defined.

Lemma compute_of_perfect_predictions_instance :
  exists s, scores Examples.computed = Some s
    /\ leven s = 0%float /\ leven_per_char s = 0%float.
Proof.
  apply (compute_of_perfect_predictions Examples.perfect Examples.computed).
  - reflexivity.
  - vm_compute. reflexivity.
Defined.

Lemma ensure_ext_idempotent_instance :
  Utils.ensure_ext (Utils.ensure_ext "models/model" "tar" None) "tar" None
  = Utils.ensure_ext "models/model" "tar" None.
Proof.
  apply (ensure_ext_idempotent "models/model" "tar").
  - by_compute.
  - by_compute.
  - exists "m"%char. split; [|discriminate].
    by_compute.
Defined.

Lemma ensure_ext_appends_again_instance :
  Utils.ensure_ext "models/" "tar" None = "models/" +:+ "." +:+ "tar"
  /\ Utils.ensure_ext (Utils.ensure_ext "models/" "tar" None) "tar" None
     = ("models/" +:+ "." +:+ "tar") +:+ "." +:+ "tar".
Proof.
  apply (ensure_ext_appends_again "models/" "tar").
  - by_compute.
  - by_compute.
  - intros x Hx. vm_compute in Hx. by apply elem_of_nil in Hx.
Defined.

(** The first two examples of the docstring of [ensure_ext]. *)
Lemma ensure_ext_infix_instance :
  Utils.ensure_ext ("model" +:+ "." +:+ "pt") "pt" (Some "0.87")
  = ("model" +:+ "-" +:+ "0.87") +:+ "." +:+ "pt"
  /\ ("test" <> "" -> "test" <> "pt" ->
      Utils.ensure_ext ("model" +:+ "." +:+ "test") "pt" (Some "0.87")
      = (("model" +:+ "-" +:+ "0.87") +:+ "." +:+ "test") +:+ "." +:+ "pt").
Proof.
  apply (ensure_ext_infix "model" "pt" "test" "0.87").
  - by_compute.
  - by_compute.
  - by_compute.
  - by_compute.
  - exists "m"%char. split; [|discriminate].
    by_compute.
Defined.

Lemma reverse_loop_stops_at_eos_instance :
  _reverse_loop Examples.view ([1; 2] ++ eostoken Examples.view :: [3])
  = mapM (itos Examples.view) [1; 2]
  /\ _reverse_loop Examples.view [1; 2] = mapM (itos Examples.view) [1; 2].
Proof.
  apply (reverse_loop_stops_at_eos Examples.view [1; 2] [3]).
  by_compute.
Defined.

Lemma reverse_skips_ignored_indices_instance :
  @reverse Examples.nested_lists Examples.view [[27; 1; 2; 3; 28; 0; 0]]
  = @reverse Examples.nested_lists Examples.view [[27; 1; 2; 3]].
Proof.
  apply (@reverse_skips_ignored_indices Examples.nested_lists Examples.view
           [[27; 1; 2; 3]] [[27; 1; 2; 3; 28; 0; 0]]).
  constructor; [|constructor].
  exists 27, [1; 2; 3], [28; 0; 0], []. split; [reflexivity|]. split; [reflexivity|].
  repeat constructor.
Defined.

Lemma reverse_keep_keeps_every_index_instance :
  Forall2 (fun ex out =>
             length out = (length ex - 1)%nat
             /\ forall i symbol, out !! i = Some symbol ->
                  exists ind, ex !! (1 + i)%nat = Some ind
                              /\ itos Examples.view ind = Ok symbol)
          (@examples Examples.nested_lists Examples.view [[27; 1; 2; 28]])
          [["a"; "b"; "?"]].
Proof.
  apply (@reverse_keep_keeps_every_index Examples.nested_lists Examples.view
           [[27; 1; 2; 28]] true [["a"; "b"; "?"]]).
  vm_compute. reflexivity.
Defined.

Lemma early_stop_starts_the_next_epoch_instance :
  let a := Scripted.args [] 1e-6 0 10 2 in
  let f := Runs.untrained 1e-7 in
  let f1 := snd (@epoch_body (Scripted.backend []) Scripted.host a "/tmp/uuid-0"
                   PyFloat.inf 1 f) in
  exists more,
    trace (world (snd (@epoch_loop (Scripted.backend []) Scripted.host a "/tmp/uuid-0"
                         PyFloat.inf [1; 2] f)))
    = trace (world f1)
      ++ Printed (Text "Reached plateau for too long, stopping.")
      :: Progress (epoch_desc "Training" 2 (n_epochs a)) :: more.
Proof.
  intros a f f1.
  apply (@early_stop_starts_the_next_epoch (Scripted.backend []) Scripted.host
           a "/tmp/uuid-0" PyFloat.inf 1 2 [] f f1).
  vm_compute. reflexivity.
Defined.


(** An interrupted run, too, ends with the archive. *)
Lemma run_ends_with_the_archive_instance :
  files (snd Runs.interrupted) !! Utils.ensure_ext "models/model.tar" "tar" None
  = Some (@archive_of (Scripted.backend Runs.losses) Scripted.host
            (tagger (snd Runs.interrupted)))
  /\ exists before,
       trace (snd Runs.interrupted) = before ++ [Printed (Text "Saved !")].
Proof.
  apply (@run_ends_with_the_archive (Scripted.backend Runs.losses) Scripted.host
           {| train_dataset := Scripted.dataset Runs.losses;
              dev_dataset := Scripted.dataset Runs.losses;
              min_lr := 1e-6; lr_patience := 10; lr_grace_periode := 10; n_epochs := 3;
              batch_size := 256; clip := 1;
              debug := Some (fun _ => Raise KeyboardInterrupt) |}
           1e-3 0.75 "models/model.tar" mode_loss (Scripted.world0 Runs.losses)).
  vm_compute. reflexivity.
Defined.

Lemma tmpfile_removes_its_path_instance :
  let w := Scripted.world0 [] in
  let body := fun path => @write_file (Scripted.backend []) path (Regular (Bytes "draft")) in
  files (snd (@with_tmpfile (Scripted.backend []) Scripted.host unit body w))
    !! @tmppath_of (Scripted.backend []) Scripted.host w = None
  /\ @tmppath_of (Scripted.backend []) Scripted.host w
     ∉ dirs (snd (@with_tmpfile (Scripted.backend []) Scripted.host unit body w)).
Proof.
  intros w body.
  apply (@tmpfile_removes_its_path (Scripted.backend []) Scripted.host unit body tt w).
  - vm_compute. reflexivity.
  - intros w2 Hbody Hdir. vm_compute in Hbody. injection Hbody as <-.
    exfalso. revert Hdir. by_compute.
Defined.
